(** * TLE-Lite, [cogs/graphs.py]: the data pipeline behind the plot commands

    A shallow embedding of the pure data transformations of
    [src/cogs/graphs.py] (submission classification, running mean,
    peak prefix, rating histogram, percentile) and the properties the
    specification states about them, followed by the data that the
    commands [rating], [scatter] and [solved] hand to the figure and by
    further properties of the module.

    Conventions.
    - Python [int] is [Z].  Python's [//] and [%] are floor division and
      the matching remainder, which is what [Z.div] and [Z.modulo] are.
    - Python numbers that go through true division [/] are modelled by exact
      rationals in canonical form ([Qc]); an [int] is embedded with
      [Qc_of_Z], and an exact quotient stands for the binary64 nearest to
      it, which is what [/] returns on two [int]s.  This is the arithmetic
      of the source wherever its sums are exact: on [int]s, and on [float]s
      that hold non-negative whole numbers whose sum is at most [2^53].
      The statements about computed values carry these hypotheses; where a
      sum rounds, [Binary64] has the same function on binary64.  [round] is
      applied to the exact quotient.
    - The conversions between [datetime] and timestamps raise outside the
      range of [datetime].  They are total here, so the model describes the
      runs in which every conversion returns, and a statement about code
      that calls them says what such a run returns.
    - A Python exception is a value [Raise e] of the type [result];
      statements are sequenced with the bind of that monad.
    - A Python [list] is a Rocq [list]; indexing follows Python (negative
      indexes count from the end, anything else out of range raises
      [IndexError]).
    - A Python [dict] is a [gmap]. *)

From Stdlib Require Import ZArith QArith Qcanon Lia List Sorted.
From Stdlib Require HexadecimalString PrimFloat FloatOps SpecFloat.
From stdpp Require Import base tactics option list numbers strings gmap pretty sorting.
From Equations Require Import Equations.

Local Open Scope Z_scope.

(** ** Python runtime *)

Module Py.

Inductive exn : Set :=
| IndexError
| KeyError
| ZeroDivisionError
| AssertionError
| ValueError
| OverflowError
| GraphCogError.

Inductive result (A : Type) : Type :=
| Ok (a : A)
| Raise (e : exn).
Global Arguments Ok {A} a.
Global Arguments Raise {A} e.

Global Instance result_ret : MRet result := fun A a => Ok a.
Global Instance result_bind : MBind result := fun A B k m =>
  match m with
  | Ok a => k a
  | Raise e => Raise e
  end.

(** [assert c] *)
Definition assert (c : bool) : result unit :=
  if c then Ok tt else Raise AssertionError.

(** [len(l)] *)
Definition len {A} (l : list A) : Z := Z.of_nat (length l).

(** The position a Python index denotes in a list of length [n]. *)
Definition position (n i : Z) : option nat :=
  if decide (0 <= i < n) then Some (Z.to_nat i)
  else if decide (- n <= i < 0) then Some (Z.to_nat (n + i))
  else None.

(** [l[i]] *)
Definition getitem {A} (l : list A) (i : Z) : result A :=
  match position (len l) i with
  | Some k => match l !! k with
              | Some v => Ok v
              | None => Raise IndexError
              end
  | None => Raise IndexError
  end.

(** [l[i] = v] *)
Definition setitem {A} (l : list A) (i : Z) (v : A) : result (list A) :=
  match position (len l) i with
  | Some k => Ok (<[k:=v]> l)
  | None => Raise IndexError
  end.

(** [[v] * k]: empty when [k <= 0]. *)
Definition repeat {A} (v : A) (k : Z) : list A := replicate (Z.to_nat k) v.

(** [range(start, stop)] *)
Definition range (start stop : Z) : list Z := seqZ start (stop - start).

(** [for x in xs: s = body x s] *)
Fixpoint for_in {A S} (xs : list A) (body : A -> S -> result S) (s : S)
  : result S :=
  match xs with
  | [] => Ok s
  | x :: xs' => s' ← body x s; for_in xs' body s'
  end.

End Py.
Import Py.

(** ** More of the Python runtime: numbers, slices, formatting, [bisect] *)

Module PyNum.

(** [a / b] on two [int]s *)
Definition truediv (a b : Z) : result Qc :=
  if b =? 0 then Raise ZeroDivisionError
  else Ok (Qc_of_Z a / Qc_of_Z b)%Qc.

(** [a / b] on a number and an [int] *)
Definition truediv_num (a : Qc) (b : Z) : result Qc :=
  if b =? 0 then Raise ZeroDivisionError
  else Ok (a / Qc_of_Z b)%Qc.

(** [a // b] and [a % b] *)
Definition floordiv (a b : Z) : result Z :=
  if b =? 0 then Raise ZeroDivisionError else Ok (a / b).
Definition mod_ (a b : Z) : result Z :=
  if b =? 0 then Raise ZeroDivisionError else Ok (a mod b).

(** [round(q)]: to the nearest integer, a tie going to the even one. *)
Definition round (q : Qc) : Z :=
  let n := Qnum q in
  let d := Z.pos (Qden q) in
  let f := n / d in
  let r2 := 2 * (n mod d) in
  if r2 <? d then f
  else if d <? r2 then f + 1
  else if Z.even f then f else f + 1.

(** [range(start, stop, step)] *)
Definition range_step (start stop step : Z) : result (list Z) :=
  if step =? 0 then Raise ValueError
  else
    let count :=
      if 0 <? step
      then (if start <? stop then (stop - start - 1) / step + 1 else 0)
      else (if stop <? start then (start - stop - 1) / (- step) + 1 else 0)
    in Ok ((fun k => start + k * step) <$> seqZ 0 count).

(** The bound of a slice, clipped as Python clips it. *)
Definition clip (n i : Z) : nat :=
  Z.to_nat (Z.max 0 (Z.min n (if decide (i < 0) then n + i else i))).

(** [l[a:b]] *)
Definition slice {A} (l : list A) (a b : Z) : list A :=
  let a' := clip (len l) a in
  let b' := clip (len l) b in
  take (b' - a')%nat (drop a' l).

(** ['%06x' % n] *)
Definition format_06x (n : Z) : string :=
  let digits :=
    HexadecimalString.NilZero.string_of_uint (N.to_hex_uint (Z.abs_N n)) in
  let sign := if n <? 0 then "-" else "" in
  let pad := (6 - String.length sign - String.length digits)%nat in
  sign +:+ String.concat "" (replicate pad "0") +:+ digits.

(** [min(a, b)] and [max(a, b)] on numbers *)
Definition min_num (a b : Qc) : Qc := if decide (b < a)%Qc then b else a.
Definition max_num (a b : Qc) : Qc := if decide (a < b)%Qc then b else a.

(** [sum(l)] *)
Definition sum (l : list Z) : Z := foldr Z.add 0 l.

(** [sorted(l)] *)
Definition sorted (l : list Z) : list Z := merge_sort Z.le l.

End PyNum.
Import PyNum.

(** [bisect.bisect_left(a, x)] of the Python standard library, with its
    defaults [lo=0], [hi=len(a)]:
    [while lo < hi: mid = (lo + hi) // 2;
       if a[mid] < x: lo = mid + 1 else: hi = mid]. *)
Equations? bisect_left_loop (a : list Z) (x : Z) (lo hi : Z) : result Z
  by wf (Z.to_nat (hi - lo)) lt :=
  bisect_left_loop a x lo hi with decide (lo < hi) := {
    | left _ =>
        let mid := (lo + hi) / 2 in
        match getitem a mid with
        | Ok v => if v <? x then bisect_left_loop a x (mid + 1) hi
                  else bisect_left_loop a x lo mid
        | Raise e => Raise e
        end
    | right _ => Ok lo }.
Proof.
  all: assert (lo <= (lo + hi) / 2 < hi)
    by (split; [apply Z.div_le_lower_bound|apply Z.div_lt_upper_bound]; lia);
    lia.
Qed.

Definition bisect_left (a : list Z) (x : Z) : result Z :=
  bisect_left_loop a x 0 (len a).

(** ** Codeforces API ([util.codeforces_api], imported as [cf]) *)

Module cf.

Record RatingChange : Set := {
  contestId : Z;
  ratingUpdateTimeSeconds : Z;
  oldRating : Z;
  newRating : Z
}.

Record Rank : Set := {
  low : Z;
  high : Z;
  color_graph : string;
  color_embed : Z
}.

Record Party : Set := { participantType : string }.

Record Problem : Set := { rating : Z }.

Record Submission : Set := {
  creationTimeSeconds : Z;
  author : Party;
  problem : Problem
}.

Record User : Set := { handle : string; user_rating : option Z }.

End cf.

(** ** [_classify_submissions]

    [cf.Party.PARTICIPANT_TYPES] is declared in [util/codeforces_api.py];
    it is a parameter here. *)

Definition _classify_submissions (PARTICIPANT_TYPES : list string)
    (submissions : list cf.Submission)
  : result (gmap string (list cf.Submission)) :=
  let solved_by_type : gmap string (list cf.Submission) :=
    list_to_map ((fun sub_type => (sub_type, [])) <$> PARTICIPANT_TYPES) in
  for_in submissions (fun submission solved_by_type =>
    let key := cf.participantType (cf.author submission) in
    match solved_by_type !! key with
    | Some l => Ok (<[key := l ++ [submission]]> solved_by_type)
    | None => Raise KeyError
    end) solved_by_type.

(** ** [_running_mean]

    On exact rationals: the lengths, the indexes and the exceptions are
    those of the source on every sequence of numbers, the values are those
    of the source where its sums are exact (see the conventions). *)

Definition _running_mean (x : list Qc) (bin_size : Z) : result (list Qc) :=
  let n := len x in
  let cum_sum := repeat 0%Qc (n + 1) in
  cum_sum ← for_in (range 0 n) (fun i cum_sum =>
    xi ← getitem x i;
    ci ← getitem cum_sum i;
    setitem cum_sum (i + 1) (xi + ci)%Qc) cum_sum;
  let res := repeat 0%Qc (n - bin_size + 1) in
  for_in (range bin_size (n + 1)) (fun i res =>
    hi ← getitem cum_sum i;
    lo ← getitem cum_sum (i - bin_size);
    mean ← truediv_num (hi - lo)%Qc bin_size;
    setitem res (i - bin_size) mean) res.

(** ** [_running_mean] on binary64

    The same function on Python [float]s, with the arithmetic of the source
    rounded to binary64 (to nearest, ties to even).  [cum_sum] and [res]
    start as lists of the [int] 0, which a sum with a [float] converts to
    [0.0]. *)

Module Binary64.

Import PrimFloat.

(** The binary64 nearest to an integer. *)
Definition nearest (z : Z) : float :=
  FloatOps.SF2Prim
    (SpecFloat.binary_normalize FloatOps.prec FloatOps.emax z 0 false).

(** [float(z)] *)
Definition of_int (z : Z) : result float :=
  let f := nearest z in
  if is_infinity f then Raise OverflowError else Ok f.

(** [a / b] on a [float] and an [int]: the [int] is converted first. *)
Definition truediv_num (a : float) (b : Z) : result float :=
  b' ← of_int b;
  if b =? 0 then Raise ZeroDivisionError else Ok (a / b')%float.

Definition _running_mean (x : list float) (bin_size : Z)
  : result (list float) :=
  let n := len x in
  let cum_sum := repeat 0%float (n + 1) in
  cum_sum ← for_in (range 0 n) (fun i cum_sum =>
    xi ← getitem x i;
    ci ← getitem cum_sum i;
    setitem cum_sum (i + 1) (xi + ci)%float) cum_sum;
  let res := repeat 0%float (n - bin_size + 1) in
  for_in (range bin_size (n + 1)) (fun i res =>
    hi ← getitem cum_sum i;
    lo ← getitem cum_sum (i - bin_size);
    mean ← truediv_num (hi - lo)%float bin_size;
    setitem res (i - bin_size) mean) res.

(** The float [0.1], and its second successor. *)
Definition tenth : float := 0x1.999999999999ap-4%float.
Definition tenth_up : float := 0x1.999999999999cp-4%float.

End Binary64.

(** ** [_plot_average]

    [datetime] and its two conversions belong to the Python standard
    library; the module only moves values through them.  Both conversions
    raise out of range ([ValueError], [OverflowError], [OSError]); the
    class has the conversions of a run in which they return. *)

Class DateTime := {
  datetime : Type;
  timestamp : datetime -> Qc;
  fromtimestamp : Qc -> datetime
}.

(** A call of [plt.plot]: the two series and the label. *)
Record Plot `{DateTime} := {
  plot_x : list datetime;
  plot_y : list Qc;
  plot_label : string
}.

(** The result is the list of the [plt.plot] calls made. *)
Definition _plot_average `{DateTime} (practice : list (datetime * Z))
    (bin_size : Z) (label : string) : result (list Plot) :=
  if len practice >? bin_size then
    '(sub_times, ratings) ←
      match practice with
      | [] => Raise ValueError
      | _ => Ok (practice.*1, practice.*2)
      end;
    let sub_timestamps := timestamp <$> sub_times in
    mean_sub_timestamps ← _running_mean sub_timestamps bin_size;
    let mean_sub_times := fromtimestamp <$> mean_sub_timestamps in
    mean_ratings ← _running_mean (Qc_of_Z <$> ratings) bin_size;
    Ok [ {| plot_x := mean_sub_times; plot_y := mean_ratings;
            plot_label := label |} ]
  else Ok [].

(** The smoothed series of the specification: the points drawn. *)
Definition smooth `{DateTime} (paired_series : list (datetime * Z))
    (window : Z) : result (list (datetime * Qc)) :=
  plots ← _plot_average paired_series window "";
  Ok (plots ≫= fun p => zip (plot_x p) (plot_y p)).

(** ** [max_prefix] (nested in [Graphs.rating]) *)

(** The body of the loop, on the state [(max_rate, res)]. *)
Definition max_prefix_body (st : Z * list cf.RatingChange)
    (data : cf.RatingChange) : Z * list cf.RatingChange :=
  let '(max_rate, res) := st in
  let old_rating := cf.oldRating data in
  let old_rating := if old_rating =? 0 then 1500 else old_rating in
  if (cf.newRating data - old_rating >=? 0)
     && (cf.newRating data >=? max_rate)
  then (cf.newRating data, res ++ [data])
  else (max_rate, res).

Definition max_prefix (user : list cf.RatingChange) : list cf.RatingChange :=
  snd (fold_left max_prefix_body user (0, [])).

(** ** [Graphs._rating_hist]

    [cf.RATED_RANKS] is declared in [util/codeforces_api.py]; it is a
    parameter here.  The arguments [ctx] and [title] only reach the chat
    reply and are left out; the result is the value of the local variables
    handed to [plt.xlim] and [plt.bar]. *)

(** A value together with the equation that it is the value. *)
Definition inspect {A} (a : A) : {b : A | a = b} := exist _ a eq_refl.

(** [while not height[l]: l += 1] *)
Equations? skip_empty_up (height : list Z) (l : Z) : result Z
  by wf (Z.to_nat (len height - l)) lt :=
  skip_empty_up height l with inspect (getitem height l) := {
    | exist _ (Ok h) E =>
        if h =? 0 then skip_empty_up height (l + 1) else Ok l
    | exist _ (Raise e) E => Raise e }.
Proof.
  unfold getitem, position in E.
  repeat case_decide; try discriminate; lia.
Qed.

(** [while not height[r]: r -= 1] *)
Equations? skip_empty_down (height : list Z) (r : Z) : result Z
  by wf (Z.to_nat (len height + r + 1)) lt :=
  skip_empty_down height r with inspect (getitem height r) := {
    | exist _ (Ok h) E =>
        if h =? 0 then skip_empty_down height (r - 1) else Ok r
    | exist _ (Raise e) E => Raise e }.
Proof.
  unfold getitem, position in E.
  repeat case_decide; try discriminate; lia.
Qed.

(** Lines 427-431: one colour per bin, rank by rank. *)
Definition rating_hist_colors (RATED_RANKS : list cf.Rank)
    (low high binsize : Z) : result (list string) :=
  for_in RATED_RANKS (fun rank colors =>
    rs ← range_step (Z.max (cf.low rank) low) (Z.min (cf.high rank) high)
                    binsize;
    for_in rs (fun r colors =>
      Ok (colors ++ ["#" +:+ format_06x (cf.color_embed rank)])) colors) [].

(** Lines 434-436: the counts. *)
Definition rating_hist_height (ratings : list Z) (bins binsize : Z)
  : result (list Z) :=
  for_in ratings (fun r height =>
    ix ← floordiv r binsize;
    h ← getitem height ix;
    setitem height ix (h + 1)) (repeat 0 bins).

(** Lines 438-443: the cumulated percentages. *)
Definition rating_hist_cent (height : list Z) : result (list Z) :=
  let csum := 0 in
  let cent := [0] in
  let users := sum height in
  '(csum, cent) ← for_in height (fun h '(csum, cent) =>
    let csum := csum + h in
    q ← truediv (100 * csum) users;
    Ok (csum, cent ++ [round q])) (csum, cent);
  Ok cent.

Record RatingHist : Set := {
  hist_l : Z;
  hist_r : Z;
  hist_xlim : Z * Z;
  hist_x : list Z;
  hist_cent : list Z;
  hist_label : list string;
  hist_colors : list string;
  hist_height : list Z;
  hist_log : bool
}.

Definition _rating_hist (RATED_RANKS : list cf.Rank) (ratings : list Z)
    (mode : string) (binsize : Z) : result RatingHist :=
  if negb (bool_decide (mode ∈ ["log"; "normal"])) then Raise GraphCogError
  else
    let ratings := filter (fun r => r >= 0) ratings in
    assert (negb (bool_decide (ratings = [])));;
    m ← mod_ 100 binsize;
    assert (m =? 0);;
    bins ← floordiv (39 * 100) binsize;
    let '(low, high) := (0, binsize * bins) in
    colors ← rating_hist_colors RATED_RANKS low high binsize;
    assert (len colors =? bins);;
    height ← rating_hist_height ratings bins binsize;
    cent ← rating_hist_cent height;
    let x := (fun k => k * binsize) <$> range 0 bins in
    let label :=
      (fun '(r, c) => pretty r +:+ " (" +:+ pretty c +:+ ")") <$> zip x cent in
    let '(l, r) := (0, bins - 1) in
    l ← skip_empty_up height l;
    r ← skip_empty_down height r;
    Ok {| hist_l := l;
          hist_r := r;
          hist_xlim := (l * binsize - binsize / 2, r * binsize + binsize / 2);
          hist_x := slice x l (r + 1);
          hist_cent := slice cent l (r + 1);
          hist_label := slice label l (r + 1);
          hist_colors := slice colors l (r + 1);
          hist_height := slice height l (r + 1);
          hist_log := bool_decide (mode = "log") |}.

(** ** [Graphs.centile]: the data of the percentile plot

    [ratings] is the sorted population, [perc] the percentile curve and
    [users_to_mark] the percentile of each marked user. *)

Definition centile_perc (ratings : list Z) : list Qc :=
  let n := len ratings in
  (fun i => Qc_of_Z (100 * i) / Qc_of_Z n)%Qc <$> range 0 n.

(** Lines 502-503: [ix = bisect.bisect_left(ratings, info.rating)],
    [cent = 100*ix/len(ratings)]. *)
Definition centile_cent (ratings : list Z) (rating : Z) : result Qc :=
  ix ← bisect_left ratings rating;
  truediv (100 * ix) (len ratings).

Definition centile_users_to_mark (ratings : list Z) (infos : list cf.User)
  : result (gmap string (Z * Qc)) :=
  for_in infos (fun info users_to_mark =>
    match cf.user_rating info with
    | None => Raise GraphCogError
    | Some rating =>
        cent ← centile_cent ratings rating;
        Ok (<[cf.handle info := (rating, cent)]> users_to_mark)
    end) ∅.

Record Centile : Set := {
  centile_ratings : list Z;
  centile_curve : list Qc;
  centile_marks : gmap string (Z * Qc);
  centile_xlim : Qc * Qc
}.

(** Lines 484-504 and 541-548 of [centile]; [infos] is the answer of
    [cf.user.info] for the handles to mark. *)
Definition centile (all_ratings : list Z) (zoom nomarker : bool)
    (infos : list cf.User) : result Centile :=
  let ratings := sorted all_ratings in
  let perc := centile_perc ratings in
  users_to_mark ←
    (if negb nomarker then centile_users_to_mark ratings infos else Ok ∅);
  xlim ←
    (if negb (bool_decide (users_to_mark = ∅)) && zoom then
       let xs :=
         (fun p => Qc_of_Z (fst (snd p))) <$> map_to_list users_to_mark in
       let xmin := foldr min_num (default 0%Qc (head xs)) xs in
       let xmax := foldr max_num (default 0%Qc (head xs)) xs in
       let xmargin :=
         max_num (Qc_of_Z 20) ((xmax - xmin) * Q2Qc (1 # 10))%Qc in
       Ok ((xmin - xmargin)%Qc, (xmax + xmargin)%Qc)
     else
       first ← getitem ratings 0;
       last ← getitem ratings (-1);
       Ok (Qc_of_Z first, Qc_of_Z last));
  Ok {| centile_ratings := ratings;
        centile_curve := perc;
        centile_marks := users_to_mark;
        centile_xlim := xlim |}.

(** ** More of the Python runtime: truth values, comprehensions, [dict]
    lookup and [str.format] *)

(** [bool(l)] of a list: false on the empty list only. *)
Definition truthy {A} (l : list A) : bool :=
  match l with [] => false | _ => true end.

(** [any(bs)] *)
Definition any (bs : list bool) : bool := existsb id bs.

(** [[f(x) for x in xs]], where [f(x)] can raise. *)
Fixpoint comprehension {A B} (f : A -> result B) (xs : list A)
  : result (list B) :=
  match xs with
  | [] => Ok []
  | x :: xs' => y ← f x; ys ← comprehension f xs'; Ok (y :: ys)
  end.

(** [d[k]] *)
Definition dict_getitem {V} (d : gmap string V) (k : string) : result V :=
  match d !! k with
  | Some v => Ok v
  | None => Raise KeyError
  end.

(** [template.format(arg, ...)] for a template whose replacement fields are
    the automatic field [{}]: each field takes the next argument, and
    [IndexError] is raised when none is left. *)
Module PyStr.

Import Stdlib.Strings.Ascii.
Local Open Scope char_scope.

Fixpoint str_format (template : string) (args : list string)
  : result string :=
  match template with
  | EmptyString => Ok EmptyString
  | String "{" (String "}" rest) =>
      match args with
      | [] => Raise IndexError
      | arg :: args' => s ← str_format rest args'; Ok (arg +:+ s)
      end
  | String c rest => s ← str_format rest args; Ok (String c s)
  end.

End PyStr.
Import PyStr.

(** ** [nice_sub_type] *)

Definition nice_map : gmap string string :=
  list_to_map [("CONTESTANT", "Contest: {}");
               ("OUT_OF_COMPETITION", "Unofficial: {}");
               ("VIRTUAL", "Virtual: {}");
               ("PRACTICE", "Practice: {}")].

Definition nice_sub_type (types : list string) : result (list string) :=
  comprehension (fun t => dict_getitem nice_map t) types.

(** ** [_plot_rating]

    The result is the list of the [plt.plot] calls made, one per user; the
    background of [gc.plot_rating_bg] is drawn by another module. *)

Record Line `{DateTime} := {
  line_x : list datetime;
  line_y : list Z;
  line_marker : string
}.

Definition _plot_rating `{DateTime} (resp : list (list cf.RatingChange))
    (mark : string) : list Line :=
  (fun rating_changes =>
     let '(ratings, times) :=
       fold_left (fun '(ratings, times) rating_change =>
           (ratings ++ [cf.newRating rating_change],
            times ++ [fromtimestamp
                        (Qc_of_Z (cf.ratingUpdateTimeSeconds rating_change))]))
         rating_changes ([], []) in
     {| line_x := times; line_y := ratings; line_marker := mark |}) <$> resp.

(** ** [Graphs.rating]

    Lines 134-171.  [rating_changes_of handle] is the answer of
    [cf.user.rating] for the handle after [filt.filter_rating_changes];
    the flags and the handles are taken after parsing.  The result is what
    reaches the figure: the lines, the legend and the y limits (set only
    without [+zoom]). *)

Record RatingPlot `{DateTime} := {
  rating_lines : list Line;
  rating_legend : list string;
  rating_ylim : option (Z * Z)
}.

Definition rating `{DateTime}
    (rating_changes_of : string -> list cf.RatingChange)
    (handles : list string) (zoom peak : bool) : result RatingPlot :=
  let resp := rating_changes_of <$> handles in
  if negb (any (truthy <$> resp)) then Raise GraphCogError
  else
    let resp := if peak then max_prefix <$> resp else resp in
    let lines := _plot_rating resp "o" in
    current_ratings ← comprehension (fun rating_changes =>
      if truthy rating_changes
      then last ← getitem rating_changes (-1);
           Ok (pretty (cf.newRating last))
      else Ok "Unrated") resp;
    let labels :=
      (fun '(handle, rating) => handle +:+ " (" +:+ rating +:+ ")")
        <$> zip handles current_ratings in
    let ylim :=
      if negb zoom then
        let '(min_rating, max_rating) :=
          fold_left (fun st rating_changes =>
            fold_left (fun '(min_rating, max_rating) rating =>
                (Z.min min_rating (cf.newRating rating),
                 Z.max max_rating (cf.newRating rating)))
              rating_changes st)
            resp (1100, 1800) in
        Some (min_rating - 100, max_rating + 200)
      else None in
    Ok {| rating_lines := lines;
          rating_legend := labels;
          rating_ylim := ylim |}.

(** ** [_plot_scatter]

    The result is the list of the [plt.scatter] calls made. *)

Record ScatterSeries `{DateTime} := {
  scatter_x : list datetime;
  scatter_y : list Z;
  scatter_s : Z
}.

Definition _plot_scatter `{DateTime}
    (regular practice virtual : list (datetime * Z)) (point_size : Z)
  : list ScatterSeries :=
  [practice; regular; virtual] ≫= fun contest =>
    if truthy contest
    then [ {| scatter_x := contest.*1; scatter_y := contest.*2;
              scatter_s := point_size |} ]
    else [].

(** ** [Graphs.scatter]

    Lines 371-405.  [bin_size], [point_size] and [legend] are the
    arguments after parsing; [rating_changes] and [submissions] are the
    answers of [cf.user.rating] and [cf.user.status] for the handle after
    the filter.  A submission is a named tuple of [util/codeforces_api.py]
    with fields, so its truth value in [any(submissions)] is true.  The y
    limits of lines 408-409 start from the limits that matplotlib computed
    and are not part of the result. *)

Definition extract_time_and_rating `{DateTime}
    (submissions : list cf.Submission) : list (datetime * Z) :=
  (fun sub => (fromtimestamp (Qc_of_Z (cf.creationTimeSeconds sub)),
               cf.rating (cf.problem sub))) <$> submissions.

Record ScatterPlot `{DateTime} := {
  scatter_points : list ScatterSeries;
  scatter_legend : option (list string);
  scatter_average : list Plot;
  scatter_rating : list Line
}.

Definition scatter `{DateTime} (PARTICIPANT_TYPES : list string)
    (bin_size point_size : Z) (legend : bool)
    (rating_changes : list cf.RatingChange)
    (submissions : list cf.Submission) : result ScatterPlot :=
  if (bin_size <? 1) || (point_size <? 1) || (point_size >? 100)
  then Raise GraphCogError
  else
    let rating_resp := [rating_changes] in
    (* a submission is a named tuple with fields, hence true *)
    if negb (any ((fun _ => true) <$> submissions)) then Raise GraphCogError
    else
      solved_by_type ← _classify_submissions PARTICIPANT_TYPES submissions;
      contestant ← dict_getitem solved_by_type "CONTESTANT";
      out_of_competition ← dict_getitem solved_by_type "OUT_OF_COMPETITION";
      let regular :=
        extract_time_and_rating (contestant ++ out_of_competition) in
      practice ← dict_getitem solved_by_type "PRACTICE";
      let practice := extract_time_and_rating practice in
      virtual ← dict_getitem solved_by_type "VIRTUAL";
      let virtual := extract_time_and_rating virtual in
      let points := _plot_scatter regular practice virtual point_size in
      let labels :=
        (if truthy practice then ["Practice"] else [])
        ++ (if truthy regular then ["Regular"] else [])
        ++ (if truthy virtual then ["Virtual"] else []) in
      average ← _plot_average practice bin_size "";
      let lines := _plot_rating rating_resp "" in
      Ok {| scatter_points := points;
            scatter_legend := if legend then Some labels else None;
            scatter_average := average;
            scatter_rating := lines |}.

(** ** [Graphs.solved]

    Lines 192-224.  [solved_subs_of handle] is the answer of
    [cf.user.status] for the handle after [filt.filter_subs]; [types],
    [rlo] and [rhi] are the attributes of the filter.  The result is what
    is handed to [plt.hist] and [plt.legend]. *)

Record Solved : Set := {
  solved_all_ratings : list (list Z);
  solved_stacked : bool;
  solved_bins : list Z;
  solved_labels : list string;
  solved_title : option string
}.

Definition solved (PARTICIPANT_TYPES : list string)
    (solved_subs_of : string -> list cf.Submission)
    (handles : list string) (types : list string) (rlo rhi : Z)
  : result Solved :=
  let all_solved_subs := solved_subs_of <$> handles in
  if negb (any (truthy <$> all_solved_subs)) then Raise GraphCogError
  else if len handles =? 1 then
    handle ← getitem handles 0;
    subs ← getitem all_solved_subs 0;
    solved_by_type ← _classify_submissions PARTICIPANT_TYPES subs;
    all_ratings ← comprehension (fun sub_type =>
      dict_getitem solved_by_type sub_type
        ≫= fun subs : list cf.Submission =>
             Ok ((fun sub => cf.rating (cf.problem sub)) <$> subs)) types;
    nice_names ← nice_sub_type types;
    labels ← comprehension (fun '(name, ratings) =>
      str_format name [pretty (len ratings)]) (zip nice_names all_ratings);
    let step := 100 in
    hist_bins ← range_step (rlo - step / 2) (rhi + step / 2 + 1) step;
    let total := sum (len <$> all_ratings) in
    Ok {| solved_all_ratings := all_ratings;
          solved_stacked := true;
          solved_bins := hist_bins;
          solved_labels := labels;
          solved_title := Some (handle +:+ ": " +:+ pretty total) |}
  else
    let all_ratings :=
      (fun solved_subs : list cf.Submission =>
         (fun sub => cf.rating (cf.problem sub)) <$> solved_subs)
        <$> all_solved_subs in
    let labels :=
      (fun '(handle, ratings) => handle +:+ ": " +:+ pretty (len ratings))
        <$> zip handles all_ratings in
    q ← floordiv 3000 (len handles);
    let step := if rhi - rlo >? q then 200 else 100 in
    hist_bins ← range_step (rlo - step / 2) (rhi + step / 2 + 1) step;
    Ok {| solved_all_ratings := all_ratings;
          solved_stacked := false;
          solved_bins := hist_bins;
          solved_labels := labels;
          solved_title := None |}.

(** ** The specification's own notions, and examples *)

(** Modelled from the spec: the participation types the specification
    names ([cf.Party.PARTICIPANT_TYPES] itself is not in this module). *)
Definition PARTICIPANT_TYPES_of_spec : list string :=
  ["CONTESTANT"; "OUT_OF_COMPETITION"; "VIRTUAL"; "PRACTICE"].

(** The scan of the specification of peak-prefix extraction, written from
    its words: the effective old rating, and a left-to-right selection under
    a running maximum. *)
Definition effective_old_rating (c : cf.RatingChange) : Z :=
  if decide (cf.oldRating c = 0) then 1500 else cf.oldRating c.

Fixpoint peak_prefix_scan (max_rate : Z) (changes : list cf.RatingChange)
  : list cf.RatingChange :=
  match changes with
  | [] => []
  | c :: rest =>
      if decide (cf.newRating c - effective_old_rating c >= 0
                 /\ cf.newRating c >= max_rate)
      then c :: peak_prefix_scan (cf.newRating c) rest
      else peak_prefix_scan max_rate rest
  end.

Definition change (id old new : Z) : cf.RatingChange :=
  {| cf.contestId := id; cf.ratingUpdateTimeSeconds := 86400 * id;
     cf.oldRating := old; cf.newRating := new |}.

(** The sliding-window average of the specification, written from its
    words: element [i] is [(x[i] + ... + x[i+w-1]) / w]. *)
Definition window_sum (x : list Qc) (i w : nat) : Qc :=
  foldr Qcplus 0%Qc (take w (drop i x)).

Definition sliding_mean (x : list Qc) (w : nat) : list Qc :=
  (fun i => window_sum x i w / Qc_of_Z (Z.of_nat w))%Qc
    <$> seq 0 (length x + 1 - w).

(** The same sliding-window average on binary64, the window summed from
    left to right as Python's [sum] does. *)
Definition sliding_mean_binary64 (x : list PrimFloat.float) (w : nat)
  : list PrimFloat.float :=
  (fun i =>
     PrimFloat.div
       (fold_left PrimFloat.add (take w (drop i x)) (Binary64.nearest 0))
       (Binary64.nearest (Z.of_nat w)))
    <$> seq 0 (length x + 1 - w).

(** The count of the specification, written from its words: the number of
    values that fall in the half-open interval [[lo, hi)]. *)
Definition count_in (lo hi : Z) (values : list Z) : Z :=
  len (filter (fun v => lo <= v < hi) values).

(** The rank of the specification, written from its words: the number of
    elements of the population strictly less than [v]. *)
Definition count_below (v : Z) (population : list Z) : Z :=
  len (filter (fun r => r < v) population).

(** The cumulative percentage of the specification, written from its
    words: [round(100 * running_count / total_count)], the running count
    being that of the buckets before boundary [i]. *)
Definition cumulative_percent (counts : list Z) (i : nat) : Z :=
  round (Qc_of_Z (100 * sum (take i counts)) / Qc_of_Z (sum counts))%Qc.

(** The POSIX clock as an instance: a [datetime] is its epoch value. *)
Definition posix : DateTime :=
  {| datetime := Qc; timestamp := fun t => t; fromtimestamp := fun q => q |}.

Definition submission (t : Z) (type : string) (rating : Z) : cf.Submission :=
  {| cf.creationTimeSeconds := t;
     cf.author := {| cf.participantType := type |};
     cf.problem := {| cf.rating := rating |} |}.

(** A rank table for the examples: the rating tiers of Codeforces. *)
Definition rank (low high color : Z) : cf.Rank :=
  {| cf.low := low; cf.high := high; cf.color_graph := "";
     cf.color_embed := color |}.

Definition RATED_RANKS_example : list cf.Rank :=
  [rank (- 10 ^ 9) 1200 0x808080; rank 1200 1400 0x008000;
   rank 1400 1600 0x03a89e; rank 1600 1900 0x0000ff;
   rank 1900 2100 0xaa00aa; rank 2100 2300 0xff8c00;
   rank 2300 2400 0xf57500; rank 2400 2600 0xff3030;
   rank 2600 3000 0xff0000; rank 3000 (10 ^ 9) 0xcc0000].

(** The histogram of [1000, 1050, 1100, 1100, 1500, -3] with bins of 100. *)
Definition rating_hist_example : RatingHist :=
  {| hist_l := 10;
     hist_r := 15;
     hist_xlim := (950, 1550);
     hist_x := [1000; 1100; 1200; 1300; 1400; 1500];
     hist_cent := [0; 40; 80; 80; 80; 80];
     hist_label := ["1000 (0)"; "1100 (40)"; "1200 (80)"; "1300 (80)";
                    "1400 (80)"; "1500 (80)"];
     hist_colors := ["#808080"; "#808080"; "#008000"; "#008000"; "#03a89e";
                     "#03a89e"];
     hist_height := [2; 2; 0; 0; 0; 1];
     hist_log := false |}.

(** * Properties *)

(** ** Facts about the Python runtime *)

Section Runtime.

Context {A : Type}.
Implicit Types (l : list A) (i : Z).

Lemma len_nonneg l : 0 <= len l.
Proof. unfold len. lia. Qed.

Lemma position_nonneg n i : 0 <= i < n -> position n i = Some (Z.to_nat i).
Proof. intros Hi. unfold position. by rewrite decide_True. Qed.

Lemma position_out n i : n <= i -> 0 <= n -> position n i = None.
Proof.
  intros Hi Hn. unfold position.
  rewrite decide_False by lia. by rewrite decide_False by lia.
Qed.

Lemma getitem_nonneg l i v :
  0 <= i -> l !! Z.to_nat i = Some v -> getitem l i = Ok v.
Proof.
  intros Hi Hv. unfold getitem.
  assert (Z.to_nat i < length l)%nat by (by eapply lookup_lt_Some).
  rewrite position_nonneg by (unfold len; lia). by rewrite Hv.
Qed.

Lemma getitem_out l i : len l <= i -> getitem l i = Raise IndexError.
Proof.
  intros Hi. unfold getitem. by rewrite position_out by (unfold len in *; lia).
Qed.

Lemma setitem_nonneg l i v :
  0 <= i < len l -> setitem l i v = Ok (<[Z.to_nat i := v]> l).
Proof. intros Hi. unfold setitem. by rewrite position_nonneg. Qed.

Lemma setitem_out l i v : len l <= i -> setitem l i v = Raise IndexError.
Proof.
  intros Hi. unfold setitem. by rewrite position_out by (unfold len in *; lia).
Qed.

Lemma len_repeat (v : A) k : len (repeat v k) = Z.max 0 k.
Proof. unfold len, repeat. rewrite length_replicate. lia. Qed.

End Runtime.

Lemma range_empty a b : b <= a -> range a b = [].
Proof.
  intros H. unfold range, seqZ.
  by replace (Z.to_nat (b - a)) with 0%nat by lia.
Qed.

Lemma range_cons a b : a < b -> range a b = a :: range (a + 1) b.
Proof.
  intros H. unfold range. rewrite seqZ_cons by lia.
  f_equal. f_equal; lia.
Qed.

(** The rule of the [for] loop over [range(a, b)]: an invariant that holds
    at [a] and that every iteration carries from [i] to [i + 1] holds at
    [b], and the loop raises nothing. *)
Lemma for_in_range {S : Type} (body : Z -> S -> result S)
    (Inv : Z -> S -> Prop) (b : Z) :
  forall (n : nat) (a : Z) (s : S),
  a + Z.of_nat n = b ->
  Inv a s ->
  (forall i s, a <= i < b -> Inv i s ->
     exists s', body i s = Ok s' /\ Inv (i + 1) s') ->
  exists s', for_in (range a b) body s = Ok s' /\ Inv b s'.
Proof.
  induction n as [|n IH]; intros a s Hab Hinv Hstep.
  - rewrite range_empty by lia. simpl.
    exists s. split; [done|]. by replace b with a by lia.
  - rewrite range_cons by lia. simpl.
    destruct (Hstep a s) as (s1 & -> & Hinv1); [lia|done|]. simpl.
    apply IH; [lia|done|].
    intros i s' Hi. apply Hstep. lia.
Qed.

Lemma filter_all {A} (P : A -> Prop) `{!forall x, Decision (P x)} (l : list A) :
  Forall P l -> filter P l = l.
Proof.
  induction 1 as [|v l Hv _ IH]; [done|].
  by rewrite filter_cons_True, IH.
Qed.

Lemma filter_none {A} (P : A -> Prop) `{!forall x, Decision (P x)}
    (l : list A) :
  Forall (fun v => ~ P v) l -> filter P l = [].
Proof.
  induction 1 as [|v l Hv _ IH]; [done|].
  by rewrite filter_cons_False.
Qed.

(** ** Submission classifier *)

Section Classify.

Variable PARTICIPANT_TYPES : list string.

Abbreviation sub_type s := (cf.participantType (cf.author s)).
Abbreviation partition := (gmap string (list cf.Submission)).

Local Abbreviation classify_body :=
  (fun (submission : cf.Submission) (solved_by_type : partition) =>
     match solved_by_type !! sub_type submission with
     | Some l =>
         Ok (<[sub_type submission := l ++ [submission]]> solved_by_type)
     | None => Raise KeyError
     end).

Lemma classify_init_lookup (types : list string) t :
  (list_to_map ((fun sub_type => (sub_type, [])) <$> types) : partition) !! t
  = if decide (t ∈ types) then Some [] else None.
Proof.
  induction types as [|a types IH].
  - done.
  - rewrite fmap_cons, list_to_map_cons.
    destruct (decide (a = t)) as [->|Hne].
    + rewrite lookup_insert_eq. rewrite decide_True; [done|]. by left.
    + rewrite lookup_insert_ne, IH by done.
      destruct (decide (t ∈ types)) as [Hin|Hnin],
               (decide (t ∈ a :: types)) as [Hin'|Hnin']; try done.
      * exfalso. apply Hnin'. by right.
      * apply elem_of_cons in Hin' as [->|?]; done.
Qed.

(** The loop keeps the keys and appends to each value the submissions of
    its type, in input order. *)
Lemma classify_loop_known submissions : forall m : partition,
  Forall (fun s => is_Some (m !! sub_type s)) submissions ->
  exists m' : partition,
    for_in submissions classify_body m = Ok m' /\
    forall t, m' !! t =
      (fun l => l ++ filter (fun s => sub_type s = t) submissions) <$> m !! t.
Proof.
  induction submissions as [|s submissions IH]; intros m Hknown; simpl.
  - exists m. split; [done|]. intros t.
    destruct (m !! t); simpl; [by rewrite app_nil_r|done].
  - apply Forall_cons in Hknown as [[l Hl] Hrest].
    rewrite Hl. simpl.
    destruct (IH (<[sub_type s := l ++ [s]]> m)) as (m' & Hrun & Hm').
    { eapply Forall_impl; [exact Hrest|]. intros s' [l' Hl']. simpl.
      destruct (decide (sub_type s = sub_type s')) as [->|Hne].
      - rewrite lookup_insert_eq. eauto.
      - rewrite lookup_insert_ne by done. eauto. }
    exists m'. split; [exact Hrun|]. intros t. rewrite Hm'.
    rewrite filter_cons.
    destruct (decide (sub_type s = t)) as [<-|Hne].
    + rewrite lookup_insert_eq, Hl. simpl. by rewrite <- app_assoc.
    + by rewrite lookup_insert_ne.
Qed.

Lemma classify_loop_unknown submissions : forall m : partition,
  Exists (fun s => m !! sub_type s = None) submissions ->
  for_in submissions classify_body m = Raise KeyError.
Proof.
  induction submissions as [|s submissions IH]; intros m Hex;
    [by apply Exists_nil in Hex|].
  simpl.
  destruct (m !! sub_type s) as [l|] eqn:Hl; [|done]. simpl.
  apply Exists_cons in Hex as [Hs|Hex]; [congruence|].
  assert (Hsame : forall t, <[sub_type s := l ++ [s]]> m !! t = None
                            <-> m !! t = None).
  { intros t. destruct (decide (sub_type s = t)) as [<-|Hne].
    - rewrite lookup_insert_eq, Hl. split; discriminate.
    - by rewrite lookup_insert_ne. }
  apply IH.
  eapply Exists_impl; [exact Hex|]. intros s' Hs'. by apply Hsame.
Qed.

End Classify.

(** C10. When every submission has one of the known participant types,
    [_classify_submissions] returns a mapping whose keys are exactly the
    known types, each bound to the submissions of that type in input order
    (the empty list for a type without submissions); when some submission
    has another type, it raises [KeyError] and makes no new key. *)
Theorem classify_submissions_partition (PARTICIPANT_TYPES : list string)
    (submissions : list cf.Submission) :
  (Forall (fun s => cf.participantType (cf.author s) ∈ PARTICIPANT_TYPES)
          submissions ->
   exists m : gmap string (list cf.Submission),
     _classify_submissions PARTICIPANT_TYPES submissions = Ok m /\
     dom m = list_to_set PARTICIPANT_TYPES /\
     forall t, t ∈ PARTICIPANT_TYPES ->
       m !! t = Some (filter (fun s => cf.participantType (cf.author s) = t)
                             submissions)) /\
  (Exists (fun s => cf.participantType (cf.author s) ∉ PARTICIPANT_TYPES)
          submissions ->
   _classify_submissions PARTICIPANT_TYPES submissions = Raise KeyError).
Proof.
  unfold _classify_submissions. split.
  - intros Hknown.
    edestruct classify_loop_known as (m & Hrun & Hm).
    2: { exists m. split; [exact Hrun|]. split.
         - apply set_eq. intros t.
           rewrite elem_of_dom, Hm, classify_init_lookup, elem_of_list_to_set.
           case_decide; split; intros H'; simpl in *; eauto; try done.
         - intros t Ht. rewrite Hm, classify_init_lookup.
           by rewrite decide_True. }
    eapply Forall_impl; [exact Hknown|]. intros s Hs. simpl.
    rewrite classify_init_lookup. rewrite decide_True by done. eauto.
  - intros Hunknown. apply classify_loop_unknown.
    eapply Exists_impl; [exact Hunknown|]. intros s Hs. simpl.
    rewrite classify_init_lookup. by rewrite decide_False.
Qed.

Lemma classify_submissions_partition_witness :
  let known := [submission 1 "PRACTICE" 800; submission 2 "VIRTUAL" 1200;
                submission 3 "PRACTICE" 900] in
  let other := [submission 1 "PRACTICE" 800; submission 2 "MANAGER" 1200] in
  Forall (fun s => cf.participantType (cf.author s) ∈ PARTICIPANT_TYPES_of_spec)
         known /\
  Exists (fun s => cf.participantType (cf.author s) ∉ PARTICIPANT_TYPES_of_spec)
         other /\
  (exists m : gmap string (list cf.Submission),
     _classify_submissions PARTICIPANT_TYPES_of_spec known = Ok m /\
     dom m = list_to_set PARTICIPANT_TYPES_of_spec /\
     forall t, t ∈ PARTICIPANT_TYPES_of_spec ->
       m !! t = Some (filter (fun s => cf.participantType (cf.author s) = t)
                             known)) /\
  _classify_submissions PARTICIPANT_TYPES_of_spec other = Raise KeyError.
Proof.
  intros known other.
  assert (Hknown : Forall (fun s => cf.participantType (cf.author s)
                                    ∈ PARTICIPANT_TYPES_of_spec) known)
    by (apply (bool_decide_unpack _); vm_compute; reflexivity).
  assert (Hother : Exists (fun s => cf.participantType (cf.author s)
                                    ∉ PARTICIPANT_TYPES_of_spec) other)
    by (apply (bool_decide_unpack _); vm_compute; reflexivity).
  split; [exact Hknown|]. split; [exact Hother|]. split.
  - exact (proj1 (classify_submissions_partition PARTICIPANT_TYPES_of_spec
                    known) Hknown).
  - exact (proj2 (classify_submissions_partition PARTICIPANT_TYPES_of_spec
                    other) Hother).
Defined.

(** ** Running mean *)

Section RunningMean.

Implicit Types (x cum_sum res : list Qc) (bin_size : Z).

Lemma sum_app (l1 l2 : list Qc) :
  (foldr Qcplus 0 (l1 ++ l2) = foldr Qcplus 0 l1 + foldr Qcplus 0 l2)%Qc.
Proof.
  induction l1 as [|a l1 IH]; simpl; [by rewrite Qcplus_0_l|].
  rewrite IH. ring.
Qed.

Lemma window_sum_snoc x j v :
  x !! j = Some v -> (window_sum x 0 (S j) = v + window_sum x 0 j)%Qc.
Proof.
  intros Hv. unfold window_sum. rewrite !drop_0.
  rewrite (take_S_r _ _ _ Hv), sum_app. simpl. ring.
Qed.

Lemma window_sum_split x j w :
  (window_sum x 0 (j + w) = window_sum x 0 j + window_sum x j w)%Qc.
Proof.
  unfold window_sum. rewrite !drop_0.
  by rewrite <- take_take_drop, sum_app.
Qed.

(** The first loop fills [cum_sum] with the prefix sums. *)
Lemma running_mean_cum_sum x :
  exists cum_sum,
    for_in (range 0 (len x)) (fun i cum_sum =>
      xi ← getitem x i;
      ci ← getitem cum_sum i;
      setitem cum_sum (i + 1) (xi + ci)%Qc) (repeat 0%Qc (len x + 1))
    = Ok cum_sum /\
    length cum_sum = S (length x) /\
    forall j, (j <= length x)%nat -> cum_sum !! j = Some (window_sum x 0 j).
Proof.
  edestruct (for_in_range
    (fun i cum_sum =>
      xi ← getitem x i;
      ci ← getitem cum_sum i;
      setitem cum_sum (i + 1) (xi + ci)%Qc)
    (fun i cum_sum =>
       length cum_sum = S (length x) /\
       forall j, Z.of_nat j <= i -> cum_sum !! j = Some (window_sum x 0 j))
    (len x) (length x) 0 (repeat 0%Qc (len x + 1)))
    as (cum_sum & Hrun & Hlen & Hsum).
  - unfold len. lia.
  - split.
    + unfold repeat, len. rewrite length_replicate. lia.
    + intros j Hj. replace j with 0%nat by lia.
      unfold repeat, len. rewrite lookup_replicate_2 by lia. done.
  - intros i cum_sum Hi [Hlen Hsum]. unfold len in Hi.
    destruct (lookup_lt_is_Some_2 x (Z.to_nat i)) as [xi Hxi]; [lia|].
    rewrite (getitem_nonneg x i xi) by (done || lia).
    cbn [mbind result_bind].
    rewrite (getitem_nonneg cum_sum i (window_sum x 0 (Z.to_nat i)))
      by (try apply Hsum; lia).
    cbn [mbind result_bind].
    rewrite setitem_nonneg by (unfold len in *; lia).
    eexists. split; [done|]. split; [by rewrite length_insert|].
    intros j Hj.
    destruct (decide (j = Z.to_nat (i + 1))) as [->|Hne].
    + rewrite list_lookup_insert_eq by lia.
      replace (Z.to_nat (i + 1)) with (S (Z.to_nat i)) by lia.
      by rewrite (window_sum_snoc _ _ _ Hxi).
    + rewrite list_lookup_insert_ne by done. apply Hsum. lia.
  - exists cum_sum. split; [exact Hrun|]. split; [exact Hlen|].
    intros j Hj. apply Hsum. unfold len. lia.
Qed.

Lemma length_sliding_mean x w :
  length (sliding_mean x w) = (length x + 1 - w)%nat.
Proof. unfold sliding_mean. by rewrite length_fmap, length_seq. Qed.

Lemma lookup_sliding_mean x w j :
  (j < length x + 1 - w)%nat ->
  sliding_mean x w !! j
  = Some (window_sum x j w / Qc_of_Z (Z.of_nat w))%Qc.
Proof.
  intros Hj. unfold sliding_mean. rewrite list_lookup_fmap.
  by rewrite (proj2 (lookup_seq 0 _ j j)).
Qed.

(** The second loop fills [res] with the window means. *)
Lemma running_mean_window x bin_size cum_sum :
  1 <= bin_size <= len x ->
  length cum_sum = S (length x) ->
  (forall j, (j <= length x)%nat -> cum_sum !! j = Some (window_sum x 0 j)) ->
  for_in (range bin_size (len x + 1)) (fun i res =>
    hi ← getitem cum_sum i;
    lo ← getitem cum_sum (i - bin_size);
    mean ← truediv_num (hi - lo)%Qc bin_size;
    setitem res (i - bin_size) mean) (repeat 0%Qc (len x - bin_size + 1))
  = Ok (sliding_mean x (Z.to_nat bin_size)).
Proof.
  intros Hw Hlen Hsum.
  set (w := Z.to_nat bin_size).
  edestruct (for_in_range
    (fun i res =>
      hi ← getitem cum_sum i;
      lo ← getitem cum_sum (i - bin_size);
      mean ← truediv_num (hi - lo)%Qc bin_size;
      setitem res (i - bin_size) mean)
    (fun i res =>
       length res = (length x + 1 - w)%nat /\
       forall j, Z.of_nat j < i - bin_size ->
         res !! j = Some (window_sum x j w / Qc_of_Z bin_size)%Qc)
    (len x + 1) (length x + 1 - w) bin_size
    (repeat 0%Qc (len x - bin_size + 1)))
    as (res & Hrun & Hres & Hmean).
  - unfold len in *. lia.
  - split; [|intros j Hj; lia].
    unfold repeat, len in *. rewrite length_replicate. lia.
  - intros i res Hi [Hres Hmean]. unfold len in *.
    rewrite (getitem_nonneg cum_sum i (window_sum x 0 (Z.to_nat i)))
      by (try apply Hsum; lia).
    cbn [mbind result_bind].
    rewrite (getitem_nonneg cum_sum (i - bin_size)
               (window_sum x 0 (Z.to_nat (i - bin_size))))
      by (try apply Hsum; lia).
    cbn [mbind result_bind].
    unfold truediv_num. destruct (Z.eqb_spec bin_size 0) as [|_]; [lia|].
    cbn [mbind result_bind].
    rewrite setitem_nonneg by (unfold len; lia).
    eexists. split; [done|]. split; [by rewrite length_insert|].
    intros j Hj.
    destruct (decide (j = Z.to_nat (i - bin_size))) as [->|Hne].
    + rewrite list_lookup_insert_eq by lia. do 2 f_equal.
      replace (Z.to_nat i) with (Z.to_nat (i - bin_size) + w)%nat by lia.
      rewrite window_sum_split. clearbody w. ring.
    + rewrite list_lookup_insert_ne by done. apply Hmean. lia.
  - rewrite Hrun. f_equal.
    apply list_eq_same_length with (length x + 1 - w)%nat;
      [apply length_sliding_mean|done|].
    intros j v v' Hj Hv Hv'.
    rewrite Hmean in Hv by (unfold len in *; lia).
    rewrite lookup_sliding_mean in Hv' by done.
    replace (Z.of_nat w) with bin_size in Hv' by lia. congruence.
Qed.

(** For a window that fits, the prefix-sum loops compute the sliding
    means. *)
Lemma running_mean_sliding x bin_size :
  1 <= bin_size <= len x ->
  _running_mean x bin_size = Ok (sliding_mean x (Z.to_nat bin_size)).
Proof.
  intros Hw. unfold _running_mean.
  destruct (running_mean_cum_sum x) as (cum_sum & -> & Hlen & Hsum).
  cbn [mbind result_bind].
  by apply running_mean_window.
Qed.

(** For a window longer than the sequence, the result is empty. *)
Lemma running_mean_wide x bin_size :
  len x < bin_size -> _running_mean x bin_size = Ok [].
Proof.
  intros Hw. unfold _running_mean.
  destruct (running_mean_cum_sum x) as (cum_sum & -> & Hlen & Hsum).
  cbn [mbind result_bind].
  rewrite range_empty by lia. simpl.
  unfold repeat. by replace (Z.to_nat (len x - bin_size + 1)) with 0%nat by lia.
Qed.

End RunningMean.

(** C3. For every numeric sequence [x] and window [w] with
    [1 <= w <= len(x)], [_running_mean] returns a sequence of length
    [len(x) - w + 1]; for every [w > len(x)] it returns the empty
    sequence. *)
Theorem running_mean_length (x : list Qc) (w : Z) :
  (1 <= w <= len x ->
   exists res, _running_mean x w = Ok res /\ len res = len x - w + 1) /\
  (w > len x -> _running_mean x w = Ok []).
Proof.
  split.
  - intros Hw. exists (sliding_mean x (Z.to_nat w)).
    split; [by apply running_mean_sliding|].
    unfold len in *. rewrite length_sliding_mean. lia.
  - intros Hw. apply running_mean_wide. lia.
Qed.

Lemma running_mean_length_witness :
  let x := Qc_of_Z <$> [1000; 1100; 1200; 1300] in
  (1 <= 2 <= len x /\
   exists res, _running_mean x 2 = Ok res /\ len res = len x - 2 + 1) /\
  (5 > len x /\ _running_mean x 5 = Ok []).
Proof.
  intros x. split.
  - assert (Hw : 1 <= 2 <= len x) by (vm_compute; split; discriminate).
    split; [exact Hw|]. exact (proj1 (running_mean_length x 2) Hw).
  - assert (Hw : 5 > len x) by reflexivity.
    split; [exact Hw|]. exact (proj2 (running_mean_length x 5) Hw).
Defined.

(** C4. For every paired series whose length is at most the window (the
    length equal to the window included), [_plot_average] draws nothing and
    raises nothing: the smoothed series is empty. *)
Theorem plot_average_short `{DateTime} (practice : list (datetime * Z))
    (bin_size : Z) (label : string) :
  len practice <= bin_size ->
  _plot_average practice bin_size label = Ok [] /\
  smooth practice bin_size = Ok [].
Proof.
  intros Hshort. unfold smooth, _plot_average.
  destruct (Z.gtb_spec (len practice) bin_size) as [Hlong|_]; [lia|done].
Qed.

Lemma plot_average_short_witness :
  let practice : list (@datetime posix * Z) :=
    [(Qc_of_Z 10, 1000); (Qc_of_Z 20, 1100)] in
  len practice <= 2 /\
  @_plot_average posix practice 2 "" = Ok [] /\
  @smooth posix practice 2 = Ok [].
Proof.
  intros practice.
  assert (Hshort : len practice <= 2) by (vm_compute; discriminate).
  split; [exact Hshort|].
  exact (@plot_average_short posix practice 2 "" Hshort).
Defined.

Lemma plot_average_sliding `{DateTime} (practice : list (datetime * Z))
    (bin_size : Z) (label : string) :
  1 <= bin_size < len practice ->
  _plot_average practice bin_size label
  = Ok [ {| plot_x := fromtimestamp
                        <$> sliding_mean (timestamp <$> practice.*1)
                                         (Z.to_nat bin_size);
            plot_y := sliding_mean (Qc_of_Z <$> practice.*2)
                                   (Z.to_nat bin_size);
            plot_label := label |} ].
Proof.
  intros Hw. unfold _plot_average.
  destruct (Z.gtb_spec (len practice) bin_size) as [_|Hshort]; [|lia].
  destruct practice as [|p practice]; [unfold len in Hw; simpl in Hw; lia|].
  cbn [mbind result_bind].
  rewrite !running_mean_sliding
    by (unfold len in *; rewrite !length_fmap; lia).
  done.
Qed.

Lemma Qc_of_Z_mean (a b m : Z) :
  a + b = 2 * m ->
  ((Qc_of_Z a + (Qc_of_Z b + 0)) / Qc_of_Z 2 = Qc_of_Z m)%Qc.
Proof.
  intros Hm. rewrite Qcplus_0_r, <- Z2Qc_inj_add, Hm, Z2Qc_inj_mul.
  field. intros Hz. by apply (f_equal this) in Hz.
Qed.

Lemma Qc_of_Z_sum (l : list Z) :
  foldr Qcplus 0%Qc (Qc_of_Z <$> l) = Qc_of_Z (sum l).
Proof.
  unfold sum. induction l as [|z l IH]; [by apply Qc_is_canon|].
  rewrite fmap_cons. cbn [foldr]. by rewrite IH, Z2Qc_inj_add.
Qed.

(** C5 (amended). For every sequence [xs] of integers and window [w] with
    [1 <= w <= len(xs)], the prefix-sum running mean is the naive
    sliding-window average: its element [i] is the quotient of the exact
    sum [xs[i] + ... + xs[i+w-1]] by [w].  [_plot_average] applies it in
    the same way to the values and to the timestamps, when the timestamps
    are non-negative whole numbers whose sum is at most [2^53] (so that
    binary64 computes every partial sum exactly) and the conversions
    return; smoothing [(t0,1000),(t1,1100),(t2,1200),(t3,1300)] with
    window 2 then yields
    [(avg(t0,t1),1050),(avg(t1,t2),1150),(avg(t2,t3),1250)]. *)
Theorem running_mean_is_sliding_mean `{DateTime} :
  (forall (xs : list Z) (w : Z), 1 <= w <= len xs ->
     _running_mean (Qc_of_Z <$> xs) w
     = Ok (sliding_mean (Qc_of_Z <$> xs) (Z.to_nat w)) /\
     forall i : nat, Z.of_nat i < len xs - w + 1 ->
       sliding_mean (Qc_of_Z <$> xs) (Z.to_nat w) !! i
       = Some (Qc_of_Z (sum (take (Z.to_nat w) (drop i xs)))
               / Qc_of_Z w)%Qc)
  /\
  (forall (practice : list (datetime * Z)) (epochs : list Z) (w : Z)
          (label : string) (plots : list Plot),
     1 <= w < len practice ->
     timestamp <$> practice.*1 = Qc_of_Z <$> epochs ->
     Forall (fun s => 0 <= s) epochs -> sum epochs <= 2 ^ 53 ->
     _plot_average practice w label = Ok plots ->
     plots
     = [ {| plot_x := fromtimestamp
                        <$> sliding_mean (Qc_of_Z <$> epochs) (Z.to_nat w);
            plot_y := sliding_mean (Qc_of_Z <$> practice.*2) (Z.to_nat w);
            plot_label := label |} ])
  /\
  (forall (t0 t1 t2 t3 : datetime) (s0 s1 s2 s3 : Z)
          (points : list (datetime * Qc)),
     timestamp <$> [t0; t1; t2; t3] = Qc_of_Z <$> [s0; s1; s2; s3] ->
     Forall (fun s => 0 <= s) [s0; s1; s2; s3] ->
     sum [s0; s1; s2; s3] <= 2 ^ 53 ->
     let avg a b := fromtimestamp (Qc_of_Z (a + b) / Qc_of_Z 2)%Qc in
     smooth [(t0, 1000); (t1, 1100); (t2, 1200); (t3, 1300)] 2 = Ok points ->
     points = [(avg s0 s1, Qc_of_Z 1050); (avg s1 s2, Qc_of_Z 1150);
               (avg s2 s3, Qc_of_Z 1250)]).
Proof.
  split; [|split].
  - intros xs w Hw.
    assert (Hlen : len (Qc_of_Z <$> xs) = len xs)
      by (unfold len; by rewrite length_fmap).
    split; [apply running_mean_sliding; by rewrite Hlen|].
    intros i Hi.
    rewrite lookup_sliding_mean
      by (rewrite length_fmap; unfold len in *; lia).
    unfold window_sum.
    rewrite <- fmap_drop, <- fmap_take, Qc_of_Z_sum.
    by replace (Z.of_nat (Z.to_nat w)) with w by lia.
  - intros practice epochs w label plots Hw Hepochs _ _ Hrun.
    rewrite plot_average_sliding in Hrun by done.
    injection Hrun as <-. by rewrite Hepochs.
  - intros t0 t1 t2 t3 s0 s1 s2 s3 points Hepochs _ _ avg Hrun.
    unfold smooth in Hrun.
    rewrite plot_average_sliding in Hrun
      by (vm_compute; split; [discriminate|done]).
    cbn [mbind result_bind] in Hrun. injection Hrun as <-.
    injection Hepochs as -> -> -> ->.
    unfold avg, sliding_mean, window_sum.
    change (Z.to_nat 2) with 2%nat. change (Z.of_nat 2) with 2.
    cbn -[Qcplus Qcdiv Qc_of_Z timestamp fromtimestamp].
    rewrite (Qc_of_Z_mean 1000 1100 1050), (Qc_of_Z_mean 1100 1200 1150),
      (Qc_of_Z_mean 1200 1300 1250) by done.
    by rewrite !Qcplus_0_r, <- !Z2Qc_inj_add.
Qed.

Lemma running_mean_is_sliding_mean_witness :
  let xs := [1000; 1100; 1200; 1300] in
  let practice : list (@datetime posix * Z) :=
    [(Qc_of_Z 10, 1000); (Qc_of_Z 20, 1100); (Qc_of_Z 30, 1200)] in
  let epochs := [10; 20; 30] in
  (1 <= 2 <= len xs /\
   _running_mean (Qc_of_Z <$> xs) 2
   = Ok (sliding_mean (Qc_of_Z <$> xs) (Z.to_nat 2))) /\
  (1 <= 2 < len practice /\
   @timestamp posix <$> practice.*1 = Qc_of_Z <$> epochs /\
   Forall (fun s => 0 <= s) epochs /\ sum epochs <= 2 ^ 53 /\
   exists plots,
     @_plot_average posix practice 2 "" = Ok plots /\
     plots
     = [ {| plot_x := @fromtimestamp posix
                        <$> sliding_mean (Qc_of_Z <$> epochs) (Z.to_nat 2);
            plot_y := sliding_mean (Qc_of_Z <$> practice.*2) (Z.to_nat 2);
            plot_label := "" |} ]).
Proof.
  intros xs practice epochs. split.
  - assert (Hw : 1 <= 2 <= len xs) by (vm_compute; split; discriminate).
    split; [exact Hw|].
    exact (proj1 (proj1 (@running_mean_is_sliding_mean posix) xs 2 Hw)).
  - assert (Hw : 1 <= 2 < len practice)
      by (vm_compute; split; [discriminate|reflexivity]).
    assert (Hepochs : @timestamp posix <$> practice.*1 = Qc_of_Z <$> epochs)
      by reflexivity.
    assert (Hpos : Forall (fun s => 0 <= s) epochs)
      by (repeat constructor; discriminate).
    assert (Hsum : sum epochs <= 2 ^ 53) by (vm_compute; discriminate).
    split; [exact Hw|]. split; [exact Hepochs|]. split; [exact Hpos|].
    split; [exact Hsum|].
    destruct (@_plot_average posix practice 2 "") as [plots|e] eqn:Hrun;
      [|vm_compute in Hrun; discriminate].
    exists plots. split; [reflexivity|].
    exact (proj1 (proj2 (@running_mean_is_sliding_mean posix))
             practice epochs 2 "" plots Hw Hepochs Hpos Hsum Hrun).
Defined.

(** C5: the claim as stated, for every numeric sequence, does not hold on
    the floats of the code.  On [[0.1, 0.1, 0.1]] with window 1 the prefix
    sums round: [_running_mean] returns
    [[0.1, 0.1, 0.10000000000000003]], and the naive sliding-window
    average returns the sequence itself. *)
Theorem running_mean_binary64_rounds :
  let x := [Binary64.tenth; Binary64.tenth; Binary64.tenth] in
  1 <= 1 <= len x /\
  Binary64._running_mean x 1
  = Ok [Binary64.tenth; Binary64.tenth; Binary64.tenth_up] /\
  sliding_mean_binary64 x 1 = x /\
  Binary64._running_mean x 1 <> Ok (sliding_mean_binary64 x 1).
Proof.
  intros x.
  assert (Hrun : Binary64._running_mean x 1
                 = Ok [Binary64.tenth; Binary64.tenth; Binary64.tenth_up])
    by (vm_compute; reflexivity).
  assert (Hnaive : sliding_mean_binary64 x 1 = x)
    by (vm_compute; reflexivity).
  split; [vm_compute; split; discriminate|].
  split; [exact Hrun|]. split; [exact Hnaive|].
  rewrite Hrun, Hnaive. intros Heq.
  apply (f_equal (fun r => match r with
                           | Ok [_; _; c] =>
                               PrimFloat.Leibniz.eqb c Binary64.tenth
                           | _ => true
                           end)) in Heq.
  vm_compute in Heq. discriminate.
Qed.

(** ** Peak prefix *)

Section MaxPrefix.

Implicit Types (user res : list cf.RatingChange) (max_rate : Z).

Lemma max_prefix_body_scan c max_rate res :
  max_prefix_body (max_rate, res) c =
  if decide (cf.newRating c - effective_old_rating c >= 0
             /\ cf.newRating c >= max_rate)
  then (cf.newRating c, res ++ [c]) else (max_rate, res).
Proof.
  unfold max_prefix_body, effective_old_rating.
  destruct (Z.eqb_spec (cf.oldRating c) 0) as [E|E];
    destruct (decide (cf.oldRating c = 0)); try contradiction;
    repeat case_decide;
    destruct (Z.geb_spec (cf.newRating c - 1500) 0);
    destruct (Z.geb_spec (cf.newRating c - cf.oldRating c) 0);
    destruct (Z.geb_spec (cf.newRating c) max_rate); simpl; auto; lia.
Qed.

Lemma max_prefix_fold_scan user : forall max_rate res,
  snd (fold_left max_prefix_body user (max_rate, res)) =
  res ++ peak_prefix_scan max_rate user.
Proof.
  induction user as [|c user IH]; intros max_rate res; cbn [fold_left].
  - simpl. by rewrite app_nil_r.
  - rewrite max_prefix_body_scan. simpl peak_prefix_scan.
    case_decide; rewrite IH; [|done].
    by rewrite <- app_assoc.
Qed.

Lemma max_prefix_scan user : max_prefix user = peak_prefix_scan 0 user.
Proof. unfold max_prefix. by rewrite max_prefix_fold_scan. Qed.

Lemma peak_prefix_scan_sublist user : forall max_rate,
  peak_prefix_scan max_rate user `sublist_of` user.
Proof.
  induction user as [|c user IH]; intros max_rate; simpl.
  - constructor.
  - case_decide; [apply sublist_skip|apply sublist_cons]; apply IH.
Qed.

Lemma peak_prefix_scan_bounded user : forall max_rate,
  Forall (fun c => max_rate <= cf.newRating c) (peak_prefix_scan max_rate user).
Proof.
  induction user as [|c user IH]; intros max_rate; simpl; [constructor|].
  case_decide as Hkeep; [|apply IH].
  constructor; [lia|].
  eapply Forall_impl; [apply IH|]. simpl. lia.
Qed.

Lemma peak_prefix_scan_sorted user : forall max_rate,
  StronglySorted Z.le (cf.newRating <$> peak_prefix_scan max_rate user).
Proof.
  induction user as [|c user IH]; intros max_rate; simpl; [constructor|].
  case_decide as Hkeep; [|apply IH].
  rewrite fmap_cons. constructor; [apply IH|].
  apply Forall_fmap, peak_prefix_scan_bounded.
Qed.

End MaxPrefix.

(** C1 (amended). For every rating-change sequence, [max_prefix] returns
    exactly the changes selected by the left-to-right scan of the
    specification: the running maximum starts at 0, a change is kept iff
    [new_rating - effective_old_rating >= 0] (1500 standing for an old
    rating of 0) and [new_rating >= max_rate], and a kept change becomes the
    new maximum.  On (old=0,new=1400), (old=1400,new=1600),
    (old=1600,new=1550) the output is the second change alone: the first is
    a decrease from the baseline 1500 and the third a decrease from 1600. *)
Theorem max_prefix_is_peak_prefix_scan :
  (forall user, max_prefix user = peak_prefix_scan 0 user) /\
  max_prefix [change 1 0 1400; change 2 1400 1600; change 3 1600 1550]
  = [change 2 1400 1600].
Proof.
  split; [apply max_prefix_scan|reflexivity].
Qed.

(** C1 as stated fails on its own example: the output does not keep the
    first two changes. *)
Lemma max_prefix_example_drops_first :
  max_prefix [change 1 0 1400; change 2 1400 1600; change 3 1600 1550]
  <> [change 1 0 1400; change 2 1400 1600].
Proof. vm_compute. discriminate. Qed.

(** C2. For every non-empty rating-change sequence, the output of
    [max_prefix] is non-decreasing in [newRating] and is an order-preserving
    subsequence of the input. *)
Theorem max_prefix_sorted_sublist (user : list cf.RatingChange) :
  user <> [] ->
  StronglySorted Z.le (cf.newRating <$> max_prefix user) /\
  max_prefix user `sublist_of` user.
Proof.
  intros _. rewrite max_prefix_scan. split.
  - apply peak_prefix_scan_sorted.
  - apply peak_prefix_scan_sublist.
Qed.

Lemma max_prefix_sorted_sublist_witness :
  let user := [change 1 0 1400; change 2 1400 1600; change 3 1600 1550;
               change 4 1550 1700] in
  user <> [] /\
  StronglySorted Z.le (cf.newRating <$> max_prefix user) /\
  max_prefix user `sublist_of` user.
Proof.
  intros user.
  split; [discriminate|apply (max_prefix_sorted_sublist user); discriminate].
Defined.

(** ** Rating histogram *)

Section RatingHistCounts.

Variables (binsize bins : Z).
Hypothesis binsize_pos : 0 < binsize.

Lemma bucket_iff (r i : Z) :
  r / binsize = i <-> i * binsize <= r < (i + 1) * binsize.
Proof.
  split.
  - intros <-. pose proof (Z.mul_div_le r binsize binsize_pos).
    pose proof (Z.mul_succ_div_gt r binsize binsize_pos). lia.
  - intros Hi. symmetry. apply (Z.div_unique_pos r binsize i (r - i * binsize)); lia.
Qed.

Lemma floordiv_ok (a b : Z) : b <> 0 -> floordiv a b = Ok (a / b).
Proof. intros Hb. unfold floordiv. by destruct (Z.eqb_spec b 0). Qed.

Lemma count_in_cons (lo hi r : Z) (rs : list Z) :
  count_in lo hi (r :: rs)
  = (if decide (lo <= r < hi) then 1 else 0) + count_in lo hi rs.
Proof.
  unfold count_in, len. rewrite filter_cons.
  case_decide; simpl; lia.
Qed.

Lemma count_in_nonneg (lo hi : Z) (rs : list Z) : 0 <= count_in lo hi rs.
Proof. unfold count_in, len. lia. Qed.

Lemma sum_insert (l : list Z) : forall (k : nat) (v v' : Z),
  l !! k = Some v -> sum (<[k := v']> l) = sum l - v + v'.
Proof.
  unfold sum. induction l as [|a l IH]; intros [|k] v v' Hk; try done; simpl in *.
  - injection Hk as ->. lia.
  - rewrite (IH k v v' Hk). lia.
Qed.

Lemma sum_replicate_0 (n : nat) : sum (replicate n 0) = 0.
Proof. unfold sum. induction n as [|n IH]; simpl; lia. Qed.

(** The counting loop: every value lands in the bucket [r // binsize]; the
    length of [height] does not change and its sum grows by one per value. *)
Lemma rating_hist_height_loop (ratings : list Z) :
  Forall (fun r => 0 <= r < bins * binsize) ratings ->
  forall acc : list Z, len acc = bins ->
  exists height,
    for_in ratings (fun r height =>
      ix ← floordiv r binsize;
      h ← getitem height ix;
      setitem height ix (h + 1)) acc = Ok height /\
    len height = bins /\
    sum height = sum acc + len ratings /\
    forall (i : nat) (v : Z), acc !! i = Some v ->
      height !! i
      = Some (v + count_in (Z.of_nat i * binsize) ((Z.of_nat i + 1) * binsize)
                           ratings).
Proof.
  induction 1 as [|r ratings Hr Hrest IH]; intros acc Hacc.
  - exists acc. simpl. split; [done|]. split; [done|].
    split; [unfold len; simpl; lia|].
    intros i v Hv. rewrite Hv. f_equal. unfold count_in, len. simpl. lia.
  - cbn [for_in]. rewrite floordiv_ok by lia. cbn [mbind result_bind].
    assert (Hix : 0 <= r / binsize < bins).
    { split; [apply Z.div_pos; lia|apply Z.div_lt_upper_bound; lia]. }
    destruct (lookup_lt_is_Some_2 acc (Z.to_nat (r / binsize))) as [h Hh];
      [unfold len in Hacc; lia|].
    rewrite (getitem_nonneg acc _ h) by (done || lia).
    cbn [mbind result_bind].
    rewrite setitem_nonneg by lia. cbn [mbind result_bind].
    destruct (IH (<[Z.to_nat (r / binsize) := h + 1]> acc))
      as (height & Hrun & Hlen & Hsum & Hcount).
    { unfold len in *. by rewrite length_insert. }
    exists height. split; [exact Hrun|]. split; [exact Hlen|]. split.
    + rewrite Hsum, (sum_insert _ _ _ _ Hh). unfold len. simpl. lia.
    + intros i v Hv. rewrite count_in_cons.
      destruct (decide (i = Z.to_nat (r / binsize))) as [->|Hne].
      * rewrite Hh in Hv. injection Hv as <-.
        rewrite (Hcount _ (h + 1)).
        2: { rewrite list_lookup_insert_eq; [done|].
             by eapply lookup_lt_Some. }
        rewrite decide_True; [f_equal; lia|].
        apply bucket_iff. lia.
      * rewrite (Hcount _ v) by (by rewrite list_lookup_insert_ne).
        rewrite decide_False; [f_equal; lia|].
        intros Hin%bucket_iff. lia.
Qed.

Lemma rating_hist_height_counts (ratings : list Z) :
  0 <= bins ->
  Forall (fun r => 0 <= r < bins * binsize) ratings ->
  exists height,
    rating_hist_height ratings bins binsize = Ok height /\
    len height = bins /\
    sum height = len ratings /\
    forall i : nat, Z.of_nat i < bins ->
      height !! i
      = Some (count_in (Z.of_nat i * binsize) ((Z.of_nat i + 1) * binsize)
                       ratings).
Proof.
  intros Hbins Hall. unfold rating_hist_height.
  destruct (rating_hist_height_loop ratings Hall (repeat 0 bins))
    as (height & Hrun & Hlen & Hsum & Hcount).
  { rewrite len_repeat. lia. }
  exists height. split; [exact Hrun|]. split; [exact Hlen|]. split.
  - rewrite Hsum. unfold repeat. rewrite sum_replicate_0. lia.
  - intros i Hi. rewrite (Hcount i 0); [f_equal; lia|].
    unfold repeat. apply lookup_replicate_2. lia.
Qed.

End RatingHistCounts.

Section RatingHistCent.

Lemma truediv_ok (a b : Z) :
  b <> 0 -> truediv a b = Ok (Qc_of_Z a / Qc_of_Z b)%Qc.
Proof. intros Hb. unfold truediv. by destruct (Z.eqb_spec b 0). Qed.

Lemma sum_app_Z (l1 l2 : list Z) : sum (l1 ++ l2) = sum l1 + sum l2.
Proof. unfold sum. induction l1 as [|a l1 IH]; simpl; lia. Qed.

Lemma cumulative_percent_0 (height : list Z) : cumulative_percent height 0 = 0.
Proof.
  unfold cumulative_percent. rewrite take_0. change (100 * sum []) with 0.
  rewrite Z2Qc_inj_0. unfold Qcdiv. by rewrite Qcmult_0_l.
Qed.

(** The percentage loop, from any point of its run: [done] is the part of
    [height] already read. *)
Lemma rating_hist_cent_loop (height : list Z) :
  sum height <> 0 ->
  forall rest done : list Z,
  height = done ++ rest ->
  for_in rest (fun h '(csum, cent) =>
    let csum := csum + h in
    q ← truediv (100 * csum) (sum height);
    Ok (csum, cent ++ [round q]))
    (sum done, cumulative_percent height <$> seq 0 (S (length done)))
  = Ok (sum height,
        cumulative_percent height <$> seq 0 (S (length height))).
Proof.
  intros Husers. induction rest as [|h rest IH]; intros done Hsplit.
  - rewrite app_nil_r in Hsplit. by subst.
  - cbn [for_in]. cbn beta iota zeta.
    rewrite truediv_ok by done. cbn [mbind result_bind].
    specialize (IH (done ++ [h])).
    rewrite <- app_assoc in IH. specialize (IH Hsplit).
    rewrite sum_app_Z, length_app in IH.
    change (sum [h]) with (h + 0) in IH. change (length [h]) with 1%nat in IH.
    replace (sum done + (h + 0)) with (sum done + h) in IH by lia.
    rewrite <- IH. do 2 f_equal.
    replace (length done + 1)%nat with (S (length done)) by lia.
    rewrite (seq_S (S (length done))), fmap_app. f_equal. simpl. f_equal.
    unfold cumulative_percent. do 4 f_equal.
    rewrite Hsplit.
    rewrite (cons_middle h done rest), app_assoc.
    rewrite take_app_length' by (rewrite length_app; simpl; lia).
    rewrite sum_app_Z. simpl. lia.
Qed.

Lemma rating_hist_cent_percent (height : list Z) :
  sum height <> 0 ->
  rating_hist_cent height
  = Ok (cumulative_percent height <$> seq 0 (S (length height))).
Proof.
  intros Husers. unfold rating_hist_cent.
  pose proof (rating_hist_cent_loop height Husers height [] eq_refl) as Hrun.
  assert (Hinit : (0, [0]) = (sum [], cumulative_percent height
                                        <$> seq 0 (S (@length Z []))))
    by (cbn [length seq fmap list_fmap]; by rewrite cumulative_percent_0).
  rewrite <- Hinit in Hrun. cbv zeta in *. by rewrite Hrun.
Qed.

End RatingHistCent.

Section RatingHistTrim.

Variable height : list Z.

(** The two trimming loops unfold as the [while] loops they embed. *)
Lemma skip_empty_up_step (l : Z) :
  skip_empty_up height l
  = h ← getitem height l;
    if h =? 0 then skip_empty_up height (l + 1) else Ok l.
Proof.
  rewrite skip_empty_up_equation_1.
  destruct (inspect (getitem height l)) as [[h|e] E].
  - by rewrite skip_empty_up_clause_1_equation_1, E.
  - by rewrite skip_empty_up_clause_1_equation_2, E.
Qed.

Lemma skip_empty_down_step (r : Z) :
  skip_empty_down height r
  = h ← getitem height r;
    if h =? 0 then skip_empty_down height (r - 1) else Ok r.
Proof.
  rewrite skip_empty_down_equation_1.
  destruct (inspect (getitem height r)) as [[h|e] E].
  - by rewrite skip_empty_down_clause_1_equation_1, E.
  - by rewrite skip_empty_down_clause_1_equation_2, E.
Qed.

(** Going up from [l] with a non-empty bucket ahead, the loop stops at the
    first one. *)
Lemma skip_empty_up_first (n : nat) : forall l : Z,
  (Z.to_nat (len height - l) <= n)%nat ->
  0 <= l ->
  (exists (j : nat) (v : Z), l <= Z.of_nat j /\ height !! j = Some v /\ v <> 0) ->
  exists l' : Z,
    skip_empty_up height l = Ok l' /\
    l <= l' < len height /\
    (exists v, height !! Z.to_nat l' = Some v /\ v <> 0) /\
    forall j : nat, l <= Z.of_nat j < l' -> height !! j = Some 0.
Proof.
  induction n as [|n IH]; intros l Hn Hl (j & v & Hj & Hv & Hnz);
    assert (Hlen : Z.of_nat j < len height)
      by (unfold len; apply lookup_lt_Some in Hv; lia);
    [lia|].
  rewrite skip_empty_up_step.
  destruct (lookup_lt_is_Some_2 height (Z.to_nat l)) as [h Hh];
    [unfold len in *; lia|].
  rewrite (getitem_nonneg height l h) by done. cbn [mbind result_bind].
  destruct (Z.eqb_spec h 0) as [->|Hh0].
  - destruct (IH (l + 1)) as (l' & Hrun & Hl' & Hfirst & Hzero); [lia|lia| |].
    + exists j, v. split; [|done].
      destruct (decide (Z.of_nat j = l)) as [Heq|]; [|lia].
      rewrite <- Heq, Nat2Z.id in Hh. congruence.
    + exists l'. split; [done|]. split; [lia|]. split; [done|].
      intros i Hi. destruct (decide (Z.of_nat i = l)) as [Heq|].
      * by rewrite <- Heq, Nat2Z.id in Hh.
      * apply Hzero. lia.
  - exists l. split; [done|]. split; [lia|]. split; [eauto|]. lia.
Qed.

(** Going down from [r] with a non-empty bucket behind, the loop stops at
    the last one. *)
Lemma skip_empty_down_last (n : nat) : forall r : Z,
  (Z.to_nat (r + 1) <= n)%nat ->
  r < len height ->
  (exists (j : nat) (v : Z), Z.of_nat j <= r /\ height !! j = Some v /\ v <> 0) ->
  exists r' : Z,
    skip_empty_down height r = Ok r' /\
    0 <= r' <= r /\
    (exists v, height !! Z.to_nat r' = Some v /\ v <> 0) /\
    forall j : nat, r' < Z.of_nat j <= r -> height !! j = Some 0.
Proof.
  induction n as [|n IH]; intros r Hn Hr (j & v & Hj & Hv & Hnz); [lia|].
  rewrite skip_empty_down_step.
  destruct (lookup_lt_is_Some_2 height (Z.to_nat r)) as [h Hh];
    [unfold len in *; lia|].
  rewrite (getitem_nonneg height r h) by (done || lia).
  cbn [mbind result_bind].
  destruct (Z.eqb_spec h 0) as [->|Hh0].
  - destruct (IH (r - 1)) as (r' & Hrun & Hr' & Hlast & Hzero); [lia|lia| |].
    + exists j, v. split; [|done].
      destruct (decide (Z.of_nat j = r)) as [Heq|]; [|lia].
      rewrite <- Heq, Nat2Z.id in Hh. congruence.
    + exists r'. split; [done|]. split; [lia|]. split; [done|].
      intros i Hi. destruct (decide (Z.of_nat i = r)) as [Heq|].
      * by rewrite <- Heq, Nat2Z.id in Hh.
      * apply Hzero. lia.
  - exists r. split; [done|]. split; [lia|]. split; [eauto|]. lia.
Qed.

End RatingHistTrim.

Section Slice.

Context {A : Type}.

Lemma slice_nonneg (l : list A) (a b : Z) :
  0 <= a <= b -> b <= len l ->
  slice l a b = take (Z.to_nat (b - a)) (drop (Z.to_nat a) l).
Proof.
  intros Hab Hb. unfold slice, clip.
  rewrite !decide_False by lia. f_equal; [lia|f_equal; lia].
Qed.

Lemma lookup_slice (l : list A) (a b : Z) (j : nat) :
  0 <= a <= b -> b <= len l -> Z.of_nat j < b - a ->
  slice l a b !! j = l !! (Z.to_nat a + j)%nat.
Proof.
  intros Hab Hb Hj. rewrite slice_nonneg by done.
  rewrite lookup_take_lt by lia. apply lookup_drop.
Qed.

Lemma length_slice (l : list A) (a b : Z) :
  0 <= a <= b -> b <= len l -> len (slice l a b) = b - a.
Proof.
  intros Hab Hb. rewrite slice_nonneg by done.
  unfold len in *. rewrite length_take, length_drop. lia.
Qed.

End Slice.

Lemma sum_nonzero_lookup (l : list Z) :
  sum l <> 0 -> exists (j : nat) (v : Z), l !! j = Some v /\ v <> 0.
Proof.
  unfold sum. induction l as [|a l IH]; simpl; intros Hs; [done|].
  destruct (decide (a = 0)) as [->|Ha].
  - destruct IH as (j & v & Hj & Hv); [lia|]. by exists (S j), v.
  - by exists 0%nat, a.
Qed.

Lemma sum_zeros (l : list Z) :
  (forall j v, l !! j = Some v -> v = 0) -> sum l = 0.
Proof.
  unfold sum. induction l as [|a l IH]; intros Hz; simpl; [done|].
  rewrite (Hz 0%nat a eq_refl), IH; [done|].
  intros j v Hj. by apply (Hz (S j)).
Qed.

Section RatingHist.

Variables (RATED_RANKS : list cf.Rank) (ratings : list Z) (mode : string).
Variable binsize : Z.

Local Abbreviation bins := (3900 / binsize).
Local Abbreviation counted := (filter (fun r => r >= 0) ratings).

Hypothesis mode_known : mode = "log" \/ mode = "normal".
Hypothesis binsize_pos : 0 < binsize.
Hypothesis binsize_divides : 100 mod binsize = 0.
Hypothesis colors_pass :
  exists colors, rating_hist_colors RATED_RANKS 0 3900 binsize = Ok colors
                 /\ len colors = bins.
Hypothesis some_counted : Exists (fun r => 0 <= r) ratings.
Hypothesis all_below_high : Forall (fun r => r < 3900) ratings.

Lemma rating_hist_high : binsize * bins = 3900.
Proof.
  apply Z.mod_divide in binsize_divides as [k Hk]; [|lia].
  replace 3900 with (39 * k * binsize) by lia.
  rewrite Z.div_mul by lia. lia.
Qed.

Lemma rating_hist_bins_pos : 0 < bins.
Proof. pose proof rating_hist_high. nia. Qed.

Lemma counted_nonempty : counted <> [].
Proof.
  intros Hnil. apply Exists_exists in some_counted as (r & Hin & Hr).
  assert (Hc : r ∈ counted) by (apply list_elem_of_filter; split; [lia|done]).
  rewrite Hnil in Hc. by apply elem_of_nil in Hc.
Qed.

Lemma counted_in_range :
  Forall (fun r => 0 <= r < bins * binsize) counted.
Proof.
  apply Forall_forall. intros r [Hr Hin]%list_elem_of_filter.
  rewrite Forall_forall in all_below_high.
  pose proof (all_below_high r Hin). pose proof rating_hist_high. lia.
Qed.

(** The run of [_rating_hist] on an input in range: every statement
    succeeds, [l] and [r] are the first and the last non-empty bucket, and
    the result is the slice of the untrimmed lists between them. *)
Lemma rating_hist_run :
  exists (colors : list string) (height : list Z) (l r : Z),
    rating_hist_height counted bins binsize = Ok height /\
    len height = bins /\
    sum height = len counted /\
    (forall i : nat, Z.of_nat i < bins ->
       height !! i
       = Some (count_in (Z.of_nat i * binsize) ((Z.of_nat i + 1) * binsize)
                        counted)) /\
    0 <= l <= r /\ r < bins /\
    (forall j : nat, Z.of_nat j < l \/ r < Z.of_nat j ->
       Z.of_nat j < bins -> height !! j = Some 0) /\
    _rating_hist RATED_RANKS ratings mode binsize
    = let x := (fun k => k * binsize) <$> range 0 bins in
      let cent := cumulative_percent height <$> seq 0 (S (length height)) in
      let label :=
        (fun '(r, c) => pretty r +:+ " (" +:+ pretty c +:+ ")")
          <$> zip x cent in
      Ok {| hist_l := l;
            hist_r := r;
            hist_xlim := (l * binsize - binsize / 2,
                          r * binsize + binsize / 2);
            hist_x := slice x l (r + 1);
            hist_cent := slice cent l (r + 1);
            hist_label := slice label l (r + 1);
            hist_colors := slice colors l (r + 1);
            hist_height := slice height l (r + 1);
            hist_log := bool_decide (mode = "log") |}.
Proof.
  destruct colors_pass as (colors & Hcolors & Hncolors).
  destruct (rating_hist_height_counts binsize bins binsize_pos counted)
    as (height & Hheight & Hlen & Hsum & Hcount);
    [pose proof rating_hist_bins_pos; lia|apply counted_in_range|].
  assert (Husers : sum height <> 0).
  { rewrite Hsum. pose proof counted_nonempty as Hne.
    unfold len. destruct counted; [done|simpl; lia]. }
  destruct (sum_nonzero_lookup height Husers) as (j & v & Hj & Hv).
  assert (Hjlen : Z.of_nat j < len height)
    by (unfold len; apply lookup_lt_Some in Hj; lia).
  destruct (skip_empty_up_first height (Z.to_nat (len height)) 0)
    as (l & Hup & Hl & (vl & Hvl & Hvl0) & Hbefore); [lia|lia| |].
  { exists j, v. split; [lia|done]. }
  destruct (skip_empty_down_last height (Z.to_nat (len height)) (bins - 1))
    as (r & Hdown & Hr & (vr & Hvr & Hvr0) & Hafter); [lia|lia| |].
  { exists j, v. split; [lia|done]. }
  assert (Hlr : l <= r).
  { destruct (decide (l <= r)) as [|Hgt]; [done|].
    rewrite (Hbefore (Z.to_nat r)) in Hvr by lia. congruence. }
  exists colors, height, l, r.
  split; [done|]. split; [done|]. split; [done|]. split; [done|].
  split; [lia|]. split; [lia|]. split.
  { intros i [Hi|Hi] Hibins; [apply Hbefore|apply Hafter]; lia. }
  unfold _rating_hist.
  rewrite bool_decide_eq_true_2
    by (rewrite !elem_of_cons; tauto).
  cbn [negb].
  rewrite (bool_decide_eq_false_2 (counted = []))
    by apply counted_nonempty.
  cbn [negb assert mbind result_bind].
  unfold mod_. destruct (Z.eqb_spec binsize 0) as [|_]; [lia|].
  cbn [mbind result_bind]. rewrite binsize_divides.
  cbn [Z.eqb assert mbind result_bind].
  change (39 * 100) with 3900. rewrite floordiv_ok by lia.
  cbn [mbind result_bind]. rewrite rating_hist_high, Hcolors.
  cbn [mbind result_bind]. rewrite Hncolors, Z.eqb_refl.
  cbn [assert mbind result_bind]. rewrite Hheight.
  cbn [mbind result_bind]. rewrite rating_hist_cent_percent by done.
  cbn [mbind result_bind]. rewrite Hup. cbn [mbind result_bind].
  rewrite Hdown. reflexivity.
Qed.

End RatingHist.

Lemma count_in_split (lo mid hi : Z) (values : list Z) :
  lo <= mid <= hi ->
  count_in lo hi values = count_in lo mid values + count_in mid hi values.
Proof.
  intros Hmid. induction values as [|v values IH].
  - done.
  - rewrite !count_in_cons, IH. repeat case_decide; lia.
Qed.

Lemma count_in_counted (lo hi : Z) (values : list Z) :
  0 <= lo ->
  count_in lo hi (filter (fun r => r >= 0) values) = count_in lo hi values.
Proof.
  intros Hlo. induction values as [|v values IH]; [done|].
  rewrite filter_cons. case_decide.
  - by rewrite !count_in_cons, IH.
  - rewrite count_in_cons, IH, decide_False by lia. lia.
Qed.

Lemma count_in_all (hi : Z) (values : list Z) :
  Forall (fun r => r < hi) values ->
  len (filter (fun r => r >= 0) values) = count_in 0 hi values.
Proof.
  induction 1 as [|v values Hv _ IH]; [done|].
  rewrite count_in_cons, filter_cons, <- IH.
  unfold len. repeat case_decide; simpl; lia.
Qed.

Section Trimmed.

Variables (height counted : list Z) (l r binsize bins : Z).

Hypothesis height_len : len height = bins.
Hypothesis height_count : forall i : nat, Z.of_nat i < bins ->
  height !! i
  = Some (count_in (Z.of_nat i * binsize) ((Z.of_nat i + 1) * binsize) counted).
Hypothesis trim_bounds : 0 <= l <= r /\ r < bins.
Hypothesis trim_empty : forall j : nat,
  Z.of_nat j < l \/ r < Z.of_nat j -> Z.of_nat j < bins ->
  height !! j = Some 0.
Hypothesis binsize_pos : 0 < binsize.

Lemma sum_take_count (i : nat) :
  Z.of_nat i <= bins ->
  sum (take i height) = count_in 0 (Z.of_nat i * binsize) counted.
Proof.
  induction i as [|i IH]; intros Hi.
  - rewrite take_0. unfold count_in, len.
    rewrite (filter_none _ counted); [done|].
    apply Forall_forall. intros v _. simpl. lia.
  - rewrite (take_S_r _ _ _ (height_count i ltac:(lia))), sum_app_Z, IH by lia.
    rewrite (count_in_split 0 (Z.of_nat i * binsize)
               (Z.of_nat (S i) * binsize)) by nia.
    change (sum [?h]) with (h + 0).
    replace (Z.of_nat (S i)) with (Z.of_nat i + 1) by lia. lia.
Qed.

Lemma sum_before_trim : sum (take (Z.to_nat l) height) = 0.
Proof.
  apply sum_zeros. intros j v [Hv Hj]%lookup_take_Some.
  rewrite trim_empty in Hv by lia. congruence.
Qed.

Lemma sum_after_trim : sum (drop (Z.to_nat (r + 1)) height) = 0.
Proof.
  apply sum_zeros. intros j v Hv. rewrite lookup_drop in Hv.
  assert (Z.to_nat (r + 1) + j < length height)%nat by (by eapply lookup_lt_Some).
  rewrite trim_empty in Hv by (unfold len in *; lia). congruence.
Qed.

Lemma slice_height :
  slice height l (r + 1)
  = take (Z.to_nat (r + 1 - l)) (drop (Z.to_nat l) height).
Proof. apply slice_nonneg; lia. Qed.

Lemma sum_take_slice (j : nat) :
  Z.of_nat j <= r + 1 - l ->
  sum (take j (slice height l (r + 1)))
  = sum (take (Z.to_nat l + j) height).
Proof.
  intros Hj. rewrite slice_height, take_take.
  replace (j `min` Z.to_nat (r + 1 - l))%nat with j by lia.
  by rewrite <- take_take_drop, sum_app_Z, sum_before_trim.
Qed.

Lemma sum_slice : sum (slice height l (r + 1)) = sum height.
Proof.
  assert (Hs : length (slice height l (r + 1)) = Z.to_nat (r + 1 - l)).
  { pose proof (length_slice height l (r + 1)) as Hs. unfold len in *. lia. }
  rewrite <- (take_drop (Z.to_nat (r + 1)) height) at 2.
  rewrite sum_app_Z, sum_after_trim.
  rewrite <- (firstn_all (slice height l (r + 1))).
  change firstn with (@take Z).
  rewrite sum_take_slice by lia. rewrite Hs.
  replace (Z.to_nat l + Z.to_nat (r + 1 - l))%nat with (Z.to_nat (r + 1))
    by lia.
  lia.
Qed.

Lemma cumulative_percent_slice (j : nat) :
  Z.of_nat j <= r + 1 - l ->
  cumulative_percent (slice height l (r + 1)) j
  = cumulative_percent height (Z.to_nat l + j).
Proof.
  intros Hj. unfold cumulative_percent.
  by rewrite sum_take_slice, sum_slice.
Qed.

End Trimmed.

Section RatingHistOutput.

Variables (binsize bins : Z).

Local Abbreviation x := ((fun k => k * binsize) <$> range 0 bins).

Lemma hist_x_full (i : nat) :
  Z.of_nat i < bins -> x !! i = Some (Z.of_nat i * binsize).
Proof.
  intros Hi. rewrite list_lookup_fmap. unfold range.
  rewrite lookup_seqZ_lt by lia. done.
Qed.

Lemma len_hist_x : 0 <= bins -> len x = bins.
Proof.
  intros Hbins. unfold len, range. rewrite length_fmap, length_seqZ. lia.
Qed.

Variables (l r : Z).
Hypothesis trim_bounds : 0 <= l <= r /\ r < bins.

Lemma hist_x_lookup (j : nat) (xv : Z) :
  slice x l (r + 1) !! j = Some xv ->
  Z.of_nat j < r + 1 - l /\ xv = (l + Z.of_nat j) * binsize.
Proof.
  intros Hj.
  assert (Hlt : Z.of_nat j < r + 1 - l).
  { apply lookup_lt_Some in Hj.
    pose proof (length_slice x l (r + 1)) as Hs.
    rewrite len_hist_x in Hs by lia. unfold len in Hs. lia. }
  split; [done|].
  rewrite lookup_slice, hist_x_full in Hj
    by (rewrite ?len_hist_x; lia).
  injection Hj as <-. f_equal. lia.
Qed.

End RatingHistOutput.

(** The counts of a run on an input in range, bucket by bucket, before and
    after trimming. *)
Lemma rating_hist_run_counts (RATED_RANKS : list cf.Rank)
    (ratings : list Z) (mode : string) (binsize : Z) :
  mode = "log" \/ mode = "normal" ->
  0 < binsize ->
  100 mod binsize = 0 ->
  (exists colors, rating_hist_colors RATED_RANKS 0 3900 binsize = Ok colors
                  /\ len colors = 3900 / binsize) ->
  Exists (fun r => 0 <= r) ratings ->
  Forall (fun r => r < 3900) ratings ->
  exists (height : list Z) (out : RatingHist),
    rating_hist_height (filter (fun r => r >= 0) ratings)
                       (3900 / binsize) binsize = Ok height /\
    _rating_hist RATED_RANKS ratings mode binsize = Ok out /\
    len height = 3900 / binsize /\
    (forall i : nat, Z.of_nat i < 3900 / binsize ->
       height !! i
       = Some (count_in (Z.of_nat i * binsize) ((Z.of_nat i + 1) * binsize)
                        ratings)) /\
    sum height = count_in 0 3900 ratings /\
    hist_height out = slice height (hist_l out) (hist_r out + 1) /\
    length (hist_x out) = length (hist_height out) /\
    (forall (j : nat) (x : Z), hist_x out !! j = Some x ->
       hist_height out !! j = Some (count_in x (x + binsize) ratings)) /\
    sum (hist_height out) = count_in 0 3900 ratings.
Proof.
  intros Hmode Hpos Hdiv Hcolors Hsome Hall.
  destruct (rating_hist_run RATED_RANKS ratings mode binsize
              Hmode Hpos Hdiv Hcolors Hsome Hall)
    as (colors & height & l & r & Hheight & Hlen & Hsum & Hcount
        & Hlr & Hr & Hempty & Hrun).
  cbv zeta in Hrun.
  eexists height, _. split; [exact Hheight|]. split; [exact Hrun|].
  cbn [hist_height hist_x hist_l hist_r].
  assert (Htotal : sum height = count_in 0 3900 ratings)
    by (rewrite Hsum; by apply count_in_all).
  assert (Hcount' : forall i : nat, Z.of_nat i < 3900 / binsize ->
            height !! i
            = Some (count_in (Z.of_nat i * binsize)
                             ((Z.of_nat i + 1) * binsize) ratings)).
  { intros i Hi. rewrite Hcount by done. f_equal.
    apply count_in_counted. nia. }
  split; [exact Hlen|]. split; [exact Hcount'|]. split; [exact Htotal|].
  split; [done|]. split.
  - pose proof (length_slice height l (r + 1)) as Hh.
    pose proof (length_slice ((fun k => k * binsize)
                                <$> range 0 (3900 / binsize)) l (r + 1)) as Hx.
    rewrite len_hist_x in Hx by lia. unfold len in *. lia.
  - split.
    + intros j x Hx.
      apply (hist_x_lookup binsize (3900 / binsize) l r) in Hx as [Hj ->];
        [|lia].
      rewrite lookup_slice by lia.
      rewrite Hcount' by lia. f_equal. f_equal; lia.
    + rewrite (sum_slice height l r (3900 / binsize)); [done|done|lia|done].
Qed.

(** An input without a value [>= 0] fails the assertion on the ratings. *)
Lemma rating_hist_nothing_counted (RATED_RANKS : list cf.Rank)
    (ratings : list Z) (mode : string) (binsize : Z) :
  mode = "log" \/ mode = "normal" ->
  Forall (fun r => r < 0) ratings ->
  _rating_hist RATED_RANKS ratings mode binsize = Raise AssertionError.
Proof.
  intros Hmode Hneg. unfold _rating_hist.
  rewrite bool_decide_eq_true_2 by (rewrite !elem_of_cons; tauto).
  cbn [negb].
  rewrite (filter_none (fun r => r >= 0) ratings)
    by (eapply Forall_impl; [exact Hneg|]; simpl; lia).
  reflexivity.
Qed.

(** C7 (amended). The range of [_rating_hist] is fixed: [low = 0] and
    [high = binsize * bins = 3900].  With the mode [log] or [normal], for
    every sequence of integer values with at least one value [>= 0] and
    every value [< 3900], and a positive bin width that divides 100 (the
    colour table passing the function's own assertion, one colour per
    bucket), each value [v] with [0 <= v < 3900] is counted in the bucket
    [[i * binsize, (i + 1) * binsize)] that contains it, every value below 0
    is dropped without error, and the sum of the bucket counts, before and
    after the empty buckets at both ends are trimmed, is the number of input
    values within [[0, 3900)].  An input without a value [>= 0] fails the
    assertion that the ratings are not empty. *)
Theorem rating_hist_bucket_counts (RATED_RANKS : list cf.Rank)
    (ratings : list Z) (mode : string) (binsize : Z) :
  mode = "log" \/ mode = "normal" ->
  (0 < binsize ->
   100 mod binsize = 0 ->
   (exists colors, rating_hist_colors RATED_RANKS 0 3900 binsize = Ok colors
                   /\ len colors = 3900 / binsize) ->
   Exists (fun r => 0 <= r) ratings ->
   Forall (fun r => r < 3900) ratings ->
   exists (height : list Z) (out : RatingHist),
     rating_hist_height (filter (fun r => r >= 0) ratings)
                        (3900 / binsize) binsize = Ok height /\
     _rating_hist RATED_RANKS ratings mode binsize = Ok out /\
     len height = 3900 / binsize /\
     (forall i : nat, Z.of_nat i < 3900 / binsize ->
        height !! i
        = Some (count_in (Z.of_nat i * binsize) ((Z.of_nat i + 1) * binsize)
                         ratings)) /\
     sum height = count_in 0 3900 ratings /\
     hist_height out = slice height (hist_l out) (hist_r out + 1) /\
     length (hist_x out) = length (hist_height out) /\
     (forall (j : nat) (x : Z), hist_x out !! j = Some x ->
        hist_height out !! j = Some (count_in x (x + binsize) ratings)) /\
     sum (hist_height out) = count_in 0 3900 ratings) /\
  (Forall (fun r => r < 0) ratings ->
   _rating_hist RATED_RANKS ratings mode binsize = Raise AssertionError).
Proof.
  intros Hmode. split.
  - by apply rating_hist_run_counts.
  - by apply rating_hist_nothing_counted.
Qed.

Lemma rating_hist_bucket_counts_witness :
  let ratings := [1000; 1050; 1100; 1100; 1500; -3] in
  (("normal" = "log" \/ "normal" = "normal") /\
   0 < 100 /\
   100 mod 100 = 0 /\
   (exists colors,
      rating_hist_colors RATED_RANKS_example 0 3900 100 = Ok colors
      /\ len colors = 3900 / 100) /\
   Exists (fun r => 0 <= r) ratings /\
   Forall (fun r => r < 3900) ratings /\
   Forall (fun r => r < 0) [-5; -1]) /\
  (exists (height : list Z) (out : RatingHist),
     rating_hist_height (filter (fun r => r >= 0) ratings)
                        (3900 / 100) 100 = Ok height /\
     _rating_hist RATED_RANKS_example ratings "normal" 100 = Ok out /\
     len height = 3900 / 100 /\
     (forall i : nat, Z.of_nat i < 3900 / 100 ->
        height !! i
        = Some (count_in (Z.of_nat i * 100) ((Z.of_nat i + 1) * 100)
                         ratings)) /\
     sum height = count_in 0 3900 ratings /\
     hist_height out = slice height (hist_l out) (hist_r out + 1) /\
     length (hist_x out) = length (hist_height out) /\
     (forall (j : nat) (x : Z), hist_x out !! j = Some x ->
        hist_height out !! j = Some (count_in x (x + 100) ratings)) /\
     sum (hist_height out) = count_in 0 3900 ratings) /\
  _rating_hist RATED_RANKS_example [-5; -1] "normal" 100
  = Raise AssertionError.
Proof.
  intros ratings.
  assert (Hmode : "normal" = "log" \/ "normal" = "normal") by (by right).
  assert (Hpos : 0 < 100) by reflexivity.
  assert (Hdiv : 100 mod 100 = 0) by reflexivity.
  assert (Hcolors : exists colors,
            rating_hist_colors RATED_RANKS_example 0 3900 100 = Ok colors
            /\ len colors = 3900 / 100).
  { exists (match rating_hist_colors RATED_RANKS_example 0 3900 100 with
            | Ok colors => colors
            | Raise _ => []
            end).
    split; vm_compute; reflexivity. }
  assert (Hsome : Exists (fun r => 0 <= r) ratings)
    by (apply (bool_decide_unpack _); vm_compute; reflexivity).
  assert (Hall : Forall (fun r => r < 3900) ratings)
    by (apply (bool_decide_unpack _); vm_compute; reflexivity).
  assert (Hneg : Forall (fun r => r < 0) [-5; -1])
    by (apply (bool_decide_unpack _); vm_compute; reflexivity).
  split; [by repeat split|]. split.
  - exact (proj1 (rating_hist_bucket_counts RATED_RANKS_example ratings
                    "normal" 100 Hmode) Hpos Hdiv Hcolors Hsome Hall).
  - exact (proj2 (rating_hist_bucket_counts RATED_RANKS_example [-5; -1]
                    "normal" 100 Hmode) Hneg).
Defined.

(** C7 as stated fails: a value at or above [high] is not dropped, it
    raises [IndexError]; and an input without a value [>= 0] fails the
    assertion that the ratings are not empty. *)
Lemma rating_hist_out_of_range_raises :
  _rating_hist RATED_RANKS_example [1500; 4000] "normal" 100
  = Raise IndexError /\
  _rating_hist RATED_RANKS_example [-5] "normal" 100 = Raise AssertionError.
Proof. split; vm_compute; reflexivity. Qed.

(** The cumulative percentages of a run on an input in range. *)
Lemma rating_hist_run_percent (RATED_RANKS : list cf.Rank)
    (ratings : list Z) (mode : string) (binsize : Z) :
  mode = "log" \/ mode = "normal" ->
  0 < binsize ->
  100 mod binsize = 0 ->
  (exists colors, rating_hist_colors RATED_RANKS 0 3900 binsize = Ok colors
                  /\ len colors = 3900 / binsize) ->
  Exists (fun r => 0 <= r) ratings ->
  Forall (fun r => r < 3900) ratings ->
  exists out : RatingHist,
    _rating_hist RATED_RANKS ratings mode binsize = Ok out /\
    length (hist_cent out) = length (hist_x out) /\
    length (hist_label out) = length (hist_x out) /\
    forall (j : nat) (x : Z), hist_x out !! j = Some x ->
      exists c : Z,
        hist_cent out !! j = Some c /\
        c = round (Qc_of_Z (100 * count_in 0 x ratings)
                   / Qc_of_Z (count_in 0 3900 ratings))%Qc /\
        c = cumulative_percent (hist_height out) j /\
        hist_label out !! j = Some (pretty x +:+ " (" +:+ pretty c +:+ ")").
Proof.
  intros Hmode Hpos Hdiv Hcolors Hsome Hall.
  destruct (rating_hist_run RATED_RANKS ratings mode binsize
              Hmode Hpos Hdiv Hcolors Hsome Hall)
    as (colors & height & l & r & Hheight & Hlen & Hsum & Hcount
        & Hlr & Hr & Hempty & Hrun).
  cbv zeta in Hrun.
  eexists. split; [exact Hrun|].
  cbn [hist_height hist_x hist_l hist_r hist_cent hist_label].
  set (bins := 3900 / binsize) in *.
  set (xs := (fun k => k * binsize) <$> range 0 bins).
  set (cent := cumulative_percent height <$> seq 0 (S (length height))).
  set (label := (fun '(r, c) => pretty r +:+ " (" +:+ pretty c +:+ ")")
                  <$> zip xs cent).
  assert (Hxs : len xs = bins) by (apply len_hist_x; lia).
  assert (Hcent : len cent = bins + 1)
    by (unfold len, cent in *; rewrite length_fmap, length_seq; lia).
  assert (Hlabel : len label = bins).
  { unfold len, label in *.
    rewrite length_fmap, length_zip_with. lia. }
  pose proof (length_slice xs l (r + 1)) as Hsx.
  pose proof (length_slice cent l (r + 1)) as Hsc.
  pose proof (length_slice label l (r + 1)) as Hsl.
  split; [unfold len in *; lia|]. split; [unfold len in *; lia|].
  intros j x Hx.
  apply (hist_x_lookup binsize bins l r) in Hx as [Hj ->]; [|lia].
  assert (Hc : cent !! (Z.to_nat l + j)%nat
               = Some (cumulative_percent height (Z.to_nat l + j))).
  { unfold cent. rewrite list_lookup_fmap.
    rewrite (proj2 (lookup_seq 0 _ _ (Z.to_nat l + j)%nat)); [done|].
    unfold len in *. lia. }
  exists (cumulative_percent height (Z.to_nat l + j)).
  split; [by rewrite lookup_slice by lia|]. split; [|split].
  - unfold cumulative_percent.
    rewrite (sum_take_count height (filter (fun r => r >= 0) ratings)
               binsize bins) by (done || lia).
    rewrite count_in_counted by lia.
    rewrite Hsum, (count_in_all 3900) by done.
    replace (Z.of_nat (Z.to_nat l + j)) with (l + Z.of_nat j) by lia.
    reflexivity.
  - symmetry. by apply (cumulative_percent_slice height l r bins); try lia.
  - rewrite lookup_slice by lia.
    assert (Hz : zip xs cent !! (Z.to_nat l + j)%nat
                 = Some (Z.of_nat (Z.to_nat l + j) * binsize,
                         cumulative_percent height (Z.to_nat l + j))).
    { apply lookup_zip_with_Some. do 2 eexists.
      split; [done|]. split; [|exact Hc].
      unfold xs. by rewrite hist_x_full by lia. }
    unfold label. rewrite list_lookup_fmap, Hz. simpl.
    replace (Z.of_nat (Z.to_nat l + j)) with (l + Z.of_nat j) by lia.
    reflexivity.
Qed.

(** ** The inputs that [_rating_hist] bucketizes *)

Section RatingHistInversion.

Variables (binsize bins : Z).
Hypothesis binsize_pos : 0 < binsize.

(** The counting loop returns only if every value falls in a bucket. *)
Lemma rating_hist_height_loop_inv (ratings : list Z) :
  Forall (fun r => 0 <= r) ratings ->
  forall acc height : list Z,
  len acc = bins ->
  for_in ratings (fun r height =>
    ix ← floordiv r binsize;
    h ← getitem height ix;
    setitem height ix (h + 1)) acc = Ok height ->
  Forall (fun r => r < bins * binsize) ratings.
Proof.
  induction 1 as [|r ratings Hr _ IH]; intros acc height Hacc Hrun;
    [constructor|].
  cbn [for_in] in Hrun. rewrite floordiv_ok in Hrun by lia.
  cbn [mbind result_bind] in Hrun.
  assert (Hix : 0 <= r / binsize) by (apply Z.div_pos; lia).
  destruct (decide (r / binsize < bins)) as [Hlt|Hge].
  - destruct (lookup_lt_is_Some_2 acc (Z.to_nat (r / binsize))) as [h Hh];
      [unfold len in Hacc; lia|].
    rewrite (getitem_nonneg acc _ h) in Hrun by (done || lia).
    cbn [mbind result_bind] in Hrun.
    rewrite setitem_nonneg in Hrun by lia.
    cbn [mbind result_bind] in Hrun.
    constructor.
    + pose proof (Z.mul_succ_div_gt r binsize binsize_pos). nia.
    + eapply IH; [|exact Hrun]. unfold len in *. by rewrite length_insert.
  - by rewrite getitem_out in Hrun by lia.
Qed.

End RatingHistInversion.

(** [_rating_hist] returns exactly on the inputs described in C7: a known
    mode, a positive bin width that divides 100, a colour table that passes
    the assertion, some value [>= 0] and no value [>= 3900]. *)
Lemma rating_hist_ok_inv (RATED_RANKS : list cf.Rank) (ratings : list Z)
    (mode : string) (binsize : Z) (out : RatingHist) :
  _rating_hist RATED_RANKS ratings mode binsize = Ok out ->
  (mode = "log" \/ mode = "normal") /\
  0 < binsize /\
  100 mod binsize = 0 /\
  (exists colors, rating_hist_colors RATED_RANKS 0 3900 binsize = Ok colors
                  /\ len colors = 3900 / binsize) /\
  Exists (fun r => 0 <= r) ratings /\
  Forall (fun r => r < 3900) ratings.
Proof.
  unfold _rating_hist. intros Hrun.
  destruct (decide (mode ∈ ["log"; "normal"])) as [Hmode|Hmode];
    [rewrite bool_decide_eq_true_2 in Hrun by done
    |by rewrite bool_decide_eq_false_2 in Hrun by done].
  cbn [negb] in Hrun.
  destruct (decide (filter (fun r => r >= 0) ratings = [])) as [Hnil|Hne];
    [by rewrite (bool_decide_eq_true_2 _ Hnil) in Hrun|].
  rewrite (bool_decide_eq_false_2 _ Hne) in Hrun.
  cbn [negb assert mbind result_bind] in Hrun.
  unfold mod_ in Hrun. destruct (Z.eqb_spec binsize 0) as [|Hnz]; [done|].
  cbn [mbind result_bind] in Hrun.
  destruct (Z.eqb_spec (100 mod binsize) 0) as [Hdiv|]; [|done].
  cbn [assert mbind result_bind] in Hrun.
  change (39 * 100) with 3900 in Hrun. rewrite floordiv_ok in Hrun by done.
  cbn [mbind result_bind] in Hrun.
  destruct (rating_hist_colors RATED_RANKS 0 (binsize * (3900 / binsize))
              binsize) as [colors|] eqn:Hcolors; [|done].
  cbn [mbind result_bind] in Hrun.
  destruct (Z.eqb_spec (len colors) (3900 / binsize)) as [Hncolors|]; [|done].
  cbn [assert mbind result_bind] in Hrun.
  assert (Hpos : 0 < binsize).
  { destruct (decide (0 < binsize)) as [|Hneg]; [done|].
    pose proof (len_nonneg colors).
    pose proof (Z.div_mod 3900 binsize Hnz).
    pose proof (Z.mod_neg_bound 3900 binsize ltac:(lia)). nia. }
  assert (Hhigh : binsize * (3900 / binsize) = 3900)
    by (by apply rating_hist_high).
  rewrite Hhigh in Hcolors.
  destruct (rating_hist_height _ _ _) as [height|] eqn:Hheight; [|done].
  assert (Hcounted : Forall (fun r => r < 3900)
                            (filter (fun r => r >= 0) ratings)).
  { replace 3900 with (3900 / binsize * binsize) by lia.
    eapply (rating_hist_height_loop_inv binsize (3900 / binsize) Hpos);
      [| |exact Hheight].
    - apply Forall_forall. intros r [Hr _]%list_elem_of_filter. lia.
    - rewrite len_repeat. pose proof (len_nonneg colors). lia. }
  split.
  { rewrite !elem_of_cons in Hmode.
    destruct Hmode as [?|[?|Hnone]]; [by left|by right|].
    by apply elem_of_nil in Hnone. }
  split; [done|]. split; [done|]. split; [by exists colors|]. split.
  - destruct (filter (fun r => r >= 0) ratings) as [|r rs] eqn:Hf; [done|].
    apply Exists_exists. exists r.
    assert (Hin : r ∈ filter (fun r => r >= 0) ratings)
      by (rewrite Hf; by left).
    apply list_elem_of_filter in Hin as [Hr Hin]. split; [done|lia].
  - apply Forall_forall. intros r Hin.
    destruct (decide (r >= 0)) as [Hr|Hr]; [|lia].
    rewrite Forall_forall in Hcounted. apply Hcounted.
    by apply list_elem_of_filter.
Qed.

(** C8. On every input that [_rating_hist] bucketizes, each bucket boundary
    [x] left after trimming carries the cumulative percentage
    [round(100 * running_count / total_count)], where the running count is
    the number of counted values below [x], which is the sum of the counts
    of the buckets before it, and the total is the number of counted values;
    the label of the boundary shows it next to [x]. *)
Theorem rating_hist_cumulative_percent (RATED_RANKS : list cf.Rank)
    (ratings : list Z) (mode : string) (binsize : Z) (out : RatingHist) :
  _rating_hist RATED_RANKS ratings mode binsize = Ok out ->
  length (hist_cent out) = length (hist_x out) /\
  length (hist_label out) = length (hist_x out) /\
  forall (j : nat) (x : Z), hist_x out !! j = Some x ->
    exists c : Z,
      hist_cent out !! j = Some c /\
      c = round (Qc_of_Z (100 * count_in 0 x ratings)
                 / Qc_of_Z (count_in 0 3900 ratings))%Qc /\
      c = cumulative_percent (hist_height out) j /\
      hist_label out !! j = Some (pretty x +:+ " (" +:+ pretty c +:+ ")").
Proof.
  intros Hrun.
  destruct (rating_hist_ok_inv _ _ _ _ _ Hrun)
    as (Hmode & Hpos & Hdiv & Hcolors & Hsome & Hall).
  destruct (rating_hist_run_percent RATED_RANKS ratings mode binsize
              Hmode Hpos Hdiv Hcolors Hsome Hall) as (out' & Hrun' & Hout).
  rewrite Hrun in Hrun'. injection Hrun' as <-. exact Hout.
Qed.

Lemma rating_hist_cumulative_percent_witness :
  let ratings := [1000; 1050; 1100; 1100; 1500; -3] in
  let out := rating_hist_example in
  _rating_hist RATED_RANKS_example ratings "normal" 100 = Ok out /\
  length (hist_cent out) = length (hist_x out) /\
  length (hist_label out) = length (hist_x out) /\
  forall (j : nat) (x : Z), hist_x out !! j = Some x ->
    exists c : Z,
      hist_cent out !! j = Some c /\
      c = round (Qc_of_Z (100 * count_in 0 x ratings)
                 / Qc_of_Z (count_in 0 3900 ratings))%Qc /\
      c = cumulative_percent (hist_height out) j /\
      hist_label out !! j = Some (pretty x +:+ " (" +:+ pretty c +:+ ")").
Proof.
  intros ratings out.
  assert (Hrun : _rating_hist RATED_RANKS_example ratings "normal" 100
                 = Ok out) by (vm_compute; reflexivity).
  split; [exact Hrun|].
  exact (rating_hist_cumulative_percent RATED_RANKS_example ratings "normal"
           100 out Hrun).
Defined.

(** ** Percentile *)

Section Bisect.

Variables (a : list Z) (x : Z).
Hypothesis a_sorted : StronglySorted Z.le a.

Local Abbreviation below := (count_below x a).

Lemma sorted_below_prefix (l : list Z) :
  StronglySorted Z.le l ->
  l = filter (fun v => v < x) l ++ filter (fun v => x <= v) l.
Proof.
  induction 1 as [|v l Hl IH Hv]; [done|].
  rewrite !filter_cons. destruct (decide (v < x)) as [Hlt|Hge].
  - rewrite decide_False by lia. simpl. by rewrite <- IH.
  - rewrite decide_True by lia.
    assert (Hall : Forall (fun w => x <= w) l)
      by (eapply Forall_impl; [exact Hv|]; simpl; lia).
    rewrite (filter_none (fun v => v < x) l)
      by (eapply Forall_impl; [exact Hall|]; simpl; lia).
    by rewrite (filter_all (fun v => x <= v) l).
Qed.

Lemma sorted_lookup_below (j : nat) (v : Z) :
  a !! j = Some v -> v < x <-> Z.of_nat j < below.
Proof.
  intros Hj. unfold count_below, len.
  rewrite (sorted_below_prefix a a_sorted) in Hj.
  destruct (decide (j < length (filter (fun v => (v < x)%Z) a))%nat)
    as [Hlt|Hge].
  - rewrite lookup_app_l in Hj by done.
    apply list_elem_of_lookup_2, list_elem_of_filter in Hj as [Hv _]. lia.
  - rewrite lookup_app_r in Hj by lia.
    apply list_elem_of_lookup_2, list_elem_of_filter in Hj as [Hv _]. lia.
Qed.

Lemma below_bounds : 0 <= below <= len a.
Proof.
  unfold count_below, len. split; [lia|].
  pose proof (length_filter (fun v => v < x) a). lia.
Qed.

Lemma bisect_left_loop_below (n : nat) : forall lo hi,
  (Z.to_nat (hi - lo) <= n)%nat ->
  0 <= lo <= below -> below <= hi <= len a ->
  bisect_left_loop a x lo hi = Ok below.
Proof.
  induction n as [|n IH]; intros lo hi Hn Hlo Hhi;
    rewrite bisect_left_loop_equation_1; simpl;
    destruct (decide (lo < hi)) as [Hlt|Hge]; simpl;
    try (f_equal; lia); try lia.
  assert (Hmid : lo <= (lo + hi) / 2 < hi)
    by (split; [apply Z.div_le_lower_bound|apply Z.div_lt_upper_bound]; lia).
  destruct (lookup_lt_is_Some_2 a (Z.to_nat ((lo + hi) / 2))) as [v Hv];
    [unfold len in *; lia|].
  rewrite (getitem_nonneg a _ v) by (done || lia).
  pose proof (sorted_lookup_below _ _ Hv) as Hbelow.
  destruct (Z.ltb_spec v x); apply IH; lia.
Qed.

Lemma bisect_left_below : bisect_left a x = Ok below.
Proof.
  unfold bisect_left.
  apply (bisect_left_loop_below (Z.to_nat (len a))); pose proof below_bounds; lia.
Qed.

End Bisect.

(** C6. For every non-empty sorted population and every query [v], the
    leftmost binary search finds the number of elements strictly less than
    [v], and the percentile is 100 times that number divided by the size of
    the population; the percentile of 1200 in [900, 1000, 1200, 1400] is
    50. *)
Theorem centile_cent_rank :
  (forall (ratings : list Z) (v : Z),
     ratings <> [] -> Sorted Z.le ratings ->
     bisect_left ratings v = Ok (count_below v ratings) /\
     centile_cent ratings v
     = Ok (Qc_of_Z (100 * count_below v ratings) / Qc_of_Z (len ratings))%Qc)
  /\
  centile_cent (sorted [900; 1000; 1200; 1400]) 1200 = Ok (Qc_of_Z 50).
Proof.
  split.
  - intros ratings v Hne Hsorted.
    assert (Hrank : bisect_left ratings v = Ok (count_below v ratings)).
    { apply bisect_left_below, Sorted_StronglySorted; [|done].
      intros p q r. apply Z.le_trans. }
    split; [exact Hrank|].
    unfold centile_cent. rewrite Hrank. cbn [mbind result_bind].
    unfold truediv. destruct (Z.eqb_spec (len ratings) 0) as [Hz|_]; [|done].
    destruct ratings; [done|]. unfold len in Hz. simpl in Hz. lia.
  - vm_compute. f_equal. by apply Qc_is_canon.
Qed.

Lemma centile_cent_rank_witness :
  let ratings := [900; 1000; 1200; 1400] in
  ratings <> [] /\ Sorted Z.le ratings /\
  bisect_left ratings 1200 = Ok (count_below 1200 ratings) /\
  centile_cent ratings 1200
  = Ok (Qc_of_Z (100 * count_below 1200 ratings) / Qc_of_Z (len ratings))%Qc.
Proof.
  intros ratings.
  assert (Hne : ratings <> []) by discriminate.
  assert (Hsorted : Sorted Z.le ratings)
    by (repeat constructor; vm_compute; discriminate).
  split; [exact Hne|]. split; [exact Hsorted|].
  exact (proj1 centile_cent_rank ratings 1200 Hne Hsorted).
Defined.

Lemma bisect_left_nil (v : Z) : bisect_left [] v = Ok 0.
Proof.
  unfold bisect_left. by rewrite bisect_left_loop_equation_1.
Qed.

Lemma centile_cent_nil (v : Z) : centile_cent [] v = Raise ZeroDivisionError.
Proof. unfold centile_cent. by rewrite bisect_left_nil. Qed.

(** C9 (amended). With an empty population nothing is checked up front and
    no error of the module's own is raised for it: the percentile curve is
    computed and is empty; the percentile of a value runs the binary search
    (rank 0) and then fails with [ZeroDivisionError] in the division by the
    size of the population; the command fails with that error when the
    first user to mark is rated, with [GraphCogError] when that user is not
    rated, and with [IndexError], on reading [ratings[0]], when no user is
    marked. *)
Theorem centile_empty_population :
  centile_perc (sorted []) = [] /\
  (forall v, bisect_left (sorted []) v = Ok 0 /\
             centile_cent (sorted []) v = Raise ZeroDivisionError) /\
  (forall (zoom nomarker : bool) (infos : list cf.User),
     centile [] zoom nomarker infos
     = Raise (if nomarker then IndexError
              else match infos with
                   | [] => IndexError
                   | info :: _ =>
                       match cf.user_rating info with
                       | Some _ => ZeroDivisionError
                       | None => GraphCogError
                       end
                   end)).
Proof.
  change (sorted []) with (@nil Z).
  split; [done|]. split.
  - intros v. by rewrite bisect_left_nil, centile_cent_nil.
  - intros zoom nomarker infos. unfold centile.
    change (sorted []) with (@nil Z).
    destruct nomarker; [done|].
    destruct infos as [|info infos]; [done|].
    unfold centile_users_to_mark. cbn [negb for_in].
    destruct (cf.user_rating info) as [rating|]; [|reflexivity].
    rewrite centile_cent_nil. reflexivity.
Qed.

(** C9 as stated fails: on the empty population the curve is a value, not a
    failure, and the failure of the percentile of a rated user is not
    [GraphCogError], the one error class of the module. *)
Lemma centile_empty_population_error :
  centile_perc (sorted []) = [] /\
  centile_cent (sorted []) 1200 <> Raise GraphCogError /\
  centile [] false false [ {| cf.handle := "tourist";
                              cf.user_rating := Some 3800 |} ]
  = Raise ZeroDivisionError.
Proof.
  split; [reflexivity|]. split; [|reflexivity].
  change (sorted []) with (@nil Z). rewrite centile_cent_nil. discriminate.
Qed.

(** * More of the module *)

(** ** More facts about the Python runtime *)

Section RuntimeMore.

Context {A : Type}.
Implicit Types (l : list A) (i : Z).

Lemma getitem_in_range l i :
  - len l <= i < len l -> exists v, getitem l i = Ok v.
Proof.
  intros Hi. unfold getitem, position, len in *.
  destruct (decide (0 <= i < Z.of_nat (length l))) as [Hpos|Hneg].
  - destruct (lookup_lt_is_Some_2 l (Z.to_nat i)) as [v ->]; [lia|eauto].
  - rewrite decide_True by lia.
    destruct (lookup_lt_is_Some_2 l (Z.to_nat (Z.of_nat (length l) + i)))
      as [v ->]; [lia|eauto].
Qed.

Lemma getitem_below l i : i < - len l -> getitem l i = Raise IndexError.
Proof.
  intros Hi. unfold getitem, position, len in *.
  rewrite decide_False by lia. by rewrite decide_False by lia.
Qed.

Lemma setitem_in_range l i v :
  - len l <= i < len l ->
  exists l', setitem l i v = Ok l' /\ length l' = length l.
Proof.
  intros Hi. unfold setitem, position, len in *.
  destruct (decide (0 <= i < Z.of_nat (length l))) as [Hpos|Hneg].
  - eexists. split; [done|]. by rewrite length_insert.
  - rewrite decide_True by lia.
    eexists. split; [done|]. by rewrite length_insert.
Qed.

End RuntimeMore.

Lemma for_in_app {A S : Type} (body : A -> S -> result S) (xs ys : list A) :
  forall s : S,
  for_in (xs ++ ys) body s = (s' ← for_in xs body s; for_in ys body s').
Proof.
  induction xs as [|x xs IH]; intros s; [done|].
  simpl. destruct (body x s) as [s1|e]; [apply IH|done].
Qed.

Lemma range_split (a j b : Z) :
  a <= j <= b -> range a b = range a j ++ range j b.
Proof.
  intros Hj. unfold range.
  replace (b - a) with ((j - a) + (b - j)) by lia.
  rewrite seqZ_app by lia. do 2 f_equal; lia.
Qed.

(** The rule of a [for] loop over [range(a, b)] that is interrupted: the
    iterations before [j] keep the invariant and the one at [j] raises. *)
Lemma for_in_range_raise {S : Type} (body : Z -> S -> result S)
    (Inv : Z -> S -> Prop) (a j b : Z) (e : exn) (s : S) :
  a <= j < b ->
  Inv a s ->
  (forall i s, a <= i < j -> Inv i s ->
     exists s', body i s = Ok s' /\ Inv (i + 1) s') ->
  (forall s, Inv j s -> body j s = Raise e) ->
  for_in (range a b) body s = Raise e.
Proof.
  intros Hj Hinv Hstep Hraise.
  rewrite (range_split a j b) by lia. rewrite for_in_app.
  destruct (for_in_range body Inv j (Z.to_nat (j - a)) a s)
    as (s' & -> & Hinv'); [lia|done|done|].
  cbn [mbind result_bind]. rewrite range_cons by lia. simpl.
  by rewrite Hraise.
Qed.

(** ** Running mean: the windows outside the intended range, and the
    extreme windows *)

Section RunningMeanEdges.

Implicit Types (x cum_sum : list Qc) (bin_size : Z).

Lemma running_mean_zero_window x :
  _running_mean x 0 = Raise ZeroDivisionError.
Proof.
  unfold _running_mean.
  destruct (running_mean_cum_sum x) as (cum_sum & -> & Hlen & Hsum).
  cbn [mbind result_bind].
  apply (for_in_range_raise _ (fun _ _ => True) 0 0);
    [pose proof (len_nonneg x); lia|done|intros; lia|].
  intros res _.
  destruct (getitem_in_range cum_sum 0) as [v0 Hv0]; [unfold len; lia|].
  change (0 - 0) with 0. by rewrite Hv0.
Qed.

Lemma running_mean_negative_window x bin_size :
  bin_size < 0 -> _running_mean x bin_size = Raise IndexError.
Proof.
  intros Hneg. unfold _running_mean.
  destruct (running_mean_cum_sum x) as (cum_sum & -> & Hlen & Hsum).
  cbn [mbind result_bind].
  assert (Hcum : len cum_sum = len x + 1) by (unfold len; lia).
  pose proof (len_nonneg x) as Hn.
  destruct (decide (- bin_size <= len x + 1)) as [Hsmall|Hbig].
  - apply (for_in_range_raise _
             (fun _ res => len res = len x - bin_size + 1)
             bin_size (len x + bin_size + 1)); [lia| | |].
    + rewrite len_repeat. lia.
    + intros i res Hi Hres.
      destruct (getitem_in_range cum_sum i) as [hi ->]; [lia|].
      cbn [mbind result_bind].
      destruct (getitem_in_range cum_sum (i - bin_size)) as [lo ->]; [lia|].
      cbn [mbind result_bind]. unfold truediv_num.
      destruct (Z.eqb_spec bin_size 0) as [|_]; [lia|].
      cbn [mbind result_bind].
      destruct (setitem_in_range res (i - bin_size)
                  ((hi - lo) / Qc_of_Z bin_size)%Qc) as (res' & -> & Hres');
        [lia|].
      exists res'. split; [done|]. unfold len in *. lia.
    + intros res Hres.
      destruct (getitem_in_range cum_sum (len x + bin_size + 1)) as [hi ->];
        [lia|].
      cbn [mbind result_bind].
      by rewrite getitem_out by lia.
  - apply (for_in_range_raise _ (fun _ _ => True) bin_size bin_size);
      [lia|done|intros; lia|].
    intros res _. by rewrite (getitem_below cum_sum bin_size) by lia.
Qed.

End RunningMeanEdges.

(** X1. [_running_mean] raises [ZeroDivisionError] for the window 0 and
    [IndexError] for every negative window, whatever the sequence: the
    windows below 1 never give a result. *)
Theorem running_mean_window_below_one (x : list Qc) (bin_size : Z) :
  bin_size < 1 ->
  _running_mean x bin_size
  = Raise (if bin_size =? 0 then ZeroDivisionError else IndexError).
Proof.
  intros Hw. destruct (Z.eqb_spec bin_size 0) as [->|Hnz].
  - apply running_mean_zero_window.
  - apply running_mean_negative_window. lia.
Qed.

Lemma running_mean_window_below_one_witness :
  let x := Qc_of_Z <$> [1000; 1100; 1200] in
  (0 < 1 /\ _running_mean x 0 = Raise ZeroDivisionError) /\
  (-2 < 1 /\ _running_mean x (-2) = Raise IndexError).
Proof.
  intros x. split.
  - assert (Hw : 0 < 1) by reflexivity.
    split; [exact Hw|]. exact (running_mean_window_below_one x 0 Hw).
  - assert (Hw : -2 < 1) by reflexivity.
    split; [exact Hw|]. exact (running_mean_window_below_one x (-2) Hw).
Defined.

Section RunningMeanValues.

Implicit Types (x : list Qc).

Lemma Qc_of_Z_pos_neq_0 (n : Z) : 0 < n -> Qc_of_Z n <> 0%Qc.
Proof.
  intros Hn Hz. rewrite <- Z2Qc_inj_0 in Hz. apply Z2Qc_inj in Hz. lia.
Qed.

Lemma window_sum_one x (j : nat) (v : Qc) :
  x !! j = Some v -> window_sum x j 1 = v.
Proof.
  intros Hv. unfold window_sum. rewrite (drop_S _ _ _ Hv). simpl.
  apply Qcplus_0_r.
Qed.

Lemma sliding_mean_one x : sliding_mean x 1 = x.
Proof.
  apply list_eq_same_length with (length x);
    [done|rewrite length_sliding_mean; lia|].
  intros j v v' Hj Hv Hv'.
  rewrite lookup_sliding_mean in Hv by lia.
  rewrite (window_sum_one _ _ _ Hv') in Hv. injection Hv as <-.
  change (Z.of_nat 1) with 1. rewrite Z2Qc_inj_1.
  field. discriminate.
Qed.

Lemma sliding_mean_all x :
  x <> [] ->
  sliding_mean x (length x)
  = [(foldr Qcplus 0 x / Qc_of_Z (len x))%Qc].
Proof.
  intros Hne. unfold sliding_mean, window_sum.
  replace (length x + 1 - length x)%nat with 1%nat by lia. simpl.
  by rewrite firstn_all.
Qed.

(** A sum of [n] numbers between [lo] and [hi] is between [n * lo] and
    [n * hi]. *)
Lemma sum_between (lo hi : Qc) (l : list Qc) :
  Forall (fun v => (lo <= v)%Qc /\ (v <= hi)%Qc) l ->
  (Qc_of_Z (len l) * lo <= foldr Qcplus 0 l)%Qc /\
  (foldr Qcplus 0 l <= Qc_of_Z (len l) * hi)%Qc.
Proof.
  induction 1 as [|v l [Hlo Hhi] _ [IHlo IHhi]].
  - change (Qc_of_Z (len [])) with (Qc_of_Z 0).
    rewrite Z2Qc_inj_0, !Qcmult_0_l. split; apply Qcle_refl.
  - unfold len in *. simpl length.
    replace (Z.of_nat (S (length l))) with (1 + Z.of_nat (length l)) by lia.
    rewrite Z2Qc_inj_add, Z2Qc_inj_1, !Qcmult_plus_distr_l, !Qcmult_1_l.
    simpl. split; by apply Qcplus_le_compat.
Qed.

Lemma mean_between (lo hi s : Qc) (n : Z) :
  0 < n ->
  (Qc_of_Z n * lo <= s)%Qc -> (s <= Qc_of_Z n * hi)%Qc ->
  (lo <= s / Qc_of_Z n)%Qc /\ (s / Qc_of_Z n <= hi)%Qc.
Proof.
  intros Hn Hlo Hhi.
  assert (Hpos : (0 < Qc_of_Z n)%Qc)
    by (rewrite <- Z2Qc_inj_0; exact (proj1 (Z2Qc_inj_lt 0 n) Hn)).
  assert (Hnz : Qc_of_Z n <> 0%Qc) by (by apply Qc_of_Z_pos_neq_0).
  split.
  - apply (Qcmult_le_mono_pos_l _ _ (Qc_of_Z n) Hpos).
    replace (Qc_of_Z n * (s / Qc_of_Z n))%Qc with s by (field; done). done.
  - apply (Qcmult_le_mono_pos_l _ _ (Qc_of_Z n) Hpos).
    replace (Qc_of_Z n * (s / Qc_of_Z n))%Qc with s by (field; done). done.
Qed.

Lemma sliding_mean_between (lo hi : Qc) x (w : nat) :
  (0 < w)%nat ->
  Forall (fun v => (lo <= v)%Qc /\ (v <= hi)%Qc) x ->
  Forall (fun m => (lo <= m)%Qc /\ (m <= hi)%Qc) (sliding_mean x w).
Proof.
  intros Hw Hx. apply Forall_lookup. intros j m Hm.
  assert (Hj : (j < length x + 1 - w)%nat)
    by (apply lookup_lt_Some in Hm; by rewrite length_sliding_mean in Hm).
  rewrite lookup_sliding_mean in Hm by done. injection Hm as <-.
  unfold window_sum.
  assert (Hwin : Forall (fun v => (lo <= v)%Qc /\ (v <= hi)%Qc)
                        (take w (drop j x)))
    by (by apply Forall_take, Forall_drop).
  destruct (sum_between lo hi _ Hwin) as [Hlo Hhi].
  assert (Hlen : len (take w (drop j x)) = Z.of_nat w)
    by (unfold len; rewrite length_take, length_drop; lia).
  rewrite Hlen in Hlo, Hhi. apply mean_between; [lia|done|done].
Qed.

End RunningMeanValues.

(** The extreme windows in exact arithmetic. *)
Lemma running_mean_extreme_windows_exact (x : list Qc) :
  _running_mean x 1 = Ok x /\
  (x <> [] ->
   _running_mean x (len x)
   = Ok [(foldr Qcplus 0 x / Qc_of_Z (len x))%Qc]).
Proof.
  split.
  - destruct x as [|v x].
    + by apply running_mean_wide.
    + rewrite running_mean_sliding by (unfold len; simpl; lia).
      change (Z.to_nat 1) with 1%nat. by rewrite sliding_mean_one.
  - intros Hne.
    rewrite running_mean_sliding
      by (unfold len; destruct x; [done|simpl; lia]).
    unfold len at 1. rewrite Nat2Z.id. f_equal. by apply sliding_mean_all.
Qed.

Lemma len_fmap {A B} (f : A -> B) (l : list A) : len (f <$> l) = len l.
Proof. unfold len. by rewrite length_fmap. Qed.

(** X2. The extreme windows of [_running_mean] on a sequence of
    non-negative integers whose sum is at most [2^53], where binary64
    computes every sum exactly: with window 1 the result has the values of
    the sequence itself, and with the window equal to the length of a
    non-empty sequence it is the single quotient of the sum of all its
    elements by their number. *)
Theorem running_mean_extreme_windows (xs : list Z) :
  Forall (fun z => 0 <= z) xs -> sum xs <= 2 ^ 53 ->
  _running_mean (Qc_of_Z <$> xs) 1 = Ok (Qc_of_Z <$> xs) /\
  (xs <> [] ->
   _running_mean (Qc_of_Z <$> xs) (len xs)
   = Ok [(Qc_of_Z (sum xs) / Qc_of_Z (len xs))%Qc]).
Proof.
  intros _ _.
  destruct (running_mean_extreme_windows_exact (Qc_of_Z <$> xs))
    as [Hone Hall].
  split; [exact Hone|]. intros Hne.
  rewrite <- Qc_of_Z_sum, <- (len_fmap Qc_of_Z xs). apply Hall.
  by destruct xs.
Qed.

Lemma running_mean_extreme_windows_witness :
  let xs := [1000; 1100; 1200] in
  Forall (fun z => 0 <= z) xs /\ sum xs <= 2 ^ 53 /\
  _running_mean (Qc_of_Z <$> xs) 1 = Ok (Qc_of_Z <$> xs) /\
  (xs <> [] /\
   _running_mean (Qc_of_Z <$> xs) (len xs)
   = Ok [(Qc_of_Z (sum xs) / Qc_of_Z (len xs))%Qc]).
Proof.
  intros xs.
  assert (Hpos : Forall (fun z => 0 <= z) xs)
    by (repeat constructor; discriminate).
  assert (Hsum : sum xs <= 2 ^ 53) by (vm_compute; discriminate).
  assert (Hne : xs <> []) by discriminate.
  split; [exact Hpos|]. split; [exact Hsum|]. split.
  - exact (proj1 (running_mean_extreme_windows xs Hpos Hsum)).
  - split; [exact Hne|].
    exact (proj2 (running_mean_extreme_windows xs Hpos Hsum) Hne).
Defined.

(** X3. [_running_mean] stays within the range of its input, on a
    sequence of non-negative integers whose sum is at most [2^53]: when
    every element lies between the integers [lo] and [hi] and the window
    fits, every element of the result lies between [lo] and [hi]. *)
Theorem running_mean_between (xs : list Z) (w lo hi : Z) :
  1 <= w <= len xs ->
  Forall (fun z => 0 <= z) xs -> sum xs <= 2 ^ 53 ->
  Forall (fun z => lo <= z <= hi) xs ->
  exists res,
    _running_mean (Qc_of_Z <$> xs) w = Ok res /\
    Forall (fun m => (Qc_of_Z lo <= m)%Qc /\ (m <= Qc_of_Z hi)%Qc) res.
Proof.
  intros Hw _ _ Hx. exists (sliding_mean (Qc_of_Z <$> xs) (Z.to_nat w)).
  split; [apply running_mean_sliding; by rewrite len_fmap|].
  apply sliding_mean_between; [lia|].
  apply Forall_fmap. eapply Forall_impl; [exact Hx|].
  intros z [Hlo Hhi]. cbn.
  split; [exact (proj1 (Z2Qc_inj_le lo z) Hlo)|
          exact (proj1 (Z2Qc_inj_le z hi) Hhi)].
Qed.

Lemma running_mean_between_witness :
  let xs := [1000; 1100; 1200] in
  1 <= 2 <= len xs /\
  Forall (fun z => 0 <= z) xs /\ sum xs <= 2 ^ 53 /\
  Forall (fun z => 1000 <= z <= 1200) xs /\
  exists res,
    _running_mean (Qc_of_Z <$> xs) 2 = Ok res /\
    Forall (fun m => (Qc_of_Z 1000 <= m)%Qc /\ (m <= Qc_of_Z 1200)%Qc) res.
Proof.
  intros xs.
  assert (Hw : 1 <= 2 <= len xs) by (vm_compute; split; discriminate).
  assert (Hpos : Forall (fun z => 0 <= z) xs)
    by (repeat constructor; discriminate).
  assert (Hsum : sum xs <= 2 ^ 53) by (vm_compute; discriminate).
  assert (Hx : Forall (fun z => 1000 <= z <= 1200) xs)
    by (repeat constructor; vm_compute; discriminate).
  split; [exact Hw|]. split; [exact Hpos|]. split; [exact Hsum|].
  split; [exact Hx|].
  exact (running_mean_between xs 2 1000 1200 Hw Hpos Hsum Hx).
Defined.

Lemma plot_average_below_one `{DateTime} (practice : list (datetime * Z))
    (bin_size : Z) (label : string) :
  bin_size < 1 ->
  _plot_average practice bin_size label
  = match practice with
    | [] => if bin_size =? 0 then Ok [] else Raise ValueError
    | _ :: _ =>
        Raise (if bin_size =? 0 then ZeroDivisionError else IndexError)
    end.
Proof.
  intros Hw. unfold _plot_average. destruct practice as [|p practice].
  - change (len []) with 0.
    destruct (Z.gtb_spec 0 bin_size) as [Hneg|Hzero].
    + cbn [mbind result_bind].
      by destruct (Z.eqb_spec bin_size 0) as [|_]; [lia|].
    + by destruct (Z.eqb_spec bin_size 0) as [_|]; [|lia].
  - destruct (Z.gtb_spec (len (p :: practice)) bin_size) as [_|Hle];
      [|unfold len in Hle; simpl in Hle; lia].
    cbn [mbind result_bind].
    destruct (Z.eqb_spec bin_size 0) as [->|Hnz].
    + rewrite (running_mean_zero_window (timestamp <$> _)). reflexivity.
    + rewrite (running_mean_negative_window (timestamp <$> _)) by lia.
      reflexivity.
Qed.

(** X4. [_plot_average] returns in two cases only: with nothing drawn,
    when the series is not longer than the window; and with one curve
    whose two axes both have [len - window + 1] points, when the window is
    at least 1 and the series is longer than it.  So a window below 1 on a
    series longer than the window never gives a result: the check
    [bin_size < 1] of the caller is needed.  On the empty series a
    negative window raises [ValueError]. *)
Theorem plot_average_windows `{DateTime} (practice : list (datetime * Z))
    (bin_size : Z) (label : string) :
  (forall plots,
     _plot_average practice bin_size label = Ok plots ->
     (plots = [] /\ len practice <= bin_size) \/
     (1 <= bin_size < len practice /\
      exists p, plots = [p] /\
                len (plot_x p) = len practice - bin_size + 1 /\
                len (plot_y p) = len practice - bin_size + 1 /\
                plot_label p = label)) /\
  (practice = [] -> bin_size < 0 ->
   _plot_average practice bin_size label = Raise ValueError).
Proof.
  split.
  - intros plots Hrun.
    destruct (decide (len practice <= bin_size)) as [Hle|Hgt].
    { left. split; [|done]. unfold _plot_average in Hrun.
      destruct (Z.gtb_spec (len practice) bin_size); [lia|].
      by injection Hrun as <-. }
    right. destruct (decide (1 <= bin_size)) as [Hw|Hw].
    + split; [lia|].
      rewrite plot_average_sliding in Hrun by lia. injection Hrun as <-.
      eexists. split; [done|]. cbn [plot_x plot_y plot_label].
      unfold len in *.
      rewrite !length_fmap, !length_sliding_mean, !length_fmap.
      repeat split; lia.
    + exfalso. rewrite plot_average_below_one in Hrun by lia.
      destruct practice as [|p practice]; [|done].
      change (len []) with 0 in Hgt.
      by destruct (Z.eqb_spec bin_size 0); [lia|].
  - intros -> Hw. rewrite plot_average_below_one by lia.
    by destruct (Z.eqb_spec bin_size 0); [lia|].
Qed.

Lemma plot_average_windows_witness :
  let practice : list (@datetime posix * Z) :=
    [(Qc_of_Z 10, 1000); (Qc_of_Z 20, 1100); (Qc_of_Z 30, 1200)] in
  (exists plots,
     @_plot_average posix practice 2 "" = Ok plots /\
     ((plots = [] /\ len practice <= 2) \/
      (1 <= 2 < len practice /\
       exists p, plots = [p] /\
                 len (plot_x p) = len practice - 2 + 1 /\
                 len (plot_y p) = len practice - 2 + 1 /\
                 plot_label p = ""))) /\
  (-1 < 0 /\ @_plot_average posix [] (-1) "" = Raise ValueError).
Proof.
  intros practice. split.
  - destruct (@_plot_average posix practice 2 "") as [plots|e] eqn:Hrun;
      [|vm_compute in Hrun; discriminate].
    exists plots. split; [reflexivity|].
    exact (proj1 (@plot_average_windows posix practice 2 "") plots Hrun).
  - assert (Hw : -1 < 0) by reflexivity.
    split; [exact Hw|].
    exact (proj2 (@plot_average_windows posix [] (-1) "") eq_refl Hw).
Defined.

(** ** Peak prefix: what is kept *)

Section MaxPrefixKept.

Implicit Types (user : list cf.RatingChange) (max_rate : Z).

Local Abbreviation gain c := (cf.newRating c - effective_old_rating c >= 0).

Lemma peak_prefix_scan_again user : forall max_rate max_rate',
  max_rate' <= max_rate ->
  peak_prefix_scan max_rate' (peak_prefix_scan max_rate user)
  = peak_prefix_scan max_rate user.
Proof.
  induction user as [|c user IH]; intros m m' Hm; [done|].
  cbn [peak_prefix_scan]. case_decide as Hkeep; [|by apply IH].
  cbn [peak_prefix_scan]. rewrite decide_True by lia.
  f_equal. by apply IH.
Qed.

Lemma peak_prefix_scan_kept user : forall max_rate,
  Forall (fun c => gain c /\ cf.newRating c >= max_rate /\ c ∈ user)
         (peak_prefix_scan max_rate user).
Proof.
  induction user as [|c user IH]; intros m; cbn [peak_prefix_scan];
    [constructor|].
  case_decide as Hkeep.
  - constructor; [split; [lia|split; [lia|by left]]|].
    eapply Forall_impl; [apply IH|].
    intros d (Hd & Hge & Hin). simpl. split; [done|]. split; [lia|by right].
  - eapply Forall_impl; [apply IH|].
    intros d (Hd & Hge & Hin). simpl. split; [done|]. split; [done|by right].
Qed.

Lemma peak_prefix_scan_dominates user : forall max_rate c,
  c ∈ user -> gain c -> cf.newRating c >= max_rate ->
  exists d, d ∈ peak_prefix_scan max_rate user
            /\ cf.newRating c <= cf.newRating d.
Proof.
  induction user as [|a user IH]; intros m c Hin Hgain Hge;
    [by apply elem_of_nil in Hin|].
  cbn [peak_prefix_scan]. apply elem_of_cons in Hin as [->|Hin].
  - rewrite decide_True by lia. exists a. split; [by left|lia].
  - case_decide as Hkeep.
    + destruct (decide (cf.newRating c >= cf.newRating a)) as [Hca|Hca].
      * destruct (IH (cf.newRating a) c Hin Hgain Hca) as (d & Hd & Hcd).
        exists d. split; [by right|done].
      * exists a. split; [by left|lia].
    + destruct (IH m c Hin Hgain Hge) as (d & Hd & Hcd). by exists d.
Qed.

End MaxPrefixKept.

(** X5. [max_prefix] is idempotent: extracting the peak prefix of a peak
    prefix changes nothing. *)
Theorem max_prefix_idempotent (user : list cf.RatingChange) :
  max_prefix (max_prefix user) = max_prefix user.
Proof.
  rewrite !max_prefix_scan. by apply peak_prefix_scan_again.
Qed.

(** X6. [max_prefix] keeps no rating loss and misses no peak: every change
    it keeps is a change of the input whose new rating is at least 0 and at
    least its old rating (1500 standing for an old rating of 0), and every
    such change of the input is reached or exceeded in new rating by a kept
    one.  So the output is empty exactly when the input has no such
    change. *)
Theorem max_prefix_keeps_gains (user : list cf.RatingChange) :
  let gain c :=
    cf.newRating c - effective_old_rating c >= 0 /\ cf.newRating c >= 0 in
  Forall (fun c => gain c /\ c ∈ user) (max_prefix user) /\
  (forall c, c ∈ user -> gain c ->
     exists d, d ∈ max_prefix user /\ cf.newRating c <= cf.newRating d) /\
  (max_prefix user = [] <-> Forall (fun c => ~ gain c) user).
Proof.
  intros gain. rewrite max_prefix_scan.
  assert (Hkept : Forall (fun c => gain c /\ c ∈ user)
                         (peak_prefix_scan 0 user)).
  { eapply Forall_impl; [apply peak_prefix_scan_kept|].
    intros c (Hc & Hge & Hin). by repeat split. }
  assert (Hdom : forall c, c ∈ user -> gain c ->
            exists d, d ∈ peak_prefix_scan 0 user
                      /\ cf.newRating c <= cf.newRating d).
  { intros c Hin [Hc Hge]. by apply peak_prefix_scan_dominates. }
  split; [exact Hkept|]. split; [exact Hdom|]. split.
  - intros Hnil. apply Forall_forall. intros c Hin Hc.
    destruct (Hdom c Hin Hc) as (d & Hd & _).
    rewrite Hnil in Hd. by apply elem_of_nil in Hd.
  - intros Hnone. destruct (peak_prefix_scan 0 user) as [|d out]; [done|].
    apply Forall_cons in Hkept as [[Hd Hin] _].
    rewrite Forall_forall in Hnone. by destruct (Hnone d Hin).
Qed.

Lemma max_prefix_keeps_gains_witness :
  let user := [change 1 0 1400; change 2 1400 1600; change 3 1600 1550] in
  let gain c :=
    cf.newRating c - effective_old_rating c >= 0 /\ cf.newRating c >= 0 in
  (change 2 1400 1600 ∈ user /\ gain (change 2 1400 1600)) /\
  Forall (fun c => gain c /\ c ∈ user) (max_prefix user) /\
  exists d, d ∈ max_prefix user /\ 1600 <= cf.newRating d.
Proof.
  intros user gain.
  assert (Hin : change 2 1400 1600 ∈ user) by (right; left).
  assert (Hgain : gain (change 2 1400 1600))
    by (split; vm_compute; discriminate).
  split; [by split|]. split.
  - exact (proj1 (max_prefix_keeps_gains user)).
  - exact (proj1 (proj2 (max_prefix_keeps_gains user))
             (change 2 1400 1600) Hin Hgain).
Defined.

(** ** Submission classifier: nothing is lost *)

Section ClassifyPartition.

Context {A K : Type} `{EqDecision K}.
Variable key : A -> K.

Lemma filter_disjoint_app (P Q : A -> Prop)
    `{!forall a, Decision (P a)} `{!forall a, Decision (Q a)} (l : list A) :
  (forall a, P a -> Q a -> False) ->
  filter P l ++ filter Q l ≡ₚ filter (fun a => P a \/ Q a) l.
Proof.
  intros Hdisj. induction l as [|a l IH]; [done|].
  rewrite !filter_cons.
  destruct (decide (P a)) as [HP|HP], (decide (Q a)) as [HQ|HQ].
  - by destruct (Hdisj a).
  - rewrite decide_True by (by left). simpl. by rewrite IH.
  - rewrite decide_True by (by right).
    rewrite <- Permutation_middle. by rewrite IH.
  - rewrite decide_False by tauto. done.
Qed.

Lemma concat_filter_by_key (keys : list K) (l : list A) :
  NoDup keys ->
  concat ((fun k => filter (fun a => key a = k) l) <$> keys)
  ≡ₚ filter (fun a => key a ∈ keys) l.
Proof.
  induction 1 as [|k keys Hk _ IH].
  - simpl. rewrite (filter_none (fun a => key a ∈ [])); [done|].
    apply Forall_forall. intros a _ Ha. by apply elem_of_nil in Ha.
  - rewrite fmap_cons. cbn [concat]. rewrite IH.
    rewrite filter_disjoint_app by (intros a <- Ha; done).
    erewrite list_filter_iff; [done|].
    intros a. simpl. rewrite elem_of_cons. done.
Qed.

End ClassifyPartition.

Lemma classify_submissions_known (PARTICIPANT_TYPES : list string)
    (submissions : list cf.Submission) :
  Forall (fun s => cf.participantType (cf.author s) ∈ PARTICIPANT_TYPES)
         submissions ->
  exists m : gmap string (list cf.Submission),
    _classify_submissions PARTICIPANT_TYPES submissions = Ok m /\
    forall t, m !! t
      = if decide (t ∈ PARTICIPANT_TYPES)
        then Some (filter (fun s => cf.participantType (cf.author s) = t)
                          submissions)
        else None.
Proof.
  intros Hknown. unfold _classify_submissions.
  edestruct classify_loop_known as (m & Hrun & Hm).
  2: { exists m. split; [exact Hrun|]. intros t.
       rewrite Hm, classify_init_lookup. by case_decide. }
  eapply Forall_impl; [exact Hknown|]. intros s Hs. simpl.
  rewrite classify_init_lookup. rewrite decide_True by done. eauto.
Qed.

(** X7. [_classify_submissions] loses and duplicates nothing: when the
    known types are pairwise distinct and every submission has a known
    type, the lists of the result, taken type by type, are together a
    permutation of the input. *)
Theorem classify_submissions_permutation (PARTICIPANT_TYPES : list string)
    (submissions : list cf.Submission) :
  NoDup PARTICIPANT_TYPES ->
  Forall (fun s => cf.participantType (cf.author s) ∈ PARTICIPANT_TYPES)
         submissions ->
  exists m : gmap string (list cf.Submission),
    _classify_submissions PARTICIPANT_TYPES submissions = Ok m /\
    concat ((fun t => default [] (m !! t)) <$> PARTICIPANT_TYPES)
    ≡ₚ submissions.
Proof.
  intros Hnodup Hknown.
  destruct (classify_submissions_known _ _ Hknown) as (m & Hrun & Hm).
  exists m. split; [exact Hrun|].
  rewrite <- (filter_all
    (fun s => cf.participantType (cf.author s) ∈ PARTICIPANT_TYPES)
    submissions Hknown).
  rewrite <- (concat_filter_by_key
    (fun s => cf.participantType (cf.author s)) PARTICIPANT_TYPES
    submissions Hnodup).
  assert (Heq : (fun t => default [] (m !! t)) <$> PARTICIPANT_TYPES
                = (fun t => filter (fun s => cf.participantType (cf.author s)
                                             = t) submissions)
                    <$> PARTICIPANT_TYPES).
  { apply list_fmap_ext. intros i t Ht.
    rewrite Hm, decide_True; [done|]. by eapply list_elem_of_lookup_2. }
  by rewrite Heq.
Qed.

Lemma classify_submissions_permutation_witness :
  let submissions := [submission 1 "PRACTICE" 800; submission 2 "VIRTUAL" 1200;
                      submission 3 "PRACTICE" 900] in
  NoDup PARTICIPANT_TYPES_of_spec /\
  Forall (fun s => cf.participantType (cf.author s)
                   ∈ PARTICIPANT_TYPES_of_spec) submissions /\
  exists m : gmap string (list cf.Submission),
    _classify_submissions PARTICIPANT_TYPES_of_spec submissions = Ok m /\
    concat ((fun t => default [] (m !! t)) <$> PARTICIPANT_TYPES_of_spec)
    ≡ₚ submissions.
Proof.
  intros submissions.
  assert (Hnodup : NoDup PARTICIPANT_TYPES_of_spec)
    by (apply (bool_decide_unpack _); vm_compute; reflexivity).
  assert (Hknown : Forall (fun s => cf.participantType (cf.author s)
                                    ∈ PARTICIPANT_TYPES_of_spec) submissions)
    by (apply (bool_decide_unpack _); vm_compute; reflexivity).
  split; [exact Hnodup|]. split; [exact Hknown|].
  exact (classify_submissions_permutation PARTICIPANT_TYPES_of_spec
           submissions Hnodup Hknown).
Defined.

(** ** Rating histogram: what it rejects *)

Lemma for_in_total {A S : Type} (body : A -> S -> result S) (xs : list A) :
  (forall x s, exists s', body x s = Ok s') ->
  forall s, exists s', for_in xs body s = Ok s'.
Proof.
  intros Hbody. induction xs as [|x xs IH]; intros s; [by exists s|].
  simpl. destruct (Hbody x s) as [s1 ->]. apply IH.
Qed.

Lemma range_step_ok (start stop step : Z) :
  step <> 0 -> exists rs, range_step start stop step = Ok rs.
Proof.
  intros Hstep. unfold range_step.
  destruct (Z.eqb_spec step 0); [done|eauto].
Qed.

Lemma rating_hist_colors_ok (RATED_RANKS : list cf.Rank)
    (low high binsize : Z) :
  binsize <> 0 ->
  exists colors, rating_hist_colors RATED_RANKS low high binsize = Ok colors.
Proof.
  intros Hstep. unfold rating_hist_colors. apply for_in_total.
  intros rank colors.
  destruct (range_step_ok (Z.max (cf.low rank) low)
              (Z.min (cf.high rank) high) binsize Hstep) as [rs ->].
  cbn [mbind result_bind]. apply for_in_total. eauto.
Qed.

Lemma div_negative (a b : Z) : 0 < a -> b < 0 -> a / b < 0.
Proof.
  intros Ha Hb.
  pose proof (Z.div_mod a b ltac:(lia)).
  pose proof (Z.mod_neg_bound a b Hb). nia.
Qed.

Section RatingHistRejects.

Variables (RATED_RANKS : list cf.Rank) (ratings : list Z) (mode : string).
Variable binsize : Z.

Hypothesis mode_known : mode = "log" \/ mode = "normal".
Hypothesis some_counted : Exists (fun r => 0 <= r) ratings.

Lemma rating_hist_enters :
  _rating_hist RATED_RANKS ratings mode binsize
  = (m ← mod_ 100 binsize;
     assert (m =? 0);;
     bins ← floordiv (39 * 100) binsize;
     colors ← rating_hist_colors RATED_RANKS 0 (binsize * bins) binsize;
     assert (len colors =? bins);;
     height ← rating_hist_height (filter (fun r => r >= 0) ratings)
                                 bins binsize;
     cent ← rating_hist_cent height;
     let x := (fun k => k * binsize) <$> range 0 bins in
     let label :=
       (fun '(r, c) => pretty r +:+ " (" +:+ pretty c +:+ ")")
         <$> zip x cent in
     l ← skip_empty_up height 0;
     r ← skip_empty_down height (bins - 1);
     Ok {| hist_l := l;
           hist_r := r;
           hist_xlim := (l * binsize - binsize / 2,
                         r * binsize + binsize / 2);
           hist_x := slice x l (r + 1);
           hist_cent := slice cent l (r + 1);
           hist_label := slice label l (r + 1);
           hist_colors := slice colors l (r + 1);
           hist_height := slice height l (r + 1);
           hist_log := bool_decide (mode = "log") |}).
Proof.
  unfold _rating_hist.
  rewrite bool_decide_eq_true_2 by (rewrite !elem_of_cons; tauto).
  cbn [negb].
  rewrite (bool_decide_eq_false_2 (filter (fun r => r >= 0) ratings = [])).
  - reflexivity.
  - by apply counted_nonempty.
Qed.

Lemma rating_hist_zero_binsize :
  binsize = 0 ->
  _rating_hist RATED_RANKS ratings mode binsize = Raise ZeroDivisionError.
Proof. intros Hz. rewrite rating_hist_enters. by subst. Qed.

Lemma rating_hist_bad_binsize :
  binsize <> 0 -> binsize < 0 \/ 100 mod binsize <> 0 ->
  _rating_hist RATED_RANKS ratings mode binsize = Raise AssertionError.
Proof.
  intros Hnz Hbad. rewrite rating_hist_enters.
  unfold mod_. destruct (Z.eqb_spec binsize 0) as [|_]; [done|].
  cbn [mbind result_bind].
  destruct (Z.eqb_spec (100 mod binsize) 0) as [Hdiv|Hndiv]; [|done].
  cbn [assert mbind result_bind].
  destruct Hbad as [Hneg|Hndiv]; [|done].
  rewrite floordiv_ok by done. cbn [mbind result_bind].
  destruct (rating_hist_colors_ok RATED_RANKS 0
              (binsize * (39 * 100 / binsize)) binsize Hnz) as [colors ->].
  cbn [mbind result_bind].
  pose proof (len_nonneg colors).
  pose proof (div_negative (39 * 100) binsize ltac:(lia) Hneg).
  by destruct (Z.eqb_spec (len colors) (39 * 100 / binsize)); [lia|].
Qed.

End RatingHistRejects.

(** X8. What [_rating_hist] rejects, in the order it checks: a mode other
    than [log] and [normal] raises [GraphCogError] whatever the other
    arguments; with a known mode and some rating [>= 0], a bin width 0
    raises [ZeroDivisionError], and a negative bin width or one that does
    not divide 100 fails an assertion. *)
Theorem rating_hist_rejects (RATED_RANKS : list cf.Rank) (ratings : list Z)
    (mode : string) (binsize : Z) :
  (mode <> "log" /\ mode <> "normal" ->
   _rating_hist RATED_RANKS ratings mode binsize = Raise GraphCogError) /\
  (mode = "log" \/ mode = "normal" ->
   Exists (fun r => 0 <= r) ratings ->
   binsize <= 0 \/ 100 mod binsize <> 0 ->
   _rating_hist RATED_RANKS ratings mode binsize
   = Raise (if binsize =? 0 then ZeroDivisionError else AssertionError)).
Proof.
  split.
  - intros [Hlog Hnormal]. unfold _rating_hist.
    rewrite bool_decide_eq_false_2; [done|].
    rewrite !elem_of_cons. intros [?|[?|Hnil]]; [done|done|].
    by apply elem_of_nil in Hnil.
  - intros Hmode Hsome Hbad. destruct (Z.eqb_spec binsize 0) as [Hz|Hnz].
    + by apply rating_hist_zero_binsize.
    + apply rating_hist_bad_binsize; [done|done|done|].
      destruct Hbad as [?|?]; [left; lia|by right].
Qed.

Lemma rating_hist_rejects_witness :
  let ratings := [1500; 1700] in
  ("linear" <> "log" /\ "linear" <> "normal") /\
  _rating_hist RATED_RANKS_example ratings "linear" 100
  = Raise GraphCogError /\
  ("log" = "log" \/ "log" = "normal") /\
  Exists (fun r => 0 <= r) ratings /\
  (30 <= 0 \/ 100 mod 30 <> 0) /\
  _rating_hist RATED_RANKS_example ratings "log" 30 = Raise AssertionError.
Proof.
  intros ratings.
  assert (Hmode : "linear" <> "log" /\ "linear" <> "normal")
    by (split; discriminate).
  assert (Hlog : "log" = "log" \/ "log" = "normal") by (by left).
  assert (Hsome : Exists (fun r => 0 <= r) ratings)
    by (apply (bool_decide_unpack _); vm_compute; reflexivity).
  assert (Hbad : 30 <= 0 \/ 100 mod 30 <> 0) by (right; discriminate).
  split; [exact Hmode|]. split.
  { exact (proj1 (rating_hist_rejects RATED_RANKS_example ratings
                    "linear" 100) Hmode). }
  split; [exact Hlog|]. split; [exact Hsome|]. split; [exact Hbad|].
  exact (proj2 (rating_hist_rejects RATED_RANKS_example ratings "log" 30)
           Hlog Hsome Hbad).
Defined.

Section RatingHistOverflow.

Variables (binsize bins : Z).
Hypothesis binsize_pos : 0 < binsize.

(** The counting loop stops with [IndexError] at the first value that has
    no bucket. *)
Lemma rating_hist_height_loop_raise (ratings : list Z) :
  Forall (fun r => 0 <= r) ratings ->
  Exists (fun r => bins * binsize <= r) ratings ->
  forall acc : list Z,
  len acc = bins ->
  for_in ratings (fun r height =>
    ix ← floordiv r binsize;
    h ← getitem height ix;
    setitem height ix (h + 1)) acc = Raise IndexError.
Proof.
  induction 1 as [|r ratings Hr _ IH]; intros Hex acc Hacc;
    [by apply Exists_nil in Hex|].
  cbn [for_in]. rewrite floordiv_ok by lia. cbn [mbind result_bind].
  assert (Hix : 0 <= r / binsize) by (apply Z.div_pos; lia).
  destruct (decide (r / binsize < bins)) as [Hlt|Hge].
  - destruct (lookup_lt_is_Some_2 acc (Z.to_nat (r / binsize))) as [h Hh];
      [unfold len in Hacc; lia|].
    rewrite (getitem_nonneg acc _ h) by (done || lia).
    cbn [mbind result_bind]. rewrite setitem_nonneg by lia.
    cbn [mbind result_bind]. apply IH.
    + apply Exists_cons in Hex as [Hhead|Hrest]; [|done].
      pose proof (Z.div_le_lower_bound r binsize bins binsize_pos). lia.
    + unfold len in *. by rewrite length_insert.
  - by rewrite getitem_out by lia.
Qed.

End RatingHistOverflow.

(** X9. [_rating_hist] drops no rating at or above 3900: with a known mode,
    a positive bin width that divides 100 and a colour table that passes the
    assertion, an input with such a rating raises [IndexError]. *)
Theorem rating_hist_overflow (RATED_RANKS : list cf.Rank) (ratings : list Z)
    (mode : string) (binsize : Z) :
  mode = "log" \/ mode = "normal" ->
  0 < binsize ->
  100 mod binsize = 0 ->
  (exists colors, rating_hist_colors RATED_RANKS 0 3900 binsize = Ok colors
                  /\ len colors = 3900 / binsize) ->
  Exists (fun r => 3900 <= r) ratings ->
  _rating_hist RATED_RANKS ratings mode binsize = Raise IndexError.
Proof.
  intros Hmode Hpos Hdiv (colors & Hcolors & Hncolors) Hbig.
  assert (Hsome : Exists (fun r => 0 <= r) ratings)
    by (eapply Exists_impl; [exact Hbig|]; simpl; lia).
  assert (Hhigh : binsize * (3900 / binsize) = 3900)
    by (by apply rating_hist_high).
  rewrite rating_hist_enters by done.
  unfold mod_. destruct (Z.eqb_spec binsize 0) as [|_]; [lia|].
  cbn [mbind result_bind]. rewrite Hdiv.
  cbn [Z.eqb assert mbind result_bind].
  change (39 * 100) with 3900. rewrite floordiv_ok by lia.
  cbn [mbind result_bind]. rewrite Hhigh, Hcolors.
  cbn [mbind result_bind]. rewrite Hncolors, Z.eqb_refl.
  cbn [assert mbind result_bind].
  unfold rating_hist_height.
  rewrite (rating_hist_height_loop_raise binsize (3900 / binsize) Hpos);
    [done| | |].
  - apply Forall_forall. intros r [Hr _]%list_elem_of_filter. lia.
  - apply Exists_exists in Hbig as (r & Hin & Hr).
    apply Exists_exists. exists r. split; [|lia].
    apply list_elem_of_filter. split; [lia|done].
  - rewrite len_repeat. pose proof (len_nonneg colors). lia.
Qed.

Lemma rating_hist_overflow_witness :
  let ratings := [1500; 4009] in
  ("normal" = "log" \/ "normal" = "normal") /\
  0 < 100 /\
  100 mod 100 = 0 /\
  (exists colors,
     rating_hist_colors RATED_RANKS_example 0 3900 100 = Ok colors
     /\ len colors = 3900 / 100) /\
  Exists (fun r => 3900 <= r) ratings /\
  _rating_hist RATED_RANKS_example ratings "normal" 100 = Raise IndexError.
Proof.
  intros ratings.
  assert (Hmode : "normal" = "log" \/ "normal" = "normal") by (by right).
  assert (Hpos : 0 < 100) by reflexivity.
  assert (Hdiv : 100 mod 100 = 0) by reflexivity.
  assert (Hcolors : exists colors,
            rating_hist_colors RATED_RANKS_example 0 3900 100 = Ok colors
            /\ len colors = 3900 / 100).
  { exists (match rating_hist_colors RATED_RANKS_example 0 3900 100 with
            | Ok colors => colors
            | Raise _ => []
            end).
    split; vm_compute; reflexivity. }
  assert (Hbig : Exists (fun r => 3900 <= r) ratings)
    by (apply (bool_decide_unpack _); vm_compute; reflexivity).
  repeat (split; [done|]).
  exact (rating_hist_overflow RATED_RANKS_example ratings "normal" 100
           Hmode Hpos Hdiv Hcolors Hbig).
Defined.

(** ** Rating histogram: the shape of what is drawn *)

Section RatingHistShape.

Variables (RATED_RANKS : list cf.Rank) (ratings : list Z) (mode : string).
Variable binsize : Z.

Local Abbreviation bins := (3900 / binsize).
Local Abbreviation counted := (filter (fun r => r >= 0) ratings).

Hypothesis mode_known : mode = "log" \/ mode = "normal".
Hypothesis binsize_pos : 0 < binsize.
Hypothesis binsize_divides : 100 mod binsize = 0.
Hypothesis colors_pass :
  exists colors, rating_hist_colors RATED_RANKS 0 3900 binsize = Ok colors
                 /\ len colors = bins.
Hypothesis some_counted : Exists (fun r => 0 <= r) ratings.
Hypothesis all_below_high : Forall (fun r => r < 3900) ratings.

(** The run once more, with what the two trimming loops stop at. *)
Lemma rating_hist_run_trim :
  exists (colors : list string) (height : list Z) (l r : Z),
    len colors = bins /\
    len height = bins /\
    (forall i : nat, Z.of_nat i < bins ->
       exists v, height !! i = Some v /\ 0 <= v) /\
    0 <= l <= r /\ r < bins /\
    (exists v, height !! Z.to_nat l = Some v /\ v <> 0) /\
    (exists v, height !! Z.to_nat r = Some v /\ v <> 0) /\
    _rating_hist RATED_RANKS ratings mode binsize
    = let x := (fun k => k * binsize) <$> range 0 bins in
      let cent := cumulative_percent height <$> seq 0 (S (length height)) in
      let label :=
        (fun '(r, c) => pretty r +:+ " (" +:+ pretty c +:+ ")")
          <$> zip x cent in
      Ok {| hist_l := l;
            hist_r := r;
            hist_xlim := (l * binsize - binsize / 2,
                          r * binsize + binsize / 2);
            hist_x := slice x l (r + 1);
            hist_cent := slice cent l (r + 1);
            hist_label := slice label l (r + 1);
            hist_colors := slice colors l (r + 1);
            hist_height := slice height l (r + 1);
            hist_log := bool_decide (mode = "log") |}.
Proof.
  destruct colors_pass as (colors & Hcolors & Hncolors).
  pose proof (rating_hist_bins_pos binsize binsize_pos binsize_divides)
    as Hbins.
  pose proof (rating_hist_high binsize binsize_pos binsize_divides) as Hhigh.
  destruct (rating_hist_height_counts binsize bins binsize_pos counted)
    as (height & Hheight & Hlen & Hsum & Hcount);
    [lia|by apply counted_in_range|].
  assert (Husers : sum height <> 0).
  { rewrite Hsum. pose proof (counted_nonempty ratings some_counted) as Hne.
    unfold len. destruct counted; [done|simpl; lia]. }
  destruct (sum_nonzero_lookup height Husers) as (j & v & Hj & Hv).
  assert (Hjlen : Z.of_nat j < len height)
    by (unfold len; apply lookup_lt_Some in Hj; lia).
  destruct (skip_empty_up_first height (Z.to_nat (len height)) 0)
    as (l & Hup & Hl & (vl & Hvl & Hvl0) & Hbefore); [lia|lia| |].
  { exists j, v. split; [lia|done]. }
  destruct (skip_empty_down_last height (Z.to_nat (len height)) (bins - 1))
    as (r & Hdown & Hr & (vr & Hvr & Hvr0) & Hafter); [lia|lia| |].
  { exists j, v. split; [lia|done]. }
  assert (Hlr : l <= r).
  { destruct (decide (l <= r)) as [|Hgt]; [done|].
    rewrite (Hbefore (Z.to_nat r)) in Hvr by lia. congruence. }
  exists colors, height, l, r.
  split; [done|]. split; [done|]. split.
  { intros i Hi. eexists. split; [by apply Hcount|].
    apply count_in_nonneg. }
  split; [lia|]. split; [lia|]. split; [eauto|]. split; [eauto|].
  rewrite rating_hist_enters by done.
  unfold mod_. destruct (Z.eqb_spec binsize 0) as [|_]; [lia|].
  cbn [mbind result_bind]. rewrite binsize_divides.
  cbn [Z.eqb assert mbind result_bind].
  change (39 * 100) with 3900. rewrite floordiv_ok by lia.
  cbn [mbind result_bind]. rewrite Hhigh, Hcolors.
  cbn [mbind result_bind]. rewrite Hncolors, Z.eqb_refl.
  cbn [assert mbind result_bind]. rewrite Hheight.
  cbn [mbind result_bind]. rewrite rating_hist_cent_percent by done.
  cbn [mbind result_bind]. rewrite Hup. cbn [mbind result_bind].
  rewrite Hdown. reflexivity.
Qed.

End RatingHistShape.

Lemma slice_hist_x (binsize bins l r : Z) :
  0 <= l <= r -> r < bins ->
  slice ((fun k => k * binsize) <$> range 0 bins) l (r + 1)
  = (fun k => k * binsize) <$> range l (r + 1).
Proof.
  intros Hlr Hr.
  apply list_eq_same_length with (Z.to_nat (r + 1 - l)).
  - unfold range. rewrite length_fmap, length_seqZ. lia.
  - pose proof (length_slice ((fun k => k * binsize) <$> range 0 bins)
                  l (r + 1)) as Hs.
    rewrite len_hist_x in Hs by lia. unfold len in Hs. lia.
  - intros j x y Hj Hx Hy.
    rewrite lookup_slice in Hx by (rewrite ?len_hist_x; lia).
    rewrite hist_x_full in Hx by lia.
    unfold range in Hy. rewrite list_lookup_fmap, lookup_seqZ_lt in Hy by lia.
    simpl in Hy. injection Hx as <-. injection Hy as <-. f_equal. lia.
Qed.

(** The shape of what [_rating_hist] returns. *)
Lemma rating_hist_trimmed_shape (RATED_RANKS : list cf.Rank)
    (ratings : list Z) (mode : string) (binsize : Z) (out : RatingHist) :
  _rating_hist RATED_RANKS ratings mode binsize = Ok out ->
  let l := hist_l out in
  let r := hist_r out in
  0 <= l <= r /\ r < 3900 / binsize /\
  hist_x out = (fun k => k * binsize) <$> range l (r + 1) /\
  hist_xlim out = (l * binsize - binsize / 2, r * binsize + binsize / 2) /\
  len (hist_x out) = r - l + 1 /\
  len (hist_cent out) = r - l + 1 /\
  len (hist_label out) = r - l + 1 /\
  len (hist_colors out) = r - l + 1 /\
  len (hist_height out) = r - l + 1 /\
  (exists v, head (hist_height out) = Some v /\ 0 < v) /\
  (exists v, last (hist_height out) = Some v /\ 0 < v).
Proof.
  intros Hrun.
  destruct (rating_hist_ok_inv _ _ _ _ _ Hrun)
    as (Hmode & Hpos & Hdiv & Hcolors & Hsome & Hall).
  destruct (rating_hist_run_trim RATED_RANKS ratings mode binsize
              Hmode Hpos Hdiv Hcolors Hsome Hall)
    as (colors & height & l & r & Hncolors & Hlen & Hnonneg & Hlr & Hr
        & (vl & Hvl & Hvl0) & (vr & Hvr & Hvr0) & Hrun').
  rewrite Hrun in Hrun'.
  apply (f_equal (fun o => match o with Ok a => a | Raise _ => out end))
    in Hrun'.
  cbv beta iota zeta in Hrun'. subst out.
  cbv zeta. cbn [hist_l hist_r hist_x hist_xlim hist_cent hist_label
                 hist_colors hist_height].
  set (bins := 3900 / binsize) in *.
  set (xs := (fun k => k * binsize) <$> range 0 bins).
  set (cent := cumulative_percent height <$> seq 0 (S (length height))).
  set (label := (fun '(r, c) => pretty r +:+ " (" +:+ pretty c +:+ ")")
                  <$> zip xs cent).
  assert (Hxs : len xs = bins) by (apply len_hist_x; lia).
  assert (Hcent : len cent = bins + 1)
    by (unfold len, cent in *; rewrite length_fmap, length_seq; lia).
  assert (Hlabel : len label = bins).
  { unfold len, label in *. rewrite length_fmap, length_zip_with. lia. }
  split; [lia|]. split; [lia|]. split; [by apply slice_hist_x|].
  split; [done|].
  rewrite !length_slice by lia.
  repeat (split; [lia|]).
  split.
  - exists vl. rewrite head_lookup, lookup_slice by lia.
    rewrite Nat.add_0_r. split; [done|].
    destruct (Hnonneg (Z.to_nat l)) as (v & Hv & Hge); [lia|].
    rewrite Hvl in Hv. injection Hv as <-. lia.
  - exists vr. rewrite last_lookup.
    pose proof (length_slice height l (r + 1) ltac:(lia) ltac:(lia)) as Hs.
    unfold len in Hs.
    replace (Init.Nat.pred (length (slice height l (r + 1))))
      with (Z.to_nat (r - l)) by lia.
    rewrite lookup_slice by lia.
    replace (Z.to_nat l + Z.to_nat (r - l))%nat with (Z.to_nat r) by lia.
    split; [done|].
    destruct (Hnonneg (Z.to_nat r)) as (v & Hv & Hge); [lia|].
    rewrite Hvr in Hv. injection Hv as <-. lia.
Qed.

Lemma count_in_pos (lo hi : Z) (values : list Z) :
  0 < count_in lo hi values <-> exists v, v ∈ values /\ lo <= v < hi.
Proof.
  unfold count_in, len. split.
  - intros Hpos.
    destruct (filter (fun v => lo <= v < hi) values) as [|v l] eqn:Hfilter;
      [simpl in Hpos; lia|].
    assert (Hin : v ∈ filter (fun v => lo <= v < hi) values)
      by (rewrite Hfilter; by left).
    apply list_elem_of_filter in Hin as [Hv Hin]. by exists v.
  - intros (v & Hin & Hv).
    assert (Hin' : v ∈ filter (fun v => lo <= v < hi) values)
      by (by apply list_elem_of_filter).
    destruct (filter (fun v => lo <= v < hi) values);
      [by apply elem_of_nil in Hin'|simpl; lia].
Qed.

(** X10. What [_rating_hist] hands to the bar chart, whenever it returns:
    the buckets from the first non-empty one [l] to the last non-empty one
    [r], with [0 <= l <= r < bins]; their lower bounds
    [l * binsize, ..., r * binsize]; five series of the same length
    [r - l + 1]; a first and a last count that are positive; and x limits
    half a bin outside the first and the last bound.  That [l] is the
    first and [r] the last non-empty bucket is said on the ratings: every
    rating [>= 0] lies in one of the buckets [l .. r], and bucket [l] and
    bucket [r] each hold a rating. *)
Theorem rating_hist_trimmed (RATED_RANKS : list cf.Rank) (ratings : list Z)
    (mode : string) (binsize : Z) (out : RatingHist) :
  _rating_hist RATED_RANKS ratings mode binsize = Ok out ->
  let l := hist_l out in
  let r := hist_r out in
  0 <= l <= r /\ r < 3900 / binsize /\
  hist_x out = (fun k => k * binsize) <$> range l (r + 1) /\
  hist_xlim out = (l * binsize - binsize / 2, r * binsize + binsize / 2) /\
  len (hist_x out) = r - l + 1 /\
  len (hist_cent out) = r - l + 1 /\
  len (hist_label out) = r - l + 1 /\
  len (hist_colors out) = r - l + 1 /\
  len (hist_height out) = r - l + 1 /\
  (exists v, head (hist_height out) = Some v /\ 0 < v) /\
  (exists v, last (hist_height out) = Some v /\ 0 < v) /\
  (forall v, v ∈ ratings -> 0 <= v ->
     l * binsize <= v < (r + 1) * binsize) /\
  (exists v, v ∈ ratings /\ l * binsize <= v < (l + 1) * binsize) /\
  (exists v, v ∈ ratings /\ r * binsize <= v < (r + 1) * binsize).
Proof.
  intros Hrun l r.
  pose proof (rating_hist_trimmed_shape _ _ _ _ _ Hrun) as Hshape.
  cbv zeta in Hshape. fold l r in Hshape.
  destruct Hshape as (Hlr & Hr & Hx & Hxlim & Hlx & Hlc & Hll & Hlcol & Hlh
                      & (vl & Hvl & Hvl0) & (vr & Hvr & Hvr0)).
  repeat (split; [done|]).
  split; [by exists vl|]. split; [by exists vr|].
  destruct (rating_hist_ok_inv _ _ _ _ _ Hrun)
    as (Hmode & Hpos & Hdiv & Hcolors & Hsome & Hall).
  destruct (rating_hist_run RATED_RANKS ratings mode binsize
              Hmode Hpos Hdiv Hcolors Hsome Hall)
    as (colors & height & l' & r' & _ & Hlen & _ & Hcount & Hlr' & Hr'
        & Hempty & Hrun').
  rewrite Hrun in Hrun'.
  apply (f_equal (fun o => match o with Ok a => a | Raise _ => out end))
    in Hrun'.
  cbv beta iota zeta in Hrun'.
  assert (Hl : l = l') by (unfold l; by rewrite Hrun').
  assert (Hr2 : r = r') by (unfold r; by rewrite Hrun').
  assert (Hheight : hist_height out = slice height l (r + 1))
    by (rewrite Hrun', Hl, Hr2; reflexivity).
  subst l' r'. clear Hrun'.
  pose proof (rating_hist_high binsize Hpos Hdiv) as Hhigh.
  assert (Hbucket : forall j : Z, 0 <= j < 3900 / binsize ->
    forall c, height !! Z.to_nat j = Some c ->
      (0 < c <-> exists v, v ∈ ratings /\ j * binsize <= v
                           < (j + 1) * binsize)).
  { intros j Hj c Hc.
    rewrite Hcount in Hc by lia. injection Hc as <-.
    rewrite Z2Nat.id by lia.
    rewrite count_in_counted by nia. apply count_in_pos. }
  split; [|split].
  - intros v Hv Hv0. rewrite Forall_forall in Hall.
    pose proof (Hall v Hv) as Hv1.
    set (j := v / binsize).
    assert (Hjv : j * binsize <= v < (j + 1) * binsize)
      by (by apply (bucket_iff binsize Hpos v j)).
    assert (Hj : 0 <= j < 3900 / binsize) by nia.
    destruct (decide (l <= j <= r)) as [Hin|Hout]; [nia|].
    exfalso.
    assert (Hzero : height !! Z.to_nat j = Some 0)
      by (apply Hempty; lia).
    assert (0 < 0); [|lia].
    apply (Hbucket j Hj 0 Hzero). by exists v.
  - apply (Hbucket l ltac:(lia) vl); [|done].
    rewrite Hheight, head_lookup, lookup_slice in Hvl
      by (rewrite ?Hlen; lia).
    by rewrite Nat.add_0_r in Hvl.
  - apply (Hbucket r ltac:(lia) vr); [|done].
    rewrite Hheight, last_lookup in Hvr.
    pose proof (length_slice height l (r + 1) ltac:(lia) ltac:(lia)) as Hs.
    unfold len in Hs.
    replace (Init.Nat.pred (length (slice height l (r + 1))))
      with (Z.to_nat (r - l)) in Hvr by lia.
    rewrite lookup_slice in Hvr by lia.
    by replace (Z.to_nat l + Z.to_nat (r - l))%nat with (Z.to_nat r)
      in Hvr by lia.
Qed.

Lemma rating_hist_trimmed_witness :
  let ratings := [1000; 1050; 1100; 1100; 1500; -3] in
  let out := rating_hist_example in
  let l := hist_l out in
  let r := hist_r out in
  _rating_hist RATED_RANKS_example ratings "normal" 100 = Ok out /\
  0 <= l <= r /\ r < 3900 / 100 /\
  hist_x out = (fun k => k * 100) <$> range l (r + 1) /\
  hist_xlim out = (l * 100 - 100 / 2, r * 100 + 100 / 2) /\
  len (hist_x out) = r - l + 1 /\
  len (hist_cent out) = r - l + 1 /\
  len (hist_label out) = r - l + 1 /\
  len (hist_colors out) = r - l + 1 /\
  len (hist_height out) = r - l + 1 /\
  (exists v, head (hist_height out) = Some v /\ 0 < v) /\
  (exists v, last (hist_height out) = Some v /\ 0 < v) /\
  (forall v, v ∈ ratings -> 0 <= v -> l * 100 <= v < (r + 1) * 100) /\
  (exists v, v ∈ ratings /\ l * 100 <= v < (l + 1) * 100) /\
  (exists v, v ∈ ratings /\ r * 100 <= v < (r + 1) * 100).
Proof.
  intros ratings out l r.
  assert (Hrun : _rating_hist RATED_RANKS_example ratings "normal" 100
                 = Ok out) by (vm_compute; reflexivity).
  split; [exact Hrun|].
  exact (rating_hist_trimmed RATED_RANKS_example ratings "normal" 100 out
           Hrun).
Defined.

(** ** Rounding, and the cumulated percentages *)

Section Round.

Lemma round_near (q : Qc) :
  2 * Qnum q - QDen q <= 2 * QDen q * round q <= 2 * Qnum q + QDen q.
Proof.
  unfold round. set (n := Qnum q). set (d := QDen q).
  assert (Hd : 0 < d) by (unfold d; lia).
  pose proof (Z.div_mod n d ltac:(lia)) as Hdiv.
  pose proof (Z.mod_pos_bound n d Hd) as Hmod.
  destruct (Z.ltb_spec (2 * (n mod d)) d);
    [|destruct (Z.ltb_spec d (2 * (n mod d)));
      [|destruct (Z.even (n / d))]]; nia.
Qed.

Lemma round_mono (q q' : Qc) : (q <= q')%Qc -> round q <= round q'.
Proof.
  intros Hle. destruct (decide (round q <= round q')) as [|Hgt]; [done|].
  exfalso.
  pose proof (round_near q) as [_ Hq]. pose proof (round_near q') as [Hq' _].
  assert (Hd : 0 < QDen q) by lia. assert (Hd' : 0 < QDen q') by lia.
  assert (Hcross : Qnum q * QDen q' <= Qnum q' * QDen q) by exact Hle.
  assert (H1 : 2 * QDen q * round q' + QDen q <= 2 * Qnum q) by nia.
  assert (H2 : (2 * QDen q * round q' + QDen q) * QDen q'
               <= 2 * Qnum q * QDen q')
    by (apply Z.mul_le_mono_nonneg_r; lia).
  assert (H3 : (2 * Qnum q' - QDen q') * QDen q
               <= 2 * QDen q' * round q' * QDen q)
    by (apply Z.mul_le_mono_nonneg_r; lia).
  assert (Heq : Qnum q * QDen q' = Qnum q' * QDen q) by lia.
  assert (q = q') by (by apply Qc_is_canon).
  subst q'. lia.
Qed.

Lemma round_of_Z (k : Z) : round (Qc_of_Z k) = k.
Proof.
  unfold round. simpl. rewrite Z.div_1_r, Z.mod_1_r. done.
Qed.

End Round.

Section CumulativePercent.

Variable counts : list Z.
Hypothesis counts_nonneg : Forall (fun v => 0 <= v) counts.
Hypothesis total_pos : 0 < sum counts.

Lemma sum_nonneg (l : list Z) : Forall (fun v => 0 <= v) l -> 0 <= sum l.
Proof. unfold sum. induction 1; simpl; lia. Qed.

Lemma sum_take_mono (i j : nat) :
  (i <= j)%nat -> sum (take i counts) <= sum (take j counts).
Proof.
  intros Hij. replace j with (i + (j - i))%nat by lia.
  rewrite <- take_take_drop, sum_app_Z.
  pose proof (sum_nonneg (take (j - i) (drop i counts))
                (Forall_take _ _ _ (Forall_drop _ _ _ counts_nonneg))).
  lia.
Qed.

Lemma sum_take_le_total (i : nat) : sum (take i counts) <= sum counts.
Proof.
  rewrite <- (take_drop i counts) at 2. rewrite sum_app_Z.
  pose proof (sum_nonneg (drop i counts) (Forall_drop _ _ _ counts_nonneg)).
  lia.
Qed.

Lemma percent_mono (a b : Z) :
  a <= b ->
  (Qc_of_Z (100 * a) / Qc_of_Z (sum counts)
   <= Qc_of_Z (100 * b) / Qc_of_Z (sum counts))%Qc.
Proof.
  intros Hab. unfold Qcdiv. apply Qcmult_le_mono_nonneg_r.
  - apply Qclt_le_weak, Qcinv_pos. rewrite <- Z2Qc_inj_0.
    exact (proj1 (Z2Qc_inj_lt 0 (sum counts)) total_pos).
  - exact (proj1 (Z2Qc_inj_le (100 * a) (100 * b)) ltac:(lia)).
Qed.

Lemma cumulative_percent_mono (i j : nat) :
  (i <= j)%nat ->
  cumulative_percent counts i <= cumulative_percent counts j.
Proof.
  intros Hij. unfold cumulative_percent.
  by apply round_mono, percent_mono, sum_take_mono.
Qed.

Lemma cumulative_percent_range (i : nat) :
  0 <= cumulative_percent counts i <= 100.
Proof.
  unfold cumulative_percent. split.
  - rewrite <- (round_of_Z 0) at 1. apply round_mono.
    replace (Qc_of_Z 0) with (Qc_of_Z (100 * 0) / Qc_of_Z (sum counts))%Qc.
    + apply percent_mono, sum_nonneg, Forall_take, counts_nonneg.
    + change (100 * 0) with 0. rewrite Z2Qc_inj_0. unfold Qcdiv.
      apply Qcmult_0_l.
  - rewrite <- (round_of_Z 100) at 2. apply round_mono.
    replace (Qc_of_Z 100)
      with (Qc_of_Z (100 * sum counts) / Qc_of_Z (sum counts))%Qc.
    + apply percent_mono, sum_take_le_total.
    + rewrite Z2Qc_inj_mul. field. by apply Qc_of_Z_pos_neq_0.
Qed.

End CumulativePercent.

Lemma sum_lookup_le (l : list Z) (k : nat) (v : Z) :
  Forall (fun v => 0 <= v) l -> l !! k = Some v -> v <= sum l.
Proof.
  intros Hnonneg Hk.
  rewrite <- (take_drop_middle l k v Hk), !sum_app_Z.
  pose proof (sum_nonneg (take k l) (Forall_take _ _ _ Hnonneg)).
  pose proof (sum_nonneg (drop (S k) l) (Forall_drop _ _ _ Hnonneg)).
  change (sum (v :: drop (S k) l)) with (v + sum (drop (S k) l)). lia.
Qed.

(** X11. The cumulated percentages that [_rating_hist] puts in the labels,
    whenever it returns, are whole numbers between 0 and 100 that never
    decrease from one bucket to the next. *)
Theorem rating_hist_cent_monotone (RATED_RANKS : list cf.Rank)
    (ratings : list Z) (mode : string) (binsize : Z) (out : RatingHist) :
  _rating_hist RATED_RANKS ratings mode binsize = Ok out ->
  forall (i j : nat) (ci cj : Z),
    (i <= j)%nat ->
    hist_cent out !! i = Some ci -> hist_cent out !! j = Some cj ->
    0 <= ci /\ ci <= cj /\ cj <= 100.
Proof.
  intros Hrun.
  destruct (rating_hist_ok_inv _ _ _ _ _ Hrun)
    as (Hmode & Hpos & Hdiv & Hcolors & Hsome & Hall).
  destruct (rating_hist_run_trim RATED_RANKS ratings mode binsize
              Hmode Hpos Hdiv Hcolors Hsome Hall)
    as (colors & height & l & r & Hncolors & Hlen & Hnonneg & Hlr & Hr
        & (vl & Hvl & Hvl0) & _ & Hrun').
  rewrite Hrun in Hrun'.
  apply (f_equal (fun o => match o with Ok a => a | Raise _ => out end))
    in Hrun'.
  cbv beta iota zeta in Hrun'. subst out. cbn [hist_cent].
  set (cent := cumulative_percent height <$> seq 0 (S (length height))).
  assert (Hcent : len cent = 3900 / binsize + 1)
    by (unfold len, cent in *; rewrite length_fmap, length_seq; lia).
  assert (Hall0 : Forall (fun v => 0 <= v) height).
  { apply Forall_lookup. intros k v Hk.
    destruct (Hnonneg k) as (v' & Hv' & Hge);
      [apply lookup_lt_Some in Hk; unfold len in Hlen; lia|].
    congruence. }
  assert (Htotal : 0 < sum height).
  { pose proof (sum_lookup_le height _ vl Hall0 Hvl).
    destruct (Hnonneg (Z.to_nat l)) as (v' & Hv' & Hge); [lia|].
    rewrite Hvl in Hv'. injection Hv' as <-. lia. }
  assert (Hat : forall (k : nat) (c : Z),
            slice cent l (r + 1) !! k = Some c ->
            c = cumulative_percent height (Z.to_nat l + k)).
  { intros k c Hk.
    assert (Hklt : Z.of_nat k < r + 1 - l).
    { apply lookup_lt_Some in Hk.
      pose proof (length_slice cent l (r + 1) ltac:(lia) ltac:(lia)) as Hs.
      unfold len in Hs. lia. }
    rewrite lookup_slice in Hk by lia.
    unfold cent in Hk. rewrite list_lookup_fmap in Hk.
    rewrite (proj2 (lookup_seq 0 _ _ (Z.to_nat l + k)%nat)) in Hk;
      [by injection Hk as <-|].
    unfold len in *. lia. }
  intros i j ci cj Hij Hi Hj.
  rewrite (Hat i ci Hi), (Hat j cj Hj).
  pose proof (cumulative_percent_range height Hall0 Htotal
                (Z.to_nat l + i)) as [Hlo _].
  pose proof (cumulative_percent_range height Hall0 Htotal
                (Z.to_nat l + j)) as [_ Hhi].
  pose proof (cumulative_percent_mono height Hall0 Htotal
                (Z.to_nat l + i) (Z.to_nat l + j) ltac:(lia)).
  done.
Qed.

Lemma rating_hist_cent_monotone_witness :
  let ratings := [1000; 1050; 1100; 1100; 1500; -3] in
  let out := rating_hist_example in
  _rating_hist RATED_RANKS_example ratings "normal" 100 = Ok out /\
  (1 <= 2)%nat /\
  hist_cent out !! 1%nat = Some 40 /\ hist_cent out !! 2%nat = Some 80 /\
  0 <= 40 /\ 40 <= 80 /\ 80 <= 100.
Proof.
  intros ratings out.
  assert (Hrun : _rating_hist RATED_RANKS_example ratings "normal" 100
                 = Ok out) by (vm_compute; reflexivity).
  assert (Hij : (1 <= 2)%nat) by lia.
  assert (Hi : hist_cent out !! 1%nat = Some 40) by reflexivity.
  assert (Hj : hist_cent out !! 2%nat = Some 80) by reflexivity.
  split; [exact Hrun|]. split; [exact Hij|]. split; [exact Hi|].
  split; [exact Hj|].
  exact (rating_hist_cent_monotone RATED_RANKS_example ratings "normal" 100
           out Hrun 1%nat 2%nat 40 80 Hij Hi Hj).
Defined.

(** ** Percentile: order, bounds, and the curve *)

Section Percent.

Lemma percent_of_mono (a b n : Z) :
  0 < n -> a <= b ->
  (Qc_of_Z (100 * a) / Qc_of_Z n <= Qc_of_Z (100 * b) / Qc_of_Z n)%Qc.
Proof.
  intros Hn Hab. unfold Qcdiv. apply Qcmult_le_mono_nonneg_r.
  - apply Qclt_le_weak, Qcinv_pos. rewrite <- Z2Qc_inj_0.
    exact (proj1 (Z2Qc_inj_lt 0 n) Hn).
  - exact (proj1 (Z2Qc_inj_le (100 * a) (100 * b)) ltac:(lia)).
Qed.

Lemma percent_of_lt (a b n : Z) :
  0 < n -> a < b ->
  (Qc_of_Z (100 * a) / Qc_of_Z n < Qc_of_Z (100 * b) / Qc_of_Z n)%Qc.
Proof.
  intros Hn Hab. unfold Qcdiv. apply Qcmult_lt_mono_pos_r.
  - apply Qcinv_pos. rewrite <- Z2Qc_inj_0.
    exact (proj1 (Z2Qc_inj_lt 0 n) Hn).
  - exact (proj1 (Z2Qc_inj_lt (100 * a) (100 * b)) ltac:(lia)).
Qed.

Lemma percent_of_zero (n : Z) : (Qc_of_Z (100 * 0) / Qc_of_Z n = 0)%Qc.
Proof.
  change (100 * 0) with 0. rewrite Z2Qc_inj_0. unfold Qcdiv.
  apply Qcmult_0_l.
Qed.

Lemma percent_of_all (n : Z) :
  0 < n -> (Qc_of_Z (100 * n) / Qc_of_Z n = Qc_of_Z 100)%Qc.
Proof.
  intros Hn. rewrite Z2Qc_inj_mul. field. by apply Qc_of_Z_pos_neq_0.
Qed.

Lemma count_below_mono (v v' : Z) (l : list Z) :
  v <= v' -> count_below v l <= count_below v' l.
Proof.
  intros Hv. unfold count_below, len.
  induction l as [|a l IH]; [done|].
  rewrite !filter_cons. repeat case_decide; simpl; lia.
Qed.

Lemma count_below_range (v : Z) (l : list Z) : 0 <= count_below v l <= len l.
Proof.
  unfold count_below, len. split; [lia|].
  pose proof (length_filter (fun r => r < v) l). lia.
Qed.

Lemma count_below_Permutation (v : Z) (l l' : list Z) :
  l ≡ₚ l' -> count_below v l = count_below v l'.
Proof. intros Hp. unfold count_below, len. by rewrite Hp. Qed.

Lemma len_pos {A} (l : list A) : l <> [] -> 0 < len l.
Proof. intros Hne. unfold len. destruct l; [done|simpl; lia]. Qed.

(** The percentile of a value in a sorted, non-empty population. *)
Lemma centile_cent_count (ratings : list Z) (v : Z) :
  ratings <> [] -> Sorted Z.le ratings ->
  centile_cent ratings v
  = Ok (Qc_of_Z (100 * count_below v ratings) / Qc_of_Z (len ratings))%Qc.
Proof.
  intros Hne Hsorted. unfold centile_cent.
  rewrite bisect_left_below
    by (apply Sorted_StronglySorted; [intros p q r; apply Z.le_trans|done]).
  cbn [mbind result_bind]. apply truediv_ok.
  pose proof (len_pos ratings Hne). lia.
Qed.

Lemma sorted_Sorted (l : list Z) : Sorted Z.le (sorted l).
Proof. apply Sorted_merge_sort. apply _. Qed.

Lemma sorted_Permutation (l : list Z) : sorted l ≡ₚ l.
Proof. apply merge_sort_Permutation. Qed.

Lemma sorted_nonempty (l : list Z) : l <> [] -> sorted l <> [].
Proof.
  intros Hne Hnil. pose proof (sorted_Permutation l) as Hp.
  rewrite Hnil in Hp. by apply Permutation_nil_l in Hp.
Qed.

Lemma len_sorted (l : list Z) : len (sorted l) = len l.
Proof. unfold len. by rewrite (sorted_Permutation l). Qed.

End Percent.

(** X12. In a sorted, non-empty population the percentile of a value is
    between 0 and 100 and does not decrease when the value increases. *)
Theorem centile_cent_monotone (ratings : list Z) (v v' : Z) :
  ratings <> [] -> Sorted Z.le ratings -> v <= v' ->
  exists c c' : Qc,
    centile_cent ratings v = Ok c /\
    centile_cent ratings v' = Ok c' /\
    (0 <= c)%Qc /\ (c <= c')%Qc /\ (c' <= Qc_of_Z 100)%Qc.
Proof.
  intros Hne Hsorted Hv.
  pose proof (len_pos ratings Hne) as Hn.
  do 2 eexists. split; [by apply centile_cent_count|].
  split; [by apply centile_cent_count|].
  pose proof (count_below_range v ratings).
  pose proof (count_below_range v' ratings).
  split; [|split].
  - rewrite <- (percent_of_zero (len ratings)). apply percent_of_mono; lia.
  - by apply percent_of_mono, count_below_mono.
  - rewrite <- (percent_of_all (len ratings)) by done.
    apply percent_of_mono; lia.
Qed.

Lemma centile_cent_monotone_witness :
  let ratings := [900; 1000; 1200; 1400] in
  ratings <> [] /\ Sorted Z.le ratings /\ 1000 <= 1300 /\
  exists c c' : Qc,
    centile_cent ratings 1000 = Ok c /\
    centile_cent ratings 1300 = Ok c' /\
    (0 <= c)%Qc /\ (c <= c')%Qc /\ (c' <= Qc_of_Z 100)%Qc.
Proof.
  intros ratings.
  assert (Hne : ratings <> []) by discriminate.
  assert (Hsorted : Sorted Z.le ratings)
    by (repeat constructor; vm_compute; discriminate).
  assert (Hv : 1000 <= 1300) by discriminate.
  split; [exact Hne|]. split; [exact Hsorted|]. split; [exact Hv|].
  exact (centile_cent_monotone ratings 1000 1300 Hne Hsorted Hv).
Defined.

(** X13. The percentile that [centile] computes does not depend on the
    order of the ratings it is given: for every non-empty population, the
    percentile of [v] in the sorted population is 100 times the number of
    ratings below [v] in the population as given, divided by its size. *)
Theorem centile_cent_any_order (all_ratings : list Z) (v : Z) :
  all_ratings <> [] ->
  centile_cent (sorted all_ratings) v
  = Ok (Qc_of_Z (100 * count_below v all_ratings)
        / Qc_of_Z (len all_ratings))%Qc.
Proof.
  intros Hne.
  rewrite centile_cent_count
    by (by apply sorted_nonempty || apply sorted_Sorted).
  by rewrite len_sorted,
    (count_below_Permutation v _ _ (sorted_Permutation all_ratings)).
Qed.

Lemma centile_cent_any_order_witness :
  let all_ratings := [1400; 900; 1200; 1000] in
  all_ratings <> [] /\
  centile_cent (sorted all_ratings) 1200
  = Ok (Qc_of_Z (100 * count_below 1200 all_ratings)
        / Qc_of_Z (len all_ratings))%Qc.
Proof.
  intros all_ratings.
  assert (Hne : all_ratings <> []) by discriminate.
  split; [exact Hne|]. exact (centile_cent_any_order all_ratings 1200 Hne).
Defined.

Section PercentileCurve.

Variable ratings : list Z.

Lemma length_centile_perc : length (centile_perc ratings) = length ratings.
Proof.
  unfold centile_perc, range, len.
  rewrite length_fmap, length_seqZ. lia.
Qed.

Lemma lookup_centile_perc (i : nat) :
  (i < length ratings)%nat ->
  centile_perc ratings !! i
  = Some (Qc_of_Z (100 * Z.of_nat i) / Qc_of_Z (len ratings))%Qc.
Proof.
  intros Hi. unfold centile_perc, range.
  rewrite list_lookup_fmap, lookup_seqZ_lt by (unfold len; lia).
  done.
Qed.

(** In a sorted list that contains [v], the element at the rank of [v] is
    [v]: the leftmost insertion point is the first occurrence. *)
Lemma sorted_lookup_rank (v : Z) :
  StronglySorted Z.le ratings -> v ∈ ratings ->
  ratings !! Z.to_nat (count_below v ratings) = Some v.
Proof.
  intros Hsorted Hin.
  pose proof (sorted_below_prefix v ratings Hsorted) as Hsplit.
  set (A := filter (fun r => r < v) ratings) in *.
  set (B := filter (fun r => v <= r) ratings) in *.
  assert (HB : v ∈ B) by (apply list_elem_of_filter; split; [lia|done]).
  assert (HsB : StronglySorted Z.le B).
  { rewrite Hsplit in Hsorted. by apply StronglySorted_app_1_r in Hsorted. }
  assert (Hrank : Z.to_nat (count_below v ratings) = length A)
    by (unfold count_below, len; fold A; lia).
  rewrite Hrank, Hsplit, lookup_app_r, Nat.sub_diag by done.
  destruct B as [|h B'] eqn:HeqB; [by apply elem_of_nil in HB|].
  simpl. f_equal.
  assert (Hh : v <= h).
  { assert (Hhin : h ∈ filter (fun r => v <= r) ratings)
      by (fold B; rewrite HeqB; by left).
    by apply list_elem_of_filter in Hhin as [? _]. }
  apply StronglySorted_cons in HsB as [Hall _].
  apply elem_of_cons in HB as [->|HB']; [done|].
  rewrite Forall_forall in Hall. pose proof (Hall v HB'). lia.
Qed.

End PercentileCurve.

(** X14. A marked user whose rating occurs in the population sits on the
    percentile curve: in a sorted population that contains [v], the binary
    search returns an index [i] with [ratings[i] = v], and the percentile of
    [v] is the point [perc[i]] of the curve. *)
Theorem centile_mark_on_curve (ratings : list Z) (v : Z) :
  Sorted Z.le ratings -> v ∈ ratings ->
  exists (i : nat) (c : Qc),
    bisect_left ratings v = Ok (Z.of_nat i) /\
    ratings !! i = Some v /\
    centile_perc ratings !! i = Some c /\
    centile_cent ratings v = Ok c.
Proof.
  intros Hsorted Hin.
  assert (Hss : StronglySorted Z.le ratings)
    by (apply Sorted_StronglySorted; [intros p q r; apply Z.le_trans|done]).
  assert (Hne : ratings <> [])
    by (intros ->; by apply elem_of_nil in Hin).
  pose proof (count_below_range v ratings) as Hrange.
  pose proof (sorted_lookup_rank ratings v Hss Hin) as Hat.
  exists (Z.to_nat (count_below v ratings)). eexists.
  split; [rewrite bisect_left_below by done; f_equal; lia|].
  split; [exact Hat|]. split.
  - apply lookup_centile_perc. by eapply lookup_lt_Some.
  - rewrite centile_cent_count by done.
    by rewrite Z2Nat.id by lia.
Qed.

Lemma centile_mark_on_curve_witness :
  let ratings := [900; 1000; 1200; 1200; 1400] in
  Sorted Z.le ratings /\ 1200 ∈ ratings /\
  exists (i : nat) (c : Qc),
    bisect_left ratings 1200 = Ok (Z.of_nat i) /\
    ratings !! i = Some 1200 /\
    centile_perc ratings !! i = Some c /\
    centile_cent ratings 1200 = Ok c.
Proof.
  intros ratings.
  assert (Hsorted : Sorted Z.le ratings)
    by (repeat constructor; vm_compute; discriminate).
  assert (Hin : 1200 ∈ ratings)
    by (apply (bool_decide_unpack _); vm_compute; reflexivity).
  split; [exact Hsorted|]. split; [exact Hin|].
  exact (centile_mark_on_curve ratings 1200 Hsorted Hin).
Defined.

(** X15. The percentile curve of [centile] has one point per rating, point
    [i] being [100 * i / n]; its points start at 0, increase strictly and
    stay below 100. *)
Theorem centile_perc_increasing (ratings : list Z) :
  length (centile_perc ratings) = length ratings /\
  (forall (i : nat) (p : Qc), centile_perc ratings !! i = Some p ->
     p = (Qc_of_Z (100 * Z.of_nat i) / Qc_of_Z (len ratings))%Qc) /\
  (forall (i j : nat) (p p' : Qc),
     (i < j)%nat ->
     centile_perc ratings !! i = Some p ->
     centile_perc ratings !! j = Some p' ->
     (0 <= p)%Qc /\ (p < p')%Qc /\ (p' < Qc_of_Z 100)%Qc).
Proof.
  assert (Hat : forall (i : nat) (p : Qc),
            centile_perc ratings !! i = Some p ->
            (i < length ratings)%nat /\
            p = (Qc_of_Z (100 * Z.of_nat i) / Qc_of_Z (len ratings))%Qc).
  { intros i p Hp.
    assert (Hi : (i < length ratings)%nat)
      by (apply lookup_lt_Some in Hp; by rewrite length_centile_perc in Hp).
    rewrite lookup_centile_perc in Hp by done. by injection Hp as <-. }
  split; [apply length_centile_perc|]. split; [intros i p Hp; by apply Hat|].
  intros i j p p' Hij Hp Hp'.
  apply Hat in Hp as [Hi ->]. apply Hat in Hp' as [Hj ->].
  assert (Hn : 0 < len ratings) by (unfold len; lia).
  split; [|split].
  - rewrite <- (percent_of_zero (len ratings)). apply percent_of_mono; lia.
  - apply percent_of_lt; lia.
  - rewrite <- (percent_of_all (len ratings)) by done.
    apply percent_of_lt; unfold len in *; lia.
Qed.

Lemma centile_perc_increasing_witness :
  let ratings := [900; 1000; 1200; 1400] in
  let p := (Qc_of_Z (100 * 1) / Qc_of_Z 4)%Qc in
  let p' := (Qc_of_Z (100 * 3) / Qc_of_Z 4)%Qc in
  (1 < 3)%nat /\
  centile_perc ratings !! 1%nat = Some p /\
  centile_perc ratings !! 3%nat = Some p' /\
  (0 <= p)%Qc /\ (p < p')%Qc /\ (p' < Qc_of_Z 100)%Qc.
Proof.
  intros ratings p p'.
  assert (Hij : (1 < 3)%nat) by lia.
  assert (Hp : centile_perc ratings !! 1%nat = Some p) by reflexivity.
  assert (Hp' : centile_perc ratings !! 3%nat = Some p') by reflexivity.
  split; [exact Hij|]. split; [exact Hp|]. split; [exact Hp'|].
  exact (proj2 (proj2 (centile_perc_increasing ratings))
           1%nat 3%nat p p' Hij Hp Hp').
Defined.

(** ** Percentile: the command as a whole *)

Section CentileRun.

Variable ratings : list Z.
Hypothesis ratings_nonempty : ratings <> [].
Hypothesis ratings_sorted : Sorted Z.le ratings.

Local Abbreviation percent rating :=
  (Qc_of_Z (100 * count_below rating ratings) / Qc_of_Z (len ratings))%Qc.

Lemma centile_users_loop_rated (infos : list cf.User) :
  Forall (fun info => is_Some (cf.user_rating info)) infos ->
  forall m : gmap string (Z * Qc),
  exists m' : gmap string (Z * Qc),
    for_in infos (fun info users_to_mark =>
      match cf.user_rating info with
      | None => Raise GraphCogError
      | Some rating =>
          cent ← centile_cent ratings rating;
          Ok (<[cf.handle info := (rating, cent)]> users_to_mark)
      end) m = Ok m' /\
    dom m' = dom m ∪ list_to_set (cf.handle <$> infos) /\
    forall h r p, m' !! h = Some (r, p) ->
      m !! h = Some (r, p) \/
      (p = percent r /\
       exists info, info ∈ infos /\ cf.handle info = h
                    /\ cf.user_rating info = Some r).
Proof.
  induction 1 as [|info infos [rating Hrating] _ IH]; intros m.
  - exists m. split; [done|]. split; [|by left].
    change (dom m = dom m ∪ ∅). by rewrite (right_id_L ∅ (∪)).
  - cbn [for_in]. rewrite Hrating, centile_cent_count by done.
    cbn [mbind result_bind].
    destruct (IH (<[cf.handle info := (rating, percent rating)]> m))
      as (m' & Hrun & Hdom & Hm').
    exists m'. split; [exact Hrun|]. split.
    + rewrite Hdom, dom_insert_L, fmap_cons, list_to_set_cons.
      rewrite (comm_L (∪) {[cf.handle info]} (dom m)).
      by rewrite (assoc_L (∪)).
    + intros h r p Hh. destruct (Hm' h r p Hh) as [Hold|(Hp & i & Hi & Hih)].
      * destruct (decide (cf.handle info = h)) as [Heq|Hne].
        -- rewrite Heq, lookup_insert_eq in Hold. injection Hold as <- <-.
           right. split; [done|]. exists info. split; [by left|done].
        -- rewrite lookup_insert_ne in Hold by done. by left.
      * right. split; [done|]. exists i. split; [by right|done].
Qed.

Lemma centile_users_loop_unrated (infos : list cf.User) :
  Exists (fun info => cf.user_rating info = None) infos ->
  forall m : gmap string (Z * Qc),
  for_in infos (fun info users_to_mark =>
    match cf.user_rating info with
    | None => Raise GraphCogError
    | Some rating =>
        cent ← centile_cent ratings rating;
        Ok (<[cf.handle info := (rating, cent)]> users_to_mark)
    end) m = Raise GraphCogError.
Proof.
  induction infos as [|info infos IH]; intros Hex m;
    [by apply Exists_nil in Hex|].
  cbn [for_in]. destruct (cf.user_rating info) as [rating|] eqn:Hrating;
    [|done].
  rewrite centile_cent_count by done. cbn [mbind result_bind].
  apply IH. apply Exists_cons in Hex as [Hhead|Hrest]; [congruence|done].
Qed.

(** The ends of a sorted, non-empty list are its least and its greatest
    element. *)
Lemma sorted_ends :
  exists lo hi : Z,
    getitem ratings 0 = Ok lo /\ getitem ratings (-1) = Ok hi /\
    lo ∈ ratings /\ hi ∈ ratings /\
    forall r, r ∈ ratings -> lo <= r <= hi.
Proof.
  assert (Hss : StronglySorted Z.le ratings)
    by (apply Sorted_StronglySorted; [intros p q r; apply Z.le_trans|done]).
  pose proof (len_pos ratings ratings_nonempty) as Hn.
  destruct (lookup_lt_is_Some_2 ratings 0) as [lo Hlo];
    [unfold len in Hn; lia|].
  destruct (lookup_lt_is_Some_2 ratings (Z.to_nat (len ratings + -1)))
    as [hi Hhi]; [unfold len in *; lia|].
  exists lo, hi.
  split; [by apply getitem_nonneg|]. split.
  { unfold getitem, position.
    rewrite decide_False by lia. rewrite decide_True by lia. by rewrite Hhi. }
  split; [by eapply list_elem_of_lookup_2|].
  split; [by eapply list_elem_of_lookup_2|].
  intros r [k Hk]%list_elem_of_lookup. split.
  - destruct k as [|k]; [rewrite Hlo in Hk; injection Hk as ->; lia|].
    rewrite <- (take_drop_middle ratings 0 lo Hlo) in Hss.
    simpl in Hss. apply StronglySorted_cons in Hss as [Hall _].
    rewrite Forall_forall in Hall. apply Hall.
    apply list_elem_of_lookup. exists k. by rewrite lookup_drop.
  - set (n := Z.to_nat (len ratings + -1)) in *.
    assert (Hkn : (k <= n)%nat)
      by (apply lookup_lt_Some in Hk; unfold n, len; lia).
    destruct (decide (k = n)) as [->|Hne]; [rewrite Hhi in Hk; by injection Hk as ->|].
    rewrite <- (take_drop_middle ratings n hi Hhi) in Hss.
    apply (StronglySorted_app_1_elem_of _ _ _ r hi) in Hss; [done| |by left].
    apply list_elem_of_lookup. exists k. rewrite lookup_take_lt by lia. done.
Qed.

End CentileRun.

Lemma min_num_le_l (a b : Qc) : (min_num a b <= a)%Qc.
Proof.
  unfold min_num. destruct (decide (b < a)%Qc) as [Hlt|_];
    [by apply Qclt_le_weak|apply Qcle_refl].
Qed.

Lemma min_num_le_r (a b : Qc) : (min_num a b <= b)%Qc.
Proof.
  unfold min_num. destruct (decide (b < a)%Qc) as [_|Hnlt];
    [apply Qcle_refl|by apply Qcnot_lt_le].
Qed.

Lemma max_num_ge_l (a b : Qc) : (a <= max_num a b)%Qc.
Proof.
  unfold max_num. destruct (decide (a < b)%Qc) as [Hlt|_];
    [by apply Qclt_le_weak|apply Qcle_refl].
Qed.

Lemma max_num_ge_r (a b : Qc) : (b <= max_num a b)%Qc.
Proof.
  unfold max_num. destruct (decide (a < b)%Qc) as [_|Hnlt];
    [apply Qcle_refl|by apply Qcnot_lt_le].
Qed.

(** [min(xs)] and [max(xs)] bound every element. *)
Lemma foldr_min_num_le (xs : list Qc) (z x : Qc) :
  x ∈ xs -> (foldr min_num z xs <= x)%Qc.
Proof.
  induction xs as [|a xs IH]; [by intros ?%elem_of_nil|].
  intros [->|Hin]%elem_of_cons; cbn [foldr].
  - apply min_num_le_l.
  - eapply Qcle_trans; [apply min_num_le_r|by apply IH].
Qed.

Lemma foldr_max_num_ge (xs : list Qc) (z x : Qc) :
  x ∈ xs -> (x <= foldr max_num z xs)%Qc.
Proof.
  induction xs as [|a xs IH]; [by intros ?%elem_of_nil|].
  intros [->|Hin]%elem_of_cons; cbn [foldr].
  - apply max_num_ge_l.
  - eapply Qcle_trans; [by apply IH|apply max_num_ge_r].
Qed.

(** A run of [centile] on a non-empty population, when no unrated user is
    to be marked. *)
Lemma centile_run (all_ratings : list Z) (zoom nomarker : bool)
    (infos : list cf.User) :
  all_ratings <> [] ->
  nomarker = true \/ Forall (fun info => is_Some (cf.user_rating info)) infos ->
  exists (m : gmap string (Z * Qc)) (xlim : Qc * Qc),
    centile all_ratings zoom nomarker infos
    = Ok {| centile_ratings := sorted all_ratings;
            centile_curve := centile_perc (sorted all_ratings);
            centile_marks := m;
            centile_xlim := xlim |} /\
    (nomarker = true -> m = ∅) /\
    (nomarker = false ->
       dom m = list_to_set (cf.handle <$> infos) /\
       forall h r p, m !! h = Some (r, p) ->
         p = (Qc_of_Z (100 * count_below r all_ratings)
              / Qc_of_Z (len all_ratings))%Qc /\
         exists info, info ∈ infos /\ cf.handle info = h
                      /\ cf.user_rating info = Some r) /\
    (zoom = false \/ m = ∅ ->
       exists lo hi : Z,
         xlim = (Qc_of_Z lo, Qc_of_Z hi) /\
         lo ∈ all_ratings /\ hi ∈ all_ratings /\
         forall r, r ∈ all_ratings -> lo <= r <= hi) /\
    (zoom = true -> forall h r p, m !! h = Some (r, p) ->
       (fst xlim <= Qc_of_Z r - Qc_of_Z 20)%Qc /\
       (Qc_of_Z r + Qc_of_Z 20 <= snd xlim)%Qc).
Proof.
  intros Hne Hrated.
  pose proof (sorted_nonempty _ Hne) as Hsne.
  pose proof (sorted_Sorted all_ratings) as Hsorted.
  assert (Hmarks : exists m : gmap string (Z * Qc),
    (if negb nomarker then centile_users_to_mark (sorted all_ratings) infos
     else Ok ∅) = Ok m /\
    (nomarker = true -> m = ∅) /\
    (nomarker = false ->
       dom m = list_to_set (cf.handle <$> infos) /\
       forall h r p, m !! h = Some (r, p) ->
         p = (Qc_of_Z (100 * count_below r all_ratings)
              / Qc_of_Z (len all_ratings))%Qc /\
         exists info, info ∈ infos /\ cf.handle info = h
                      /\ cf.user_rating info = Some r)).
  { destruct nomarker; cbn [negb].
    - exists ∅. by repeat split.
    - destruct Hrated as [?|Hrated]; [done|].
      destruct (centile_users_loop_rated (sorted all_ratings) Hsne Hsorted
                  infos Hrated ∅) as (m & Hrun & Hdom & Hm).
      exists m. split; [exact Hrun|]. split; [done|]. intros _. split.
      + rewrite Hdom, dom_empty_L. by rewrite (left_id_L ∅ (∪)).
      + intros h r p Hh. destruct (Hm h r p Hh) as [Hold|[-> Hinfo]];
          [by rewrite lookup_empty in Hold|].
        split; [|done].
        by rewrite len_sorted,
          (count_below_Permutation r _ _ (sorted_Permutation all_ratings)). }
  destruct Hmarks as (m & Hrun & Hnomarker & Hmarker).
  unfold centile. rewrite Hrun. cbn [mbind result_bind].
  destruct (negb (bool_decide (m = ∅)) && zoom) eqn:Hzoom.
  - apply andb_true_iff in Hzoom as [Hm ->].
    apply negb_true_iff, bool_decide_eq_false in Hm.
    eexists m, _. split; [reflexivity|]. split; [done|]. split; [done|].
    split; [intros [?|?]; done|].
    intros _ h r p Hh. cbn [fst snd].
    assert (Hin : Qc_of_Z r
                  ∈ (fun p => Qc_of_Z (fst (snd p))) <$> map_to_list m).
    { apply list_elem_of_fmap. exists (h, (r, p)). split; [done|].
      by apply elem_of_map_to_list. }
    split.
    + unfold Qcminus. apply Qcplus_le_compat;
        [by apply foldr_min_num_le|]. apply Qcopp_le_compat, max_num_ge_l.
    + apply Qcplus_le_compat; [by apply foldr_max_num_ge|apply max_num_ge_l].
  - destruct (sorted_ends (sorted all_ratings) Hsne Hsorted)
      as (lo & hi & Hlo & Hhi & Hloin & Hhiin & Hbounds).
    rewrite Hlo, Hhi. cbn [mbind result_bind].
    eexists m, _. split; [reflexivity|]. split; [done|]. split; [done|].
    split.
    + assert (Hperm : forall r, r ∈ sorted all_ratings <-> r ∈ all_ratings)
        by (intros r; by rewrite (sorted_Permutation all_ratings)).
      intros _. exists lo, hi. split; [done|].
      split; [by apply Hperm|]. split; [by apply Hperm|].
      intros r Hr. apply Hbounds. by apply Hperm.
    + intros -> h r p Hh. rewrite andb_true_r in Hzoom.
      apply negb_false_iff, bool_decide_eq_true in Hzoom.
      by rewrite Hzoom, lookup_empty in Hh.
Qed.

(** When an unrated user is to be marked, [centile] gives up. *)
Lemma centile_unrated (all_ratings : list Z) (zoom : bool)
    (infos : list cf.User) :
  all_ratings <> [] ->
  Exists (fun info => cf.user_rating info = None) infos ->
  centile all_ratings zoom false infos = Raise GraphCogError.
Proof.
  intros Hne Hex. unfold centile, centile_users_to_mark. cbn [negb].
  rewrite (centile_users_loop_unrated (sorted all_ratings))
    by (by apply sorted_nonempty || apply sorted_Sorted || done).
  reflexivity.
Qed.

Lemma rated_or_unrated (infos : list cf.User) :
  Forall (fun info => is_Some (cf.user_rating info)) infos \/
  Exists (fun info => cf.user_rating info = None) infos.
Proof.
  induction infos as [|info infos [IH|IH]].
  - left. constructor.
  - destruct (cf.user_rating info) as [r|] eqn:Hr.
    + left. constructor; [by rewrite Hr|done].
    + right. by left.
  - right. by right.
Qed.

(** What a successful run of [centile] says about its arguments. *)
Lemma centile_ok_rated (all_ratings : list Z) (zoom nomarker : bool)
    (infos : list cf.User) (c : Centile) :
  all_ratings <> [] ->
  centile all_ratings zoom nomarker infos = Ok c ->
  nomarker = true \/ Forall (fun info => is_Some (cf.user_rating info)) infos.
Proof.
  intros Hne Hrun. destruct nomarker; [by left|]. right.
  destruct (rated_or_unrated infos) as [Hall|Hex]; [done|].
  by rewrite (centile_unrated all_ratings zoom infos Hne Hex) in Hrun.
Qed.

(** X16. On a non-empty population [centile] fails in one case only: when
    markers are asked for and one of the users has no rating, it raises
    [GraphCogError].  Otherwise it succeeds; the curve is drawn over the
    population in ascending order; with [+nomarker] nobody is marked, and
    without it exactly the handles of [infos] are marked, each with the
    rating of one of its users and with the percentage of the population
    rated below that rating. *)
Theorem centile_marks_users (all_ratings : list Z) (zoom nomarker : bool)
    (infos : list cf.User) :
  all_ratings <> [] ->
  (nomarker = false ->
   Exists (fun info => cf.user_rating info = None) infos ->
   centile all_ratings zoom nomarker infos = Raise GraphCogError) /\
  (nomarker = true \/
   Forall (fun info => is_Some (cf.user_rating info)) infos ->
   exists c : Centile,
     centile all_ratings zoom nomarker infos = Ok c /\
     centile_ratings c ≡ₚ all_ratings /\
     Sorted Z.le (centile_ratings c) /\
     centile_curve c = centile_perc (centile_ratings c) /\
     (nomarker = true -> centile_marks c = ∅) /\
     (nomarker = false ->
      dom (centile_marks c) = list_to_set (cf.handle <$> infos) /\
      forall h r p, centile_marks c !! h = Some (r, p) ->
        p = (Qc_of_Z (100 * count_below r all_ratings)
             / Qc_of_Z (len all_ratings))%Qc /\
        exists info, info ∈ infos /\ cf.handle info = h
                     /\ cf.user_rating info = Some r)).
Proof.
  intros Hne. split.
  - intros -> Hex. by apply centile_unrated.
  - intros Hrated.
    destruct (centile_run all_ratings zoom nomarker infos Hne Hrated)
      as (m & xlim & Hrun & Hnomarker & Hmarker & _).
    eexists. split; [exact Hrun|]. cbn [centile_ratings centile_curve
                                        centile_marks].
    split; [apply sorted_Permutation|]. split; [apply sorted_Sorted|].
    done.
Qed.

Lemma centile_marks_users_witness :
  let all_ratings := [1500; 1200; 1800; 1200] in
  let rated := {| cf.handle := "ann"; cf.user_rating := Some 1500 |} in
  let unrated := {| cf.handle := "bob"; cf.user_rating := None |} in
  all_ratings <> [] /\
  centile all_ratings false false [rated; unrated] = Raise GraphCogError /\
  exists c : Centile,
    centile all_ratings false false [rated] = Ok c /\
    centile_ratings c ≡ₚ all_ratings /\
    dom (centile_marks c) = list_to_set (cf.handle <$> [rated]).
Proof.
  intros all_ratings rated unrated.
  assert (Hne : all_ratings <> []) by discriminate.
  split; [exact Hne|].
  destruct (centile_marks_users all_ratings false false [rated; unrated] Hne)
    as [Hraise _].
  split.
  { apply Hraise; [reflexivity|]. right. left. reflexivity. }
  destruct (centile_marks_users all_ratings false false [rated] Hne)
    as [_ Hok].
  destruct Hok as (c & Hrun & Hperm & _ & _ & _ & Hmarks).
  { right. repeat constructor. by exists 1500. }
  destruct (Hmarks eq_refl) as [Hdom _].
  exists c. split; [exact Hrun|]. split; [exact Hperm|exact Hdom].
Defined.

(** X17. Without [+zoom], or when nobody is marked, the x axis of a
    successful [centile] plot runs exactly from the lowest to the highest
    rating of the population. *)
Theorem centile_axis_spans_population (all_ratings : list Z)
    (zoom nomarker : bool) (infos : list cf.User) (c : Centile) :
  all_ratings <> [] ->
  centile all_ratings zoom nomarker infos = Ok c ->
  zoom = false \/ centile_marks c = ∅ ->
  exists lo hi : Z,
    centile_xlim c = (Qc_of_Z lo, Qc_of_Z hi) /\
    lo ∈ all_ratings /\ hi ∈ all_ratings /\
    forall r, r ∈ all_ratings -> lo <= r <= hi.
Proof.
  intros Hne Hrun Hzoom.
  destruct (centile_run all_ratings zoom nomarker infos Hne
              (centile_ok_rated _ _ _ _ _ Hne Hrun))
    as (m & xlim & Hrun' & _ & _ & Hspan & _).
  rewrite Hrun in Hrun'. injection Hrun' as ->.
  cbn [centile_marks centile_xlim] in *. by apply Hspan.
Qed.

Lemma centile_axis_spans_population_witness :
  let all_ratings := [1500; 1200; 1800; 1200] in
  let rated := {| cf.handle := "ann"; cf.user_rating := Some 1500 |} in
  all_ratings <> [] /\
  exists c : Centile,
    centile all_ratings false false [rated] = Ok c /\
    exists lo hi : Z,
      centile_xlim c = (Qc_of_Z lo, Qc_of_Z hi) /\
      lo ∈ all_ratings /\ hi ∈ all_ratings /\
      forall r, r ∈ all_ratings -> lo <= r <= hi.
Proof.
  intros all_ratings rated.
  assert (Hne : all_ratings <> []) by discriminate.
  split; [exact Hne|].
  destruct (centile all_ratings false false [rated]) as [c|e] eqn:Hrun;
    [|vm_compute in Hrun; discriminate].
  exists c. split; [reflexivity|].
  apply (centile_axis_spans_population all_ratings false false [rated] c Hne
           Hrun).
  by left.
Defined.

(** X18. With [+zoom], every marked user of a successful [centile] plot
    lies inside the x axis, at least 20 rating points away from both of its
    ends. *)
Theorem centile_zoom_keeps_marks (all_ratings : list Z) (nomarker : bool)
    (infos : list cf.User) (c : Centile) :
  all_ratings <> [] ->
  centile all_ratings true nomarker infos = Ok c ->
  forall h r p, centile_marks c !! h = Some (r, p) ->
    (fst (centile_xlim c) <= Qc_of_Z r - Qc_of_Z 20)%Qc /\
    (Qc_of_Z r + Qc_of_Z 20 <= snd (centile_xlim c))%Qc.
Proof.
  intros Hne Hrun.
  destruct (centile_run all_ratings true nomarker infos Hne
              (centile_ok_rated _ _ _ _ _ Hne Hrun))
    as (m & xlim & Hrun' & _ & _ & _ & Hzoom).
  rewrite Hrun in Hrun'. injection Hrun' as ->.
  cbn [centile_marks centile_xlim] in *. by apply Hzoom.
Qed.

Lemma centile_zoom_keeps_marks_witness :
  let all_ratings := [1500; 1200; 1800; 1200] in
  let ann := {| cf.handle := "ann"; cf.user_rating := Some 1500 |} in
  let bob := {| cf.handle := "bob"; cf.user_rating := Some 2100 |} in
  all_ratings <> [] /\
  exists c : Centile,
    centile all_ratings true false [ann; bob] = Ok c /\
    forall h r p, centile_marks c !! h = Some (r, p) ->
      (fst (centile_xlim c) <= Qc_of_Z r - Qc_of_Z 20)%Qc /\
      (Qc_of_Z r + Qc_of_Z 20 <= snd (centile_xlim c))%Qc.
Proof.
  intros all_ratings ann bob.
  assert (Hne : all_ratings <> []) by discriminate.
  split; [exact Hne|].
  destruct (centile all_ratings true false [ann; bob]) as [c|e] eqn:Hrun;
    [|vm_compute in Hrun; discriminate].
  exists c. split; [reflexivity|].
  exact (centile_zoom_keeps_marks all_ratings false [ann; bob] c Hne Hrun).
Defined.

(** ** More runtime facts: truth values, comprehensions, last elements *)

Lemma any_truthy_false {A} (ls : list (list A)) :
  any (truthy <$> ls) = false <-> Forall (fun l => l = []) ls.
Proof.
  unfold any. induction ls as [|l ls IH]; [by split; [constructor|]|].
  rewrite fmap_cons. cbn [existsb]. rewrite orb_false_iff, IH, Forall_cons.
  destruct l; cbn; intuition congruence.
Qed.

Lemma any_truthy_true {A} (ls : list (list A)) :
  any (truthy <$> ls) = true <-> Exists (fun l => l <> []) ls.
Proof.
  unfold any. induction ls as [|l ls IH];
    [by split; [|intros ?%Exists_nil]|].
  rewrite fmap_cons. cbn [existsb]. rewrite orb_true_iff, IH, Exists_cons.
  destruct l; cbn; intuition congruence.
Qed.

Lemma comprehension_ok {A B} (f : A -> result B) (g : A -> B)
    (xs : list A) :
  Forall (fun x => f x = Ok (g x)) xs -> comprehension f xs = Ok (g <$> xs).
Proof.
  induction 1 as [|x xs Hx _ IH]; [done|].
  cbn [comprehension]. by rewrite Hx, IH.
Qed.

(** A comprehension raises what its first failing element raises. *)
Lemma comprehension_raise {A B} (f : A -> result B) (e : exn)
    (xs : list A) :
  Forall (fun x => f x = Raise e \/ exists y, f x = Ok y) xs ->
  Exists (fun x => f x = Raise e) xs ->
  comprehension f xs = Raise e.
Proof.
  induction 1 as [|x xs Hx _ IH]; [by intros ?%Exists_nil|].
  intros Hex. cbn [comprehension].
  destruct Hx as [->|[y Hy]]; [done|]. rewrite Hy. cbn [mbind result_bind].
  apply Exists_cons in Hex as [Hhead|Hrest]; [congruence|].
  by rewrite IH.
Qed.

Lemma comprehension_length {A B} (f : A -> result B) (xs : list A)
    (ys : list B) :
  comprehension f xs = Ok ys -> length ys = length xs.
Proof.
  revert ys. induction xs as [|x xs IH]; intros ys; cbn [comprehension].
  - by intros [= <-].
  - destruct (f x) as [y|]; [|done]. cbn [mbind result_bind].
    destruct (comprehension f xs) as [ys'|]; [|done].
    cbn [mbind result_bind]. intros [= <-]. simpl. by rewrite (IH ys').
Qed.

(** [l[-1]] is the last element. *)
Lemma getitem_last {A} (l : list A) (x : A) :
  last l = Some x -> getitem l (-1) = Ok x.
Proof.
  intros Hlast. rewrite last_lookup in Hlast.
  assert (Hlen : (0 < length l)%nat)
    by (destruct l; [done|simpl; lia]).
  unfold getitem, position, len.
  rewrite decide_False by lia. rewrite decide_True by lia.
  replace (Z.to_nat (Z.of_nat (length l) + -1)) with (pred (length l))
    by lia.
  by rewrite Hlast.
Qed.

Lemma elem_of_concat {A} (x : A) (ls : list (list A)) :
  x ∈ concat ls <-> exists l, x ∈ l /\ l ∈ ls.
Proof.
  induction ls as [|a ls IH]; cbn [concat].
  - split; [by intros ?%elem_of_nil|by intros (l & _ & ?%elem_of_nil)].
  - rewrite elem_of_app, IH. split.
    + intros [Hx|(l & Hx & Hl)].
      * exists a. split; [done|by left].
      * exists l. split; [done|by right].
    + intros (l & Hx & [->|Hl]%elem_of_cons); [by left|].
      right. by exists l.
Qed.

Lemma fold_left_min_le (ys : list Z) : forall m,
  fold_left Z.min ys m <= m /\
  Forall (fun y => fold_left Z.min ys m <= y) ys /\
  (fold_left Z.min ys m = m \/ fold_left Z.min ys m ∈ ys).
Proof.
  induction ys as [|y ys IH]; intros m; cbn [fold_left].
  - split; [lia|]. split; [constructor|by left].
  - destruct (IH (Z.min m y)) as (Hle & Hall & Hin).
    split; [lia|]. split; [constructor; [lia|done]|].
    destruct Hin as [Heq|Hin]; [|right; by right].
    destruct (Z.min_spec m y) as [[_ Hm]|[_ Hm]]; rewrite Hm in Heq |- *.
    + by left.
    + right. rewrite Heq. by left.
Qed.

Lemma fold_left_max_ge (ys : list Z) : forall m,
  m <= fold_left Z.max ys m /\
  Forall (fun y => y <= fold_left Z.max ys m) ys /\
  (fold_left Z.max ys m = m \/ fold_left Z.max ys m ∈ ys).
Proof.
  induction ys as [|y ys IH]; intros m; cbn [fold_left].
  - split; [lia|]. split; [constructor|by left].
  - destruct (IH (Z.max m y)) as (Hle & Hall & Hin).
    split; [lia|]. split; [constructor; [lia|done]|].
    destruct Hin as [Heq|Hin]; [|right; by right].
    destruct (Z.max_spec m y) as [[_ Hm]|[_ Hm]]; rewrite Hm in Heq |- *.
    + right. rewrite Heq. by left.
    + by left.
Qed.

(** ** Rating graph *)

Section RatingGraph.

Context `{DateTime}.

Local Abbreviation time_of c :=
  (fromtimestamp (Qc_of_Z (cf.ratingUpdateTimeSeconds c))).

(** The line that [_plot_rating] draws for one user. *)
Lemma plot_rating_lines (resp : list (list cf.RatingChange))
    (mark : string) :
  _plot_rating resp mark
  = (fun rating_changes =>
       {| line_x := (fun c => time_of c) <$> rating_changes;
          line_y := cf.newRating <$> rating_changes;
          line_marker := mark |}) <$> resp.
Proof.
  unfold _plot_rating. apply list_fmap_ext. intros _ rating_changes _.
  match goal with
  | |- context [fold_left ?F rating_changes ([], [])] => set (body := F)
  end.
  assert (Hfold : fold_left body rating_changes ([], [])
                  = (cf.newRating <$> rating_changes,
                     (fun c => time_of c) <$> rating_changes)).
  { induction rating_changes as [|c l IH] using rev_ind; [done|].
    rewrite fold_left_app, IH. cbn [fold_left body].
    by rewrite !fmap_app. }
  by rewrite Hfold.
Qed.

(** The number that the legend shows for one user. *)
Lemma rating_current (resp : list (list cf.RatingChange)) :
  comprehension (fun rating_changes : list cf.RatingChange =>
    if truthy rating_changes
    then last ← getitem rating_changes (-1);
         Ok (pretty (cf.newRating last))
    else Ok "Unrated") resp
  = Ok ((fun rating_changes =>
           match last rating_changes with
           | Some c => pretty (cf.newRating c)
           | None => "Unrated"
           end) <$> resp).
Proof.
  apply comprehension_ok, Forall_forall. intros l _.
  destruct (last l) as [c|] eqn:Hlast.
  - rewrite (getitem_last l c Hlast). by destruct l.
  - apply last_None in Hlast. by subst l.
Qed.

(** The two bounds that [rating] computes without [+zoom]. *)
Lemma rating_bounds (resp : list (list cf.RatingChange)) : forall lo hi,
  fold_left (fun st rating_changes =>
    fold_left (fun '(min_rating, max_rating) rating =>
        (Z.min min_rating (cf.newRating rating),
         Z.max max_rating (cf.newRating rating)))
      rating_changes st) resp (lo, hi)
  = (fold_left Z.min (cf.newRating <$> concat resp) lo,
     fold_left Z.max (cf.newRating <$> concat resp) hi).
Proof.
  induction resp as [|l resp IH]; intros lo hi; [done|].
  cbn [fold_left concat]. rewrite fmap_app, !fold_left_app.
  assert (Hinner : forall lo hi,
    fold_left (fun '(min_rating, max_rating) rating =>
        (Z.min min_rating (cf.newRating rating),
         Z.max max_rating (cf.newRating rating))) l (lo, hi)
    = (fold_left Z.min (cf.newRating <$> l) lo,
       fold_left Z.max (cf.newRating <$> l) hi)).
  { clear. induction l as [|c l IH]; intros lo hi; [done|].
    cbn [fold_left]. by rewrite IH. }
  by rewrite Hinner, IH.
Qed.

(** What [rating] returns when some user has a rating change. *)
Lemma rating_run (rating_changes_of : string -> list cf.RatingChange)
    (handles : list string) (zoom peak : bool) :
  Exists (fun h => rating_changes_of h <> []) handles ->
  let resp :=
    (if peak then max_prefix <$> (rating_changes_of <$> handles)
     else rating_changes_of <$> handles) in
  rating rating_changes_of handles zoom peak
  = Ok {| rating_lines :=
            (fun rating_changes =>
               {| line_x := (fun c => time_of c) <$> rating_changes;
                  line_y := cf.newRating <$> rating_changes;
                  line_marker := "o" |}) <$> resp;
          rating_legend :=
            (fun '(handle, rating) => handle +:+ " (" +:+ rating +:+ ")")
              <$> zip handles
                    ((fun rating_changes =>
                        match last rating_changes with
                        | Some c => pretty (cf.newRating c)
                        | None => "Unrated"
                        end) <$> resp);
          rating_ylim :=
            if negb zoom then
              Some (fold_left Z.min (cf.newRating <$> concat resp) 1100 - 100,
                    fold_left Z.max (cf.newRating <$> concat resp) 1800 + 200)
            else None |}.
Proof.
  intros Hsome resp. unfold rating.
  assert (Hany : any (truthy <$> (rating_changes_of <$> handles)) = true).
  { apply any_truthy_true. by apply Exists_fmap. }
  rewrite Hany. cbn [negb]. fold resp.
  rewrite rating_current. cbn [mbind result_bind].
  rewrite plot_rating_lines, rating_bounds. reflexivity.
Qed.

Lemma rating_unrated (rating_changes_of : string -> list cf.RatingChange)
    (handles : list string) (zoom peak : bool) :
  Forall (fun h => rating_changes_of h = []) handles ->
  rating rating_changes_of handles zoom peak = Raise GraphCogError.
Proof.
  intros Hnone. unfold rating.
  assert (Hany : any (truthy <$> (rating_changes_of <$> handles)) = false).
  { apply any_truthy_false. by apply Forall_fmap. }
  by rewrite Hany.
Qed.

Lemma rating_ok_rated (rating_changes_of : string -> list cf.RatingChange)
    (handles : list string) (zoom peak : bool) (p : RatingPlot) :
  rating rating_changes_of handles zoom peak = Ok p ->
  Exists (fun h => rating_changes_of h <> []) handles.
Proof.
  intros Hrun.
  destruct (decide (Forall (fun h => rating_changes_of h = []) handles))
    as [Hnone|Hsome].
  - by rewrite rating_unrated in Hrun.
  - apply not_Forall_Exists in Hsome; [done|]. intros h.
    destruct (rating_changes_of h); [by left|by right].
Qed.

End RatingGraph.

(** X19. [rating] raises [GraphCogError] exactly when no user has a rating
    change, with or without [+peak].  Whenever it returns a plot, some user
    has a rating change and the plot has one line and one legend entry per
    handle; with [+peak] this includes the handles whose changes are all
    filtered out. *)
Theorem rating_fails_only_unrated `{DateTime}
    (rating_changes_of : string -> list cf.RatingChange)
    (handles : list string) (zoom peak : bool) :
  (rating rating_changes_of handles zoom peak = Raise GraphCogError <->
   Forall (fun h => rating_changes_of h = []) handles) /\
  (forall p : RatingPlot,
     rating rating_changes_of handles zoom peak = Ok p ->
     Exists (fun h => rating_changes_of h <> []) handles /\
     length (rating_lines p) = length handles /\
     length (rating_legend p) = length handles).
Proof.
  split.
  - split; [|apply rating_unrated]. intros Hraise.
    destruct (decide (Forall (fun h => rating_changes_of h = []) handles))
      as [Hnone|Hsome]; [done|].
    apply not_Forall_Exists in Hsome;
      [|intros h; destruct (rating_changes_of h); [by left|by right]].
    by rewrite rating_run in Hraise.
  - intros p Hrun. pose proof (rating_ok_rated _ _ _ _ _ Hrun) as Hsome.
    split; [exact Hsome|].
    rewrite (rating_run _ _ _ _ Hsome) in Hrun. injection Hrun as <-.
    cbn [rating_lines rating_legend].
    rewrite !length_fmap, length_zip, length_fmap.
    destruct peak; rewrite ?length_fmap; lia.
Qed.

Lemma rating_fails_only_unrated_witness :
  let history (h : string) :=
    if decide (h = "ann") then [change 1 0 1400; change 2 1400 1350]
    else [] in
  @rating posix history ["bob"; "eve"] false false = Raise GraphCogError /\
  exists p : @RatingPlot posix,
    @rating posix history ["ann"; "bob"] false true = Ok p /\
    Exists (fun h => history h <> []) ["ann"; "bob"] /\
    length (rating_lines p) = 2%nat /\
    length (rating_legend p) = 2%nat.
Proof.
  intros history.
  destruct (@rating_fails_only_unrated posix history ["bob"; "eve"]
              false false) as [Hraise _].
  destruct (@rating_fails_only_unrated posix history ["ann"; "bob"]
              false true) as [_ Hok].
  split.
  - apply Hraise. repeat constructor.
  - destruct (@rating posix history ["ann"; "bob"] false true) as [p|e]
      eqn:Hrun; [|vm_compute in Hrun; discriminate].
    exists p. split; [reflexivity|]. exact (Hok p eq_refl).
Defined.

(** X20. Without [+zoom] the y axis of [rating] contains the band from
    1000 to 2000 and every point drawn, with a margin of 100 below the
    lowest and of 200 above the highest; and it is no larger than that:
    the lower limit is 1000 or 100 below a point drawn, the upper limit is
    2000 or 200 above a point drawn. *)
Theorem rating_ylim_contains `{DateTime}
    (rating_changes_of : string -> list cf.RatingChange)
    (handles : list string) (peak : bool) (p : RatingPlot) :
  rating rating_changes_of handles false peak = Ok p ->
  exists lo hi : Z,
    rating_ylim p = Some (lo, hi) /\
    lo <= 1000 /\ 2000 <= hi /\
    (forall line y, line ∈ rating_lines p -> y ∈ line_y line ->
       lo + 100 <= y <= hi - 200) /\
    (lo = 1000 \/
     exists line, line ∈ rating_lines p /\ lo + 100 ∈ line_y line) /\
    (hi = 2000 \/
     exists line, line ∈ rating_lines p /\ hi - 200 ∈ line_y line).
Proof.
  intros Hrun.
  rewrite (rating_run _ _ _ _ (rating_ok_rated _ _ _ _ _ Hrun)) in Hrun.
  injection Hrun as <-. cbn [negb rating_ylim rating_lines].
  set (resp := if peak then _ else _).
  destruct (fold_left_min_le (cf.newRating <$> concat resp) 1100)
    as (Hlo & Hlow & Hlo_in).
  destruct (fold_left_max_ge (cf.newRating <$> concat resp) 1800)
    as (Hhi & Hhigh & Hhi_in).
  set (lo := fold_left Z.min _ _) in *. set (hi := fold_left Z.max _ _) in *.
  assert (Hpoint : forall y, y ∈ cf.newRating <$> concat resp <->
    exists line,
      line ∈ (fun rating_changes : list cf.RatingChange =>
                {| line_x :=
                     (fun c => fromtimestamp
                        (Qc_of_Z (cf.ratingUpdateTimeSeconds c)))
                       <$> rating_changes;
                   line_y := cf.newRating <$> rating_changes;
                   line_marker := "o" |}) <$> resp
      /\ y ∈ line_y line).
  { intros y. rewrite list_elem_of_fmap. split.
    - intros (c & -> & (l & Hc & Hl)%elem_of_concat).
      eexists. split; [by apply list_elem_of_fmap_2|].
      cbn [line_y]. by apply list_elem_of_fmap_2.
    - intros (line & (l & -> & Hl)%list_elem_of_fmap & Hy).
      cbn [line_y] in Hy. apply list_elem_of_fmap in Hy as (c & -> & Hc).
      exists c. split; [done|]. apply elem_of_concat. by exists l. }
  exists (lo - 100), (hi + 200). split; [done|].
  split; [lia|]. split; [lia|]. split; [|split].
  - intros line y Hline Hy.
    assert (Hin : y ∈ cf.newRating <$> concat resp)
      by (apply Hpoint; by exists line).
    rewrite Forall_forall in Hlow, Hhigh.
    specialize (Hlow y Hin). specialize (Hhigh y Hin). lia.
  - destruct Hlo_in as [Heq|Hin]; [left; lia|right].
    replace (lo - 100 + 100) with lo by lia. by apply Hpoint.
  - destruct Hhi_in as [Heq|Hin]; [left; lia|right].
    replace (hi + 200 - 200) with hi by lia. by apply Hpoint.
Qed.

Lemma rating_ylim_contains_witness :
  let history (h : string) :=
    if decide (h = "ann") then [change 1 0 1400; change 2 1400 2350]
    else [] in
  exists p : @RatingPlot posix,
    @rating posix history ["ann"; "bob"] false false = Ok p /\
    exists lo hi : Z,
      rating_ylim p = Some (lo, hi) /\
      lo <= 1000 /\ 2000 <= hi /\
      (forall line y, line ∈ rating_lines p -> y ∈ line_y line ->
         lo + 100 <= y <= hi - 200) /\
      (lo = 1000 \/
       exists line, line ∈ rating_lines p /\ lo + 100 ∈ line_y line) /\
      (hi = 2000 \/
       exists line, line ∈ rating_lines p /\ hi - 200 ∈ line_y line).
Proof.
  intros history.
  destruct (@rating posix history ["ann"; "bob"] false false) as [p|e]
    eqn:Hrun; [|vm_compute in Hrun; discriminate].
  exists p. split; [reflexivity|].
  exact (@rating_ylim_contains posix history ["ann"; "bob"] false p Hrun).
Defined.

(** X21. The legend of [rating] follows the lines: entry [i] is the handle
    of line [i] followed, in brackets, by the last rating drawn on that
    line, or by [Unrated] when the line has no point. *)
Theorem rating_legend_shows_last `{DateTime}
    (rating_changes_of : string -> list cf.RatingChange)
    (handles : list string) (zoom peak : bool) (p : RatingPlot) :
  rating rating_changes_of handles zoom peak = Ok p ->
  forall (i : nat) (h : string) (line : Line),
    handles !! i = Some h ->
    rating_lines p !! i = Some line ->
    rating_legend p !! i
    = Some (h +:+ " ("
              +:+ match last (line_y line) with
                  | Some y => pretty y
                  | None => "Unrated"
                  end
              +:+ ")").
Proof.
  intros Hrun i h line Hh Hline.
  rewrite (rating_run _ _ _ _ (rating_ok_rated _ _ _ _ _ Hrun)) in Hrun.
  injection Hrun as <-. cbn [rating_lines rating_legend] in *.
  set (resp := if peak then _ else _) in *.
  apply list_lookup_fmap_Some_1 in Hline as (l & -> & Hl).
  cbn [line_y]. rewrite list_lookup_fmap.
  assert (Hzip : zip handles
            ((fun rating_changes : list cf.RatingChange =>
                match last rating_changes with
                | Some c => pretty (cf.newRating c)
                | None => "Unrated"
                end) <$> resp) !! i
          = Some (h, match last l with
                     | Some c => pretty (cf.newRating c)
                     | None => "Unrated"
                     end)).
  { apply lookup_zip_Some. split; [done|].
    by rewrite list_lookup_fmap, Hl. }
  rewrite Hzip. cbn [fmap option_fmap option_map].
  rewrite fmap_last. by destruct (last l).
Qed.

Lemma rating_legend_shows_last_witness :
  let history (h : string) :=
    if decide (h = "ann") then [change 1 0 1400; change 2 1400 1350]
    else [] in
  exists (p : @RatingPlot posix) (ann bob : @Line posix),
    @rating posix history ["ann"; "bob"] false false = Ok p /\
    rating_lines p = [ann; bob] /\
    line_y ann = [1400; 1350] /\ line_y bob = [] /\
    rating_legend p !! 0%nat = Some "ann (1350)" /\
    rating_legend p !! 1%nat = Some "bob (Unrated)".
Proof.
  intros history.
  destruct (@rating posix history ["ann"; "bob"] false false) as [p|e]
    eqn:Hrun; [|vm_compute in Hrun; discriminate].
  pose proof (@rating_legend_shows_last posix history ["ann"; "bob"]
                false false p Hrun) as Hlegend.
  assert (Hp : Ok p = @rating posix history ["ann"; "bob"] false false)
    by done.
  rewrite (@rating_run posix history ["ann"; "bob"] false false) in Hp
    by (left; discriminate).
  injection Hp as Hp.
  eexists p, _, _. split; [reflexivity|].
  split; [rewrite Hp at 1; reflexivity|].
  split; [reflexivity|]. split; [reflexivity|]. split.
  - rewrite (Hlegend 0%nat "ann" _ eq_refl
               ltac:(rewrite Hp at 1; reflexivity)).
    reflexivity.
  - rewrite (Hlegend 1%nat "bob" _ eq_refl
               ltac:(rewrite Hp at 1; reflexivity)).
    reflexivity.
Defined.

(** X22. With [+peak] every line of [rating] only climbs: its ratings are
    taken from the rating changes of its user, in their order, and never
    decrease, so the last point of a line is its highest. *)
Theorem rating_peak_lines_climb `{DateTime}
    (rating_changes_of : string -> list cf.RatingChange)
    (handles : list string) (zoom : bool) (p : RatingPlot) :
  rating rating_changes_of handles zoom true = Ok p ->
  forall (i : nat) (h : string) (line : Line),
    handles !! i = Some h ->
    rating_lines p !! i = Some line ->
    line_y line `sublist_of` (cf.newRating <$> rating_changes_of h) /\
    StronglySorted Z.le (line_y line) /\
    forall top, last (line_y line) = Some top ->
      Forall (fun y => y <= top) (line_y line).
Proof.
  intros Hrun i h line Hh Hline.
  rewrite (rating_run _ _ _ _ (rating_ok_rated _ _ _ _ _ Hrun)) in Hrun.
  injection Hrun as <-. cbn [rating_lines] in Hline.
  apply list_lookup_fmap_Some_1 in Hline as (l & -> & Hl).
  rewrite !list_lookup_fmap, Hh in Hl. injection Hl as <-.
  cbn [line_y]. rewrite max_prefix_scan.
  assert (Hsorted : StronglySorted Z.le
            (cf.newRating <$> peak_prefix_scan 0 (rating_changes_of h)))
    by apply peak_prefix_scan_sorted.
  split; [apply fmap_sublist, peak_prefix_scan_sublist|].
  split; [done|].
  intros top [l' Hl']%last_Some. rewrite Hl' in Hsorted |- *.
  apply Forall_app. split; [|by repeat constructor].
  apply Forall_forall. intros y Hy.
  by apply (StronglySorted_app_1_elem_of _ _ _ y top) in Hsorted;
    [|done|left].
Qed.

Lemma rating_peak_lines_climb_witness :
  let history (h : string) :=
    if decide (h = "ann")
    then [change 1 0 1400; change 2 1400 1600; change 3 1600 1550]
    else [] in
  exists (p : @RatingPlot posix) (line : @Line posix),
    @rating posix history ["ann"] false true = Ok p /\
    rating_lines p !! 0%nat = Some line /\
    line_y line `sublist_of` [1400; 1600; 1550] /\
    StronglySorted Z.le (line_y line) /\
    forall top, last (line_y line) = Some top ->
      Forall (fun y => y <= top) (line_y line).
Proof.
  intros history.
  destruct (@rating posix history ["ann"] false true) as [p|e]
    eqn:Hrun; [|vm_compute in Hrun; discriminate].
  destruct (rating_lines p !! 0%nat) as [line|] eqn:Hline.
  - exists p, line. split; [reflexivity|]. split; [exact Hline|].
    exact (@rating_peak_lines_climb posix history ["ann"] false p Hrun
             0%nat "ann" line eq_refl Hline).
  - exfalso.
    rewrite (@rating_run posix history ["ann"] false true) in Hrun
      by (left; discriminate).
    injection Hrun as <-. discriminate.
Defined.

(** ** Scatter plot *)

Lemma classify_submissions_unknown (PARTICIPANT_TYPES : list string)
    (submissions : list cf.Submission) :
  Exists (fun s => cf.participantType (cf.author s) ∉ PARTICIPANT_TYPES)
         submissions ->
  _classify_submissions PARTICIPANT_TYPES submissions = Raise KeyError.
Proof.
  intros Hunknown. unfold _classify_submissions.
  apply classify_loop_unknown.
  eapply Exists_impl; [exact Hunknown|]. intros s Hs. cbn beta.
  rewrite classify_init_lookup. by rewrite decide_False.
Qed.

Lemma plot_average_total `{DateTime} (practice : list (datetime * Z))
    (bin_size : Z) (label : string) :
  1 <= bin_size ->
  exists plots, _plot_average practice bin_size label = Ok plots.
Proof.
  intros Hw. destruct (decide (len practice <= bin_size)) as [Hle|Hgt].
  - exists []. unfold _plot_average.
    destruct (Z.gtb_spec (len practice) bin_size); [lia|done].
  - eexists. apply plot_average_sliding. lia.
Qed.

Lemma any_true {A} (l : list A) :
  any ((fun _ => true) <$> l) = truthy l.
Proof. by destruct l. Qed.

(** The legend of [scatter] against the series that [_plot_scatter]
    draws. *)
Lemma plot_scatter_labels `{DateTime}
    (regular practice virtual : list (datetime * Z)) (point_size : Z) :
  let points := _plot_scatter regular practice virtual point_size in
  let labels :=
    (if truthy practice then ["Practice"] else [])
    ++ (if truthy regular then ["Regular"] else [])
    ++ (if truthy virtual then ["Virtual"] else []) in
  length labels = length points /\
  forall (i : nat) (label : string) (series : ScatterSeries),
    labels !! i = Some label -> points !! i = Some series ->
    scatter_s series = point_size /\
    exists contest,
      (label, contest) ∈ [("Practice", practice); ("Regular", regular);
                           ("Virtual", virtual)] /\
      contest <> [] /\
      scatter_x series = contest.*1 /\ scatter_y series = contest.*2.
Proof.
  unfold _plot_scatter.
  destruct practice as [|p0 practice'], regular as [|r0 regular'],
    virtual as [|v0 virtual'];
    (split; [reflexivity|]);
    intros [|[|[|i]]] label series Hlabel Hseries;
    try discriminate Hlabel;
    injection Hlabel as <-; injection Hseries as <-;
    (split; [reflexivity|]);
    eexists;
    (split; [first [by left|right; by left|right; right; by left]|]);
    done.
Qed.

Section Scatter.

Context `{DateTime}.
Variable PARTICIPANT_TYPES : list string.
Variables bin_size point_size : Z.
Variable legend : bool.
Variable rating_changes : list cf.RatingChange.
Variable submissions : list cf.Submission.

Local Abbreviation by_type t :=
  (filter (fun s => cf.participantType (cf.author s) = t) submissions).
Local Abbreviation known :=
  (Forall (fun s => cf.participantType (cf.author s) ∈ PARTICIPANT_TYPES)
          submissions).
Local Abbreviation drawn_types :=
  ["CONTESTANT"; "OUT_OF_COMPETITION"; "PRACTICE"; "VIRTUAL"].
Local Abbreviation valid :=
  (1 <= bin_size /\ 1 <= point_size <= 100).

Lemma scatter_invalid :
  bin_size < 1 \/ point_size < 1 \/ 100 < point_size ->
  scatter PARTICIPANT_TYPES bin_size point_size legend rating_changes
          submissions
  = Raise GraphCogError.
Proof.
  intros Hbad. unfold scatter.
  destruct (Z.ltb_spec bin_size 1), (Z.ltb_spec point_size 1),
    (Z.gtb_spec point_size 100); try done; lia.
Qed.

Lemma scatter_enters :
  valid ->
  scatter PARTICIPANT_TYPES bin_size point_size legend rating_changes
          submissions
  = (if negb (truthy submissions) then Raise GraphCogError
     else
       solved_by_type ← _classify_submissions PARTICIPANT_TYPES submissions;
       contestant ← dict_getitem solved_by_type "CONTESTANT";
       out_of_competition ←
         dict_getitem solved_by_type "OUT_OF_COMPETITION";
       let regular :=
         extract_time_and_rating (contestant ++ out_of_competition) in
       practice ← dict_getitem solved_by_type "PRACTICE";
       let practice := extract_time_and_rating practice in
       virtual ← dict_getitem solved_by_type "VIRTUAL";
       let virtual := extract_time_and_rating virtual in
       average ← _plot_average practice bin_size "";
       Ok {| scatter_points :=
               _plot_scatter regular practice virtual point_size;
             scatter_legend :=
               if legend then
                 Some ((if truthy practice then ["Practice"] else [])
                       ++ (if truthy regular then ["Regular"] else [])
                       ++ (if truthy virtual then ["Virtual"] else []))
               else None;
             scatter_average := average;
             scatter_rating := _plot_rating [rating_changes] "" |}).
Proof.
  intros [Hbin Hpoint]. unfold scatter.
  destruct (Z.ltb_spec bin_size 1), (Z.ltb_spec point_size 1),
    (Z.gtb_spec point_size 100); try lia.
  cbn [orb]. by rewrite any_true.
Qed.

Lemma scatter_empty :
  valid -> submissions = [] ->
  scatter PARTICIPANT_TYPES bin_size point_size legend rating_changes
          submissions
  = Raise GraphCogError.
Proof. intros Hvalid Hnil. rewrite scatter_enters by done. by rewrite Hnil. Qed.

Lemma scatter_unknown_type :
  valid -> submissions <> [] ->
  Exists (fun s => cf.participantType (cf.author s) ∉ PARTICIPANT_TYPES)
         submissions ->
  scatter PARTICIPANT_TYPES bin_size point_size legend rating_changes
          submissions
  = Raise KeyError.
Proof.
  intros Hvalid Hne Hunknown. rewrite scatter_enters by done.
  destruct submissions; [done|]. cbn [truthy negb].
  by rewrite classify_submissions_unknown.
Qed.

Lemma scatter_missing_type :
  valid -> submissions <> [] -> known ->
  Exists (fun t => t ∉ PARTICIPANT_TYPES) drawn_types ->
  scatter PARTICIPANT_TYPES bin_size point_size legend rating_changes
          submissions
  = Raise KeyError.
Proof.
  intros Hvalid Hne Hknown Hmissing. rewrite scatter_enters by done.
  destruct (classify_submissions_known _ _ Hknown) as (m & -> & Hm).
  destruct submissions as [|s0 l]; [done|]. cbn [truthy negb].
  cbn [mbind result_bind]. unfold dict_getitem. rewrite !Hm.
  destruct (decide ("CONTESTANT" ∈ PARTICIPANT_TYPES)) as [Hc|]; [|done].
  cbn [mbind result_bind].
  destruct (decide ("OUT_OF_COMPETITION" ∈ PARTICIPANT_TYPES)) as [Ho|];
    [|done].
  cbn [mbind result_bind].
  destruct (decide ("PRACTICE" ∈ PARTICIPANT_TYPES)) as [Hp|]; [|done].
  cbn [mbind result_bind].
  destruct (decide ("VIRTUAL" ∈ PARTICIPANT_TYPES)) as [Hv|]; [|done].
  exfalso. rewrite !Exists_cons, Exists_nil in Hmissing. tauto.
Qed.

Lemma scatter_run :
  valid -> submissions <> [] -> known ->
  Forall (fun t => t ∈ PARTICIPANT_TYPES) drawn_types ->
  let regular :=
    extract_time_and_rating
      (by_type "CONTESTANT" ++ by_type "OUT_OF_COMPETITION") in
  let practice := extract_time_and_rating (by_type "PRACTICE") in
  let virtual := extract_time_and_rating (by_type "VIRTUAL") in
  exists average,
    _plot_average practice bin_size "" = Ok average /\
    scatter PARTICIPANT_TYPES bin_size point_size legend rating_changes
            submissions
    = Ok {| scatter_points :=
              _plot_scatter regular practice virtual point_size;
            scatter_legend :=
              if legend then
                Some ((if truthy practice then ["Practice"] else [])
                      ++ (if truthy regular then ["Regular"] else [])
                      ++ (if truthy virtual then ["Virtual"] else []))
              else None;
            scatter_average := average;
            scatter_rating := _plot_rating [rating_changes] "" |}.
Proof.
  intros Hvalid Hne Hknown Hdrawn regular practice virtual.
  destruct (plot_average_total practice bin_size "" (proj1 Hvalid))
    as [average Haverage].
  exists average. split; [exact Haverage|].
  rewrite scatter_enters by done.
  destruct (classify_submissions_known _ _ Hknown) as (m & -> & Hm).
  rewrite !Forall_cons in Hdrawn.
  destruct Hdrawn as (Hc & Ho & Hp & Hv & _).
  assert (Htruthy : truthy submissions = true) by (by destruct submissions).
  rewrite Htruthy. cbn [negb mbind result_bind].
  unfold dict_getitem. rewrite !Hm, !decide_True by done.
  cbn [mbind result_bind]. fold regular practice virtual.
  by rewrite Haverage.
Qed.

(** What a successful run of [scatter] says about its arguments. *)
Lemma scatter_ok_inv (p : ScatterPlot) :
  scatter PARTICIPANT_TYPES bin_size point_size legend rating_changes
          submissions
  = Ok p ->
  valid /\ submissions <> [] /\ known /\
  Forall (fun t => t ∈ PARTICIPANT_TYPES) drawn_types.
Proof.
  intros Hrun.
  assert (Hvalid : valid).
  { destruct (decide (bin_size < 1 \/ point_size < 1 \/ 100 < point_size))
      as [Hbad|Hok]; [by rewrite scatter_invalid in Hrun|lia]. }
  assert (Hne : submissions <> [])
    by (intros Hnil; by rewrite scatter_empty in Hrun).
  assert (Hknown : known).
  { destruct (decide known) as [Hknown|Hunknown]; [done|].
    apply not_Forall_Exists in Hunknown; [|apply _].
    by rewrite scatter_unknown_type in Hrun. }
  split; [done|]. split; [done|]. split; [done|].
  destruct (decide (Forall (fun t => t ∈ PARTICIPANT_TYPES) drawn_types))
    as [Hdrawn|Hmissing]; [done|].
  apply not_Forall_Exists in Hmissing; [|apply _].
  by rewrite scatter_missing_type in Hrun.
Qed.

End Scatter.

(** The points of the series that [_plot_scatter] draws, in the order
    drawn. *)
Lemma plot_scatter_points `{DateTime}
    (regular practice virtual : list (datetime * Z)) (point_size : Z) :
  concat ((fun series => zip (scatter_x series) (scatter_y series))
            <$> _plot_scatter regular practice virtual point_size)
  = practice ++ regular ++ virtual.
Proof.
  assert (Hone : forall contest : list (datetime * Z),
    concat ((fun series => zip (scatter_x series) (scatter_y series))
              <$> (if truthy contest
                   then [ {| scatter_x := contest.*1;
                             scatter_y := contest.*2;
                             scatter_s := point_size |} ]
                   else []))
    = contest).
  { intros [|c contest]; [done|].
    change (concat [zip ((c :: contest).*1) ((c :: contest).*2)]
            = c :: contest).
    cbn [concat]. by rewrite zip_fst_snd, app_nil_r. }
  unfold _plot_scatter. cbn [mbind list_bind].
  rewrite !fmap_app, !concat_app, !Hone. cbn [fmap list_fmap concat].
  by rewrite app_nil_r.
Qed.

(** X23. The outcomes of [scatter].  A bin size below 1 or a point size
    outside 1..100 raises [GraphCogError], and so does an empty list of
    submissions.  With valid sizes and some submission, a submission whose
    participant type the table lacks, or a table that lacks the contestant
    or the out-of-competition type, raises [KeyError].  Whenever the
    command returns a plot, the sizes are valid, there is a submission,
    every submission has a participant type of the table and the table has
    the four types that are drawn. *)
Theorem scatter_outcome `{DateTime} (PARTICIPANT_TYPES : list string)
    (bin_size point_size : Z) (legend : bool)
    (rating_changes : list cf.RatingChange)
    (submissions : list cf.Submission) :
  (bin_size < 1 \/ point_size < 1 \/ 100 < point_size ->
   scatter PARTICIPANT_TYPES bin_size point_size legend rating_changes
           submissions = Raise GraphCogError) /\
  (1 <= bin_size /\ 1 <= point_size <= 100 ->
   (submissions = [] ->
    scatter PARTICIPANT_TYPES bin_size point_size legend rating_changes
            submissions = Raise GraphCogError) /\
   (submissions <> [] ->
    Exists (fun s => cf.participantType (cf.author s) ∉ PARTICIPANT_TYPES)
           submissions \/
    "CONTESTANT" ∉ PARTICIPANT_TYPES \/
    "OUT_OF_COMPETITION" ∉ PARTICIPANT_TYPES ->
    scatter PARTICIPANT_TYPES bin_size point_size legend rating_changes
            submissions = Raise KeyError)) /\
  (forall p,
     scatter PARTICIPANT_TYPES bin_size point_size legend rating_changes
             submissions = Ok p ->
     (1 <= bin_size /\ 1 <= point_size <= 100) /\
     submissions <> [] /\
     Forall (fun s => cf.participantType (cf.author s) ∈ PARTICIPANT_TYPES)
            submissions /\
     Forall (fun t => t ∈ PARTICIPANT_TYPES)
            ["CONTESTANT"; "OUT_OF_COMPETITION"; "PRACTICE"; "VIRTUAL"]).
Proof.
  split; [apply scatter_invalid|]. split.
  - intros Hvalid. split; [by apply scatter_empty|].
    intros Hne [Hunknown|Hmissing]; [by apply scatter_unknown_type|].
    destruct (decide (Forall (fun s => cf.participantType (cf.author s)
                                       ∈ PARTICIPANT_TYPES) submissions))
      as [Hknown|Hunknown].
    + apply scatter_missing_type; [done|done|done|].
      destruct Hmissing as [Hc|Ho]; [by left|right; by left].
    + apply not_Forall_Exists in Hunknown; [|apply _].
      by apply scatter_unknown_type.
  - intros p Hrun. exact (scatter_ok_inv _ _ _ _ _ _ p Hrun).
Qed.

Lemma scatter_outcome_witness :
  let submissions := [submission 1 "PRACTICE" 800; submission 2 "VIRTUAL" 1200;
                      submission 3 "CONTESTANT" 900] in
  @scatter posix PARTICIPANT_TYPES_of_spec 0 3 true [] submissions
  = Raise GraphCogError /\
  @scatter posix PARTICIPANT_TYPES_of_spec 10 3 true [] []
  = Raise GraphCogError /\
  @scatter posix ["PRACTICE"; "VIRTUAL"] 10 3 true [] submissions
  = Raise KeyError /\
  exists p,
    @scatter posix PARTICIPANT_TYPES_of_spec 10 3 true [] submissions
    = Ok p /\
    (1 <= 10 /\ 1 <= 3 <= 100) /\
    submissions <> [] /\
    Forall (fun s => cf.participantType (cf.author s)
                     ∈ PARTICIPANT_TYPES_of_spec) submissions /\
    Forall (fun t => t ∈ PARTICIPANT_TYPES_of_spec)
           ["CONTESTANT"; "OUT_OF_COMPETITION"; "PRACTICE"; "VIRTUAL"].
Proof.
  intros submissions.
  assert (Hvalid : 1 <= 10 /\ 1 <= 3 <= 100) by lia.
  assert (Hne : submissions <> []) by discriminate.
  destruct (@scatter_outcome posix PARTICIPANT_TYPES_of_spec 0 3 true []
              submissions) as [Hbad _].
  destruct (@scatter_outcome posix PARTICIPANT_TYPES_of_spec 10 3 true []
              []) as (_ & Hnone & _).
  destruct (@scatter_outcome posix PARTICIPANT_TYPES_of_spec 10 3 true []
              submissions) as (_ & _ & Hsome).
  destruct (@scatter_outcome posix ["PRACTICE"; "VIRTUAL"] 10 3 true []
              submissions) as (_ & Hmissing & _).
  split; [|split; [|split]].
  - apply Hbad. left. lia.
  - by apply Hnone.
  - apply (proj2 (Hmissing Hvalid) Hne).
    left. apply (bool_decide_unpack _). vm_compute. reflexivity.
  - destruct (@scatter posix PARTICIPANT_TYPES_of_spec 10 3 true []
                submissions) as [p|e] eqn:Hrun;
      [|vm_compute in Hrun; discriminate].
    exists p. split; [reflexivity|]. exact (Hsome p eq_refl).
Defined.

(** X24. The legend of [scatter] names the series in the order they are
    drawn: whenever the command succeeds with a legend, there are as many
    entries as scatter series, and entry [i] is [Practice], [Regular] or
    [Virtual], series [i] then holding the points (time and problem
    rating) of the practice submissions, of the contestant submissions
    followed by the out-of-competition ones, or of the virtual ones; no
    empty series is drawn or named. *)
Theorem scatter_legend_matches `{DateTime} (PARTICIPANT_TYPES : list string)
    (bin_size point_size : Z) (rating_changes : list cf.RatingChange)
    (submissions : list cf.Submission) (p : ScatterPlot) :
  scatter PARTICIPANT_TYPES bin_size point_size true rating_changes
          submissions = Ok p ->
  let by_type t :=
    filter (fun s => cf.participantType (cf.author s) = t) submissions in
  exists labels,
    scatter_legend p = Some labels /\
    length labels = length (scatter_points p) /\
    forall (i : nat) (label : string) (series : ScatterSeries),
      labels !! i = Some label -> scatter_points p !! i = Some series ->
      scatter_s series = point_size /\
      exists shown,
        (label, shown)
          ∈ [("Practice", by_type "PRACTICE");
             ("Regular",
              by_type "CONTESTANT" ++ by_type "OUT_OF_COMPETITION");
             ("Virtual", by_type "VIRTUAL")] /\
        shown <> [] /\
        zip (scatter_x series) (scatter_y series)
        = extract_time_and_rating shown.
Proof.
  intros Hrun by_type.
  destruct (scatter_ok_inv _ _ _ _ _ _ _ Hrun)
    as (Hvalid & Hne & Hknown & Hdrawn).
  destruct (scatter_run PARTICIPANT_TYPES bin_size point_size true
              rating_changes submissions Hvalid Hne Hknown Hdrawn)
    as (average & _ & Hrun').
  rewrite Hrun in Hrun'. injection Hrun' as ->.
  cbn [scatter_legend scatter_points]. fold by_type.
  set (regular := extract_time_and_rating
                    (by_type "CONTESTANT" ++ by_type "OUT_OF_COMPETITION")).
  set (practice := extract_time_and_rating (by_type "PRACTICE")).
  set (virtual := extract_time_and_rating (by_type "VIRTUAL")).
  destruct (plot_scatter_labels regular practice virtual point_size)
    as [Hlen Hlabels].
  eexists. split; [reflexivity|]. split; [exact Hlen|].
  intros i label series Hlabel Hseries.
  destruct (Hlabels i label series Hlabel Hseries)
    as (Hs & contest & Hin & Hcontest & Hx & Hy).
  split; [exact Hs|]. rewrite Hx, Hy, zip_fst_snd.
  rewrite !elem_of_cons, elem_of_nil in Hin.
  destruct Hin as [[= -> ->]|[[= -> ->]|[[= -> ->]|[]]]];
    eexists;
    (split; [first [by left|right; by left|right; right; by left]|]);
    (split; [|reflexivity]);
    intros Hnil; apply Hcontest;
    unfold practice, regular, virtual; by rewrite Hnil.
Qed.

Lemma scatter_legend_matches_witness :
  let submissions := [submission 1 "PRACTICE" 800; submission 2 "VIRTUAL" 1200;
                      submission 3 "PRACTICE" 900] in
  exists (p : @ScatterPlot posix) (practice virtual : @ScatterSeries posix),
    @scatter posix PARTICIPANT_TYPES_of_spec 10 3 true [] submissions = Ok p /\
    scatter_legend p = Some ["Practice"; "Virtual"] /\
    scatter_points p = [practice; virtual] /\
    scatter_y practice = [800; 900] /\ scatter_y virtual = [1200] /\
    exists labels,
      scatter_legend p = Some labels /\
      length labels = length (scatter_points p).
Proof.
  intros submissions.
  destruct (@scatter posix PARTICIPANT_TYPES_of_spec 10 3 true []
              submissions) as [p|e] eqn:Hrun;
    [|vm_compute in Hrun; discriminate].
  destruct (@scatter_legend_matches posix PARTICIPANT_TYPES_of_spec 10 3 []
              submissions p Hrun) as (labels & Hlegend & Hlen & _).
  assert (Hp : Ok p = @scatter posix PARTICIPANT_TYPES_of_spec 10 3 true []
                        submissions) by done.
  vm_compute in Hp. injection Hp as Hp.
  eexists p, _, _. split; [reflexivity|].
  split; [rewrite Hp at 1; reflexivity|].
  split; [rewrite Hp at 1; reflexivity|].
  split; [reflexivity|]. split; [reflexivity|].
  exists labels. split; [exact Hlegend|exact Hlen].
Defined.

(** X25. [scatter] draws every submission of the four drawn types once and
    nothing else: whenever it succeeds, the points of its scatter series
    are, up to order, the (time, problem rating) pairs of the submissions
    whose participant type is practice, contestant, out of competition or
    virtual.  A submission of another type of the table is not drawn. *)
Theorem scatter_draws_every_submission `{DateTime}
    (PARTICIPANT_TYPES : list string) (bin_size point_size : Z)
    (legend : bool) (rating_changes : list cf.RatingChange)
    (submissions : list cf.Submission) (p : ScatterPlot) :
  scatter PARTICIPANT_TYPES bin_size point_size legend rating_changes
          submissions = Ok p ->
  concat ((fun series => zip (scatter_x series) (scatter_y series))
            <$> scatter_points p)
  ≡ₚ extract_time_and_rating
       (filter (fun s => cf.participantType (cf.author s)
                         ∈ ["PRACTICE"; "CONTESTANT"; "OUT_OF_COMPETITION";
                            "VIRTUAL"]) submissions).
Proof.
  intros Hrun.
  destruct (scatter_ok_inv _ _ _ _ _ _ _ Hrun)
    as (Hvalid & Hne & Hknown & Hdrawn).
  destruct (scatter_run PARTICIPANT_TYPES bin_size point_size legend
              rating_changes submissions Hvalid Hne Hknown Hdrawn)
    as (average & _ & Hrun').
  rewrite Hrun in Hrun'. injection Hrun' as ->.
  cbn [scatter_points]. rewrite plot_scatter_points.
  unfold extract_time_and_rating. rewrite <- !fmap_app.
  apply fmap_Permutation.
  rewrite <- (concat_filter_by_key
    (fun s => cf.participantType (cf.author s))
    ["PRACTICE"; "CONTESTANT"; "OUT_OF_COMPETITION"; "VIRTUAL"]
    submissions)
    by (apply (bool_decide_unpack _); vm_compute; reflexivity).
  cbn [fmap list_fmap concat]. by rewrite app_nil_r, <- !app_assoc.
Qed.

Lemma scatter_draws_every_submission_witness :
  let submissions := [submission 1 "PRACTICE" 800; submission 2 "VIRTUAL" 1200;
                      submission 3 "MANAGER" 900] in
  let types := PARTICIPANT_TYPES_of_spec ++ ["MANAGER"] in
  exists p : @ScatterPlot posix,
    @scatter posix types 10 3 true [] submissions = Ok p /\
    concat ((fun series : @ScatterSeries posix =>
               zip (scatter_x series) (scatter_y series))
              <$> scatter_points p)
    ≡ₚ [(Qc_of_Z 1, 800); (Qc_of_Z 2, 1200)].
Proof.
  intros submissions types.
  destruct (@scatter posix types 10 3 true [] submissions) as [p|e] eqn:Hrun;
    [|vm_compute in Hrun; discriminate].
  exists p. split; [reflexivity|].
  exact (@scatter_draws_every_submission posix types 10 3 true []
           submissions p Hrun).
Defined.

(** ** Histogram of solved problems *)

Lemma comprehension_lookup {A B} (f : A -> result B) (xs : list A)
    (ys : list B) :
  comprehension f xs = Ok ys ->
  forall (i : nat) (x : A), xs !! i = Some x ->
    exists y, ys !! i = Some y /\ f x = Ok y.
Proof.
  revert ys. induction xs as [|x0 xs IH]; intros ys Hrun i x Hx;
    [done|].
  cbn [comprehension] in Hrun.
  destruct (f x0) as [y0|] eqn:Hy0; [|done]. cbn [mbind result_bind] in Hrun.
  destruct (comprehension f xs) as [ys'|]; [|done].
  cbn [mbind result_bind] in Hrun. injection Hrun as <-.
  destruct i as [|i].
  - injection Hx as <-. by exists y0.
  - by apply (IH ys').
Qed.

Lemma comprehension_total {A B} (f : A -> result B) (xs : list A) :
  Forall (fun x => exists y, f x = Ok y) xs ->
  exists ys, comprehension f xs = Ok ys.
Proof.
  induction 1 as [|x xs [y Hy] _ [ys IH]]; [by exists []|].
  exists (y :: ys). cbn [comprehension]. by rewrite Hy, IH.
Qed.

Lemma append_nil_r (s : string) : s +:+ "" = s.
Proof.
  induction s as [|c s IH]; [done|].
  change (String c s +:+ "") with (String c (s +:+ "")). by rewrite IH.
Qed.

(** The entries of [nice_map]. *)
Lemma nice_map_lookup (t : string) :
  nice_map !! t
  = if decide (t = "CONTESTANT") then Some "Contest: {}"
    else if decide (t = "OUT_OF_COMPETITION") then Some "Unofficial: {}"
    else if decide (t = "VIRTUAL") then Some "Virtual: {}"
    else if decide (t = "PRACTICE") then Some "Practice: {}"
    else None.
Proof.
  unfold nice_map. rewrite !list_to_map_cons, list_to_map_nil.
  repeat (case_decide;
          [subst t; by rewrite lookup_insert_eq|
           rewrite lookup_insert_ne by done]).
  apply lookup_empty.
Qed.

Lemma nice_map_known (t : string) :
  is_Some (nice_map !! t)
  <-> t ∈ ["CONTESTANT"; "OUT_OF_COMPETITION"; "VIRTUAL"; "PRACTICE"].
Proof.
  rewrite nice_map_lookup, !elem_of_cons, elem_of_nil.
  repeat case_decide; split; intros Hin;
    try (by eexists); try tauto; by destruct Hin.
Qed.

(** Every template of [nice_map] is a prefix followed by one field, and
    formatting it with one argument puts the argument after the prefix. *)
Lemma nice_map_format (t template n : string) :
  nice_map !! t = Some template ->
  exists prefix,
    template = prefix +:+ "{}" /\
    str_format template [n] = Ok (prefix +:+ n).
Proof.
  rewrite nice_map_lookup.
  repeat case_decide; intros [= <-].
  - exists "Contest: ". split; [done|].
    cbn. by rewrite append_nil_r.
  - exists "Unofficial: ". split; [done|].
    cbn. by rewrite append_nil_r.
  - exists "Virtual: ". split; [done|].
    cbn. by rewrite append_nil_r.
  - exists "Practice: ". split; [done|].
    cbn. by rewrite append_nil_r.
Qed.

Lemma range_step_up (start stop step : Z) :
  0 < step -> start < stop ->
  range_step start stop step
  = Ok ((fun k => start + k * step)
          <$> seqZ 0 ((stop - start - 1) / step + 1)).
Proof.
  intros Hstep Hlt. unfold range_step.
  destruct (Z.eqb_spec step 0); [lia|].
  destruct (Z.ltb_spec 0 step); [|lia].
  by destruct (Z.ltb_spec start stop); [|lia].
Qed.

(** The bin edges of [solved]: half a step below [rlo], then step by step
    up to half a step above [rhi]. *)
Lemma solved_hist_bins (rlo rhi step : Z) :
  0 < step -> step mod 2 = 0 -> rlo <= rhi ->
  range_step (rlo - step / 2) (rhi + step / 2 + 1) step
  = Ok ((fun k => rlo - step / 2 + k * step)
          <$> seqZ 0 ((rhi - rlo) / step + 2)).
Proof.
  intros Hstep Heven Hle.
  assert (Hhalf : step = 2 * (step / 2))
    by (rewrite (Z.div_mod step 2) at 1 by lia; lia).
  rewrite range_step_up by lia. do 3 f_equal.
  replace (rhi + step / 2 + 1 - (rlo - step / 2) - 1)
    with (rhi - rlo + 1 * step) by lia.
  rewrite Z.div_add by lia. lia.
Qed.

Lemma comprehension_lookup_inv {A B} (f : A -> result B) (xs : list A)
    (ys : list B) :
  comprehension f xs = Ok ys ->
  forall (i : nat) (y : B), ys !! i = Some y ->
    exists x, xs !! i = Some x /\ f x = Ok y.
Proof.
  intros Hrun i y Hy.
  destruct (lookup_lt_is_Some_2 xs i) as [x Hx].
  { rewrite <- (comprehension_length f xs ys Hrun).
    by eapply lookup_lt_Some. }
  destruct (comprehension_lookup f xs ys Hrun i x Hx) as (y' & Hy' & Hfx).
  exists x. split; [done|]. congruence.
Qed.

Section Solved.

Variable PARTICIPANT_TYPES : list string.
Variable solved_subs_of : string -> list cf.Submission.
Variables handles types : list string.
Variables rlo rhi : Z.

Local Abbreviation problem_rating :=
  (fun sub : cf.Submission => cf.rating (cf.problem sub)).

Lemma solved_none :
  Forall (fun h => solved_subs_of h = []) handles ->
  solved PARTICIPANT_TYPES solved_subs_of handles types rlo rhi
  = Raise GraphCogError.
Proof.
  intros Hnone. unfold solved.
  assert (Hany : any (truthy <$> (solved_subs_of <$> handles)) = false).
  { apply any_truthy_false. by apply Forall_fmap. }
  by rewrite Hany.
Qed.

(** Several handles: one series and one legend entry per handle. *)
Lemma solved_many :
  len handles <> 1 ->
  Exists (fun h => solved_subs_of h <> []) handles ->
  let step := if rhi - rlo >? 3000 / len handles then 200 else 100 in
  exists hist_bins,
    range_step (rlo - step / 2) (rhi + step / 2 + 1) step = Ok hist_bins /\
    solved PARTICIPANT_TYPES solved_subs_of handles types rlo rhi
    = Ok {| solved_all_ratings :=
              (fun h => problem_rating <$> solved_subs_of h) <$> handles;
            solved_stacked := false;
            solved_bins := hist_bins;
            solved_labels :=
              (fun h => h +:+ ": " +:+ pretty (len (solved_subs_of h)))
                <$> handles;
            solved_title := None |}.
Proof.
  intros Hmany Hsome step.
  destruct (range_step_ok (rlo - step / 2) (rhi + step / 2 + 1) step)
    as [hist_bins Hbins]; [unfold step; by case_match|].
  exists hist_bins. split; [exact Hbins|].
  unfold solved.
  assert (Hany : any (truthy <$> (solved_subs_of <$> handles)) = true).
  { apply any_truthy_true. by apply Exists_fmap. }
  rewrite Hany. cbn [negb].
  destruct (Z.eqb_spec (len handles) 1) as [|_]; [done|].
  rewrite floordiv_ok
    by (destruct handles; [by apply Exists_nil in Hsome|
                           unfold len; simpl; lia]).
  cbn [mbind result_bind]. fold step. rewrite Hbins.
  cbn [mbind result_bind]. do 2 f_equal.
  - by rewrite <- list_fmap_compose.
  - clear. induction handles as [|h hs IH]; [done|].
    rewrite !fmap_cons. cbn [zip zip_with]. rewrite fmap_cons, IH.
    unfold len. by rewrite length_fmap.
Qed.

(** One handle: the stages of the branch. *)
Lemma solved_one (handle : string) :
  handles = [handle] -> solved_subs_of handle <> [] ->
  solved PARTICIPANT_TYPES solved_subs_of handles types rlo rhi
  = (solved_by_type ←
       _classify_submissions PARTICIPANT_TYPES (solved_subs_of handle);
     all_ratings ← comprehension (fun sub_type =>
       dict_getitem solved_by_type sub_type
         ≫= fun subs : list cf.Submission =>
              Ok (problem_rating <$> subs)) types;
     nice_names ← nice_sub_type types;
     labels ← comprehension (fun '(name, ratings) =>
       str_format name [pretty (len ratings)]) (zip nice_names all_ratings);
     hist_bins ← range_step (rlo - 100 / 2) (rhi + 100 / 2 + 1) 100;
     Ok {| solved_all_ratings := all_ratings;
           solved_stacked := true;
           solved_bins := hist_bins;
           solved_labels := labels;
           solved_title :=
             Some (handle +:+ ": "
                     +:+ pretty (sum (len <$> all_ratings))) |}).
Proof.
  intros -> Hsome. unfold solved.
  change (solved_subs_of <$> [handle]) with [solved_subs_of handle].
  assert (Hany : any (truthy <$> [solved_subs_of handle]) = true)
    by (by destruct (solved_subs_of handle)).
  rewrite Hany. reflexivity.
Qed.

End Solved.

Lemma sum_len_concat {A} (ls : list (list A)) :
  sum (len <$> ls) = len (concat ls).
Proof.
  unfold sum, len. induction ls as [|l ls IH]; [done|].
  rewrite fmap_cons. cbn [foldr concat]. rewrite IH, length_app. lia.
Qed.

(** Every value [rlo + k * step] up to [rhi] is the middle of bin [k]. *)
Lemma hist_bins_centred (rlo rhi step : Z) (hist_bins : list Z) :
  0 < step -> step mod 2 = 0 -> rlo <= rhi ->
  range_step (rlo - step / 2) (rhi + step / 2 + 1) step = Ok hist_bins ->
  len hist_bins = (rhi - rlo) / step + 2 /\
  forall k, 0 <= k <= (rhi - rlo) / step ->
    hist_bins !! Z.to_nat k = Some (rlo + k * step - step / 2) /\
    hist_bins !! Z.to_nat (k + 1) = Some (rlo + k * step + step / 2).
Proof.
  intros Hstep Heven Hle Hbins.
  rewrite solved_hist_bins in Hbins by done. injection Hbins as <-.
  assert (Hdiv : 0 <= (rhi - rlo) / step) by (apply Z.div_pos; lia).
  assert (Hhalf : step = 2 * (step / 2))
    by (rewrite (Z.div_mod step 2) at 1 by lia; lia).
  split; [unfold len; rewrite length_fmap, length_seqZ; lia|].
  intros k Hk. rewrite !list_lookup_fmap.
  rewrite !lookup_seqZ_lt by lia. cbn [fmap option_fmap option_map].
  split; f_equal; lia.
Qed.

Section SolvedOne.

Variable PARTICIPANT_TYPES : list string.
Variable solved_subs_of : string -> list cf.Submission.
Variable handle : string.
Variable types : list string.
Variables rlo rhi : Z.

Local Abbreviation subs := (solved_subs_of handle).
Local Abbreviation by_type t :=
  (filter (fun s => cf.participantType (cf.author s) = t) subs).
Local Abbreviation problem_rating :=
  (fun sub : cf.Submission => cf.rating (cf.problem sub)).
Local Abbreviation known :=
  (Forall (fun s => cf.participantType (cf.author s) ∈ PARTICIPANT_TYPES)
          subs).
Local Abbreviation named :=
  ["CONTESTANT"; "OUT_OF_COMPETITION"; "VIRTUAL"; "PRACTICE"].

(** The ratings by type, when every type asked for is in the table. *)
Lemma solved_all_ratings_ok (m : gmap string (list cf.Submission)) :
  (forall t, m !! t
     = if decide (t ∈ PARTICIPANT_TYPES) then Some (by_type t) else None) ->
  Forall (fun t => t ∈ PARTICIPANT_TYPES) types ->
  comprehension (fun sub_type =>
    dict_getitem m sub_type
      ≫= fun subs : list cf.Submission => Ok (problem_rating <$> subs))
    types
  = Ok ((fun t => problem_rating <$> by_type t) <$> types).
Proof.
  intros Hm Htypes. apply comprehension_ok.
  eapply Forall_impl; [exact Htypes|]. intros t Ht. cbn beta.
  unfold dict_getitem. by rewrite Hm, decide_True.
Qed.

Lemma solved_all_ratings_raise (m : gmap string (list cf.Submission)) :
  (forall t, m !! t
     = if decide (t ∈ PARTICIPANT_TYPES) then Some (by_type t) else None) ->
  Exists (fun t => t ∉ PARTICIPANT_TYPES) types ->
  comprehension (fun sub_type =>
    dict_getitem m sub_type
      ≫= fun subs : list cf.Submission => Ok (problem_rating <$> subs))
    types
  = Raise KeyError.
Proof.
  intros Hm Hmissing. apply comprehension_raise.
  - apply Forall_forall. intros t _. unfold dict_getitem. rewrite Hm.
    case_decide; [right; by eexists|by left].
  - eapply Exists_impl; [exact Hmissing|]. intros t Ht. cbn beta.
    unfold dict_getitem. by rewrite Hm, decide_False.
Qed.

Lemma nice_sub_type_raise :
  Exists (fun t => t ∉ named) types ->
  nice_sub_type types = Raise KeyError.
Proof.
  intros Hmissing. apply comprehension_raise.
  - apply Forall_forall. intros t _. unfold dict_getitem.
    destruct (nice_map !! t); [right; by eexists|by left].
  - eapply Exists_impl; [exact Hmissing|]. intros t Ht. cbn beta.
    unfold dict_getitem. destruct (nice_map !! t) as [name|] eqn:Hname;
      [|done].
    exfalso. apply Ht, nice_map_known. by rewrite Hname.
Qed.

Lemma nice_sub_type_total :
  Forall (fun t => t ∈ named) types ->
  exists nice_names, nice_sub_type types = Ok nice_names.
Proof.
  intros Hnamed. apply comprehension_total.
  eapply Forall_impl; [exact Hnamed|]. intros t Ht. cbn beta.
  apply nice_map_known in Ht as [name Hname].
  exists name. unfold dict_getitem. by rewrite Hname.
Qed.

(** The label of a type: the prefix of its template, then the count. *)
Lemma solved_labels_lookup (nice_names labels : list string)
    (all_ratings : list (list Z)) :
  nice_sub_type types = Ok nice_names ->
  length all_ratings = length types ->
  comprehension (fun '(name, ratings) =>
    str_format name [pretty (len ratings)]) (zip nice_names all_ratings)
  = Ok labels ->
  forall (i : nat) (t : string) (ratings : list Z),
    types !! i = Some t -> all_ratings !! i = Some ratings ->
    exists prefix,
      nice_map !! t = Some (prefix +:+ "{}") /\
      labels !! i = Some (prefix +:+ pretty (len ratings)).
Proof.
  intros Hnames Hlen Hlabels i t ratings Ht Hratings.
  destruct (comprehension_lookup _ _ _ Hnames i t Ht)
    as (name & Hname & Hlookup).
  unfold dict_getitem in Hlookup.
  destruct (nice_map !! t) as [template|] eqn:Htemplate; [|done].
  injection Hlookup as ->.
  destruct (nice_map_format t name (pretty (len ratings)) Htemplate)
    as (prefix & -> & Hformat).
  assert (Hzip : zip nice_names all_ratings !! i
                 = Some (prefix +:+ "{}", ratings))
    by (by apply lookup_zip_Some).
  destruct (comprehension_lookup _ _ _ Hlabels i _ Hzip)
    as (label & Hlabel & Hrun).
  cbn beta iota in Hrun. rewrite Hformat in Hrun. injection Hrun as <-.
  by exists prefix.
Qed.

Lemma solved_labels_total (nice_names : list string)
    (all_ratings : list (list Z)) :
  nice_sub_type types = Ok nice_names ->
  exists labels,
    comprehension (fun '(name, ratings) =>
      str_format name [pretty (len ratings)]) (zip nice_names all_ratings)
    = Ok labels.
Proof.
  intros Hnames. apply comprehension_total, Forall_forall.
  intros [name ratings] Hin. apply elem_of_zip_l in Hin.
  apply list_elem_of_lookup in Hin as [i Hi].
  destruct (comprehension_lookup_inv _ _ _ Hnames i name Hi)
    as (t & _ & Hlookup).
  unfold dict_getitem in Hlookup.
  destruct (nice_map !! t) as [template|] eqn:Htemplate; [|done].
  injection Hlookup as ->.
  destruct (nice_map_format t name (pretty (len ratings)) Htemplate)
    as (prefix & _ & Hformat).
  eexists. exact Hformat.
Qed.

(** One handle, every type known and named: the result. *)
Lemma solved_one_run :
  subs <> [] -> known ->
  Forall (fun t => t ∈ PARTICIPANT_TYPES) types ->
  Forall (fun t => t ∈ named) types ->
  exists labels hist_bins,
    range_step (rlo - 100 / 2) (rhi + 100 / 2 + 1) 100 = Ok hist_bins /\
    length labels = length types /\
    (forall (i : nat) (t : string), types !! i = Some t ->
       exists prefix,
         nice_map !! t = Some (prefix +:+ "{}") /\
         labels !! i = Some (prefix +:+ pretty (len (by_type t)))) /\
    solved PARTICIPANT_TYPES solved_subs_of [handle] types rlo rhi
    = Ok {| solved_all_ratings :=
              (fun t => problem_rating <$> by_type t) <$> types;
            solved_stacked := true;
            solved_bins := hist_bins;
            solved_labels := labels;
            solved_title :=
              Some (handle +:+ ": "
                      +:+ pretty (len (concat ((fun t => by_type t)
                                                 <$> types)))) |}.
Proof.
  intros Hsome Hknown Htypes Hnamed.
  destruct (classify_submissions_known _ _ Hknown) as (m & Hm & Hlookup).
  destruct (nice_sub_type_total Hnamed) as [nice_names Hnames].
  destruct (solved_labels_total nice_names
              ((fun t => problem_rating <$> by_type t) <$> types) Hnames)
    as [labels Hlabels].
  destruct (range_step_ok (rlo - 100 / 2) (rhi + 100 / 2 + 1) 100)
    as [hist_bins Hbins]; [done|].
  exists labels, hist_bins. split; [exact Hbins|].
  split; [|split].
  - assert (Hlen := Hlabels). apply comprehension_length in Hlen.
    assert (Hlen' := Hnames). apply comprehension_length in Hlen'.
    rewrite Hlen, length_zip, Hlen', length_fmap. lia.
  - intros i t Ht.
    assert (Hlen : length ((fun t => problem_rating <$> by_type t) <$> types)
                   = length types) by apply length_fmap.
    assert (Hratings :
      ((fun t => problem_rating <$> by_type t) <$> types) !! i
      = Some (problem_rating <$> by_type t))
      by (by rewrite list_lookup_fmap, Ht).
    destruct (solved_labels_lookup nice_names labels _ Hnames Hlen Hlabels
                i t _ Ht Hratings)
      as (prefix & Hprefix & Hlabel).
    exists prefix. split; [done|]. rewrite Hlabel.
    unfold len. by rewrite length_fmap.
  - rewrite (solved_one _ _ _ _ _ _ handle eq_refl Hsome).
    rewrite Hm. cbn [mbind result_bind].
    rewrite (solved_all_ratings_ok m Hlookup Htypes).
    cbn [mbind result_bind]. rewrite Hnames. cbn [mbind result_bind].
    rewrite Hlabels. cbn [mbind result_bind]. rewrite Hbins.
    cbn [mbind result_bind].
    replace (sum (len <$> ((fun t => problem_rating <$> by_type t)
                             <$> types)))
      with (len (concat ((fun t => by_type t) <$> types))); [done|].
    rewrite <- sum_len_concat, <- !list_fmap_compose.
    apply (f_equal sum), list_fmap_ext. intros _ t _. cbn. unfold len.
    by rewrite length_fmap.
Qed.

End SolvedOne.

Section SolvedOneOutcome.

Variable PARTICIPANT_TYPES : list string.
Variable solved_subs_of : string -> list cf.Submission.
Variable handle : string.
Variable types : list string.
Variables rlo rhi : Z.

Local Abbreviation subs := (solved_subs_of handle).
Local Abbreviation named :=
  ["CONTESTANT"; "OUT_OF_COMPETITION"; "VIRTUAL"; "PRACTICE"].

Lemma solved_one_raise :
  subs <> [] ->
  Exists (fun s => cf.participantType (cf.author s) ∉ PARTICIPANT_TYPES)
         subs \/
  Exists (fun t => t ∉ PARTICIPANT_TYPES) types \/
  Exists (fun t => t ∉ named) types ->
  solved PARTICIPANT_TYPES solved_subs_of [handle] types rlo rhi
  = Raise KeyError.
Proof.
  intros Hsome Hbad.
  rewrite (solved_one _ _ _ _ _ _ handle eq_refl Hsome).
  destruct (decide (Forall (fun s => cf.participantType (cf.author s)
                                     ∈ PARTICIPANT_TYPES) subs))
    as [Hknown|Hunknown].
  2: { apply not_Forall_Exists in Hunknown; [|apply _].
       by rewrite classify_submissions_unknown. }
  destruct (classify_submissions_known _ _ Hknown) as (m & -> & Hlookup).
  cbn [mbind result_bind].
  destruct (decide (Forall (fun t => t ∈ PARTICIPANT_TYPES) types))
    as [Htypes|Hmissing].
  2: { apply not_Forall_Exists in Hmissing; [|apply _].
       by rewrite (solved_all_ratings_raise _ _ _ _ m Hlookup Hmissing). }
  rewrite (solved_all_ratings_ok _ _ _ _ m Hlookup Htypes).
  cbn [mbind result_bind].
  destruct Hbad as [Hunknown|[Hmissing|Hunnamed]].
  - exfalso. apply Exists_exists in Hunknown as (s & Hs & Hnot).
    rewrite Forall_forall in Hknown. by apply Hnot, Hknown.
  - exfalso. apply Exists_exists in Hmissing as (t & Ht & Hnot).
    rewrite Forall_forall in Htypes. by apply Hnot, Htypes.
  - by rewrite (nice_sub_type_raise _ Hunnamed).
Qed.

(** What a successful run of [solved] on one handle says about its
    arguments. *)
Lemma solved_one_ok_inv (r : Solved) :
  solved PARTICIPANT_TYPES solved_subs_of [handle] types rlo rhi = Ok r ->
  subs <> [] /\
  Forall (fun s => cf.participantType (cf.author s) ∈ PARTICIPANT_TYPES)
         subs /\
  Forall (fun t => t ∈ PARTICIPANT_TYPES) types /\
  Forall (fun t => t ∈ named) types.
Proof.
  intros Hrun.
  assert (Hsome : subs <> []).
  { intros Hnil. rewrite solved_none in Hrun; [done|].
    by repeat constructor. }
  split; [done|].
  destruct (decide (Forall (fun s => cf.participantType (cf.author s)
                                     ∈ PARTICIPANT_TYPES) subs))
    as [Hknown|Hunknown].
  2: { apply not_Forall_Exists in Hunknown; [|apply _].
       rewrite solved_one_raise in Hrun; [done|done|by left]. }
  destruct (decide (Forall (fun t => t ∈ PARTICIPANT_TYPES) types))
    as [Htypes|Hmissing].
  2: { apply not_Forall_Exists in Hmissing; [|apply _].
       rewrite solved_one_raise in Hrun; [done|done|right; by left]. }
  destruct (decide (Forall (fun t => t ∈ named) types))
    as [Hnamed|Hunnamed]; [done|].
  apply not_Forall_Exists in Hunnamed; [|apply _].
  rewrite solved_one_raise in Hrun; [done|done|right; by right].
Qed.

End SolvedOneOutcome.

Lemma solved_ok_some (PARTICIPANT_TYPES : list string)
    (solved_subs_of : string -> list cf.Submission)
    (handles types : list string) (rlo rhi : Z) (r : Solved) :
  solved PARTICIPANT_TYPES solved_subs_of handles types rlo rhi = Ok r ->
  Exists (fun h => solved_subs_of h <> []) handles.
Proof.
  intros Hrun.
  destruct (decide (Forall (fun h => solved_subs_of h = []) handles))
    as [Hnone|Hsome].
  - by rewrite solved_none in Hrun.
  - apply not_Forall_Exists in Hsome; [done|]. intros h.
    destruct (solved_subs_of h); [by left|by right].
Qed.

Lemma len_one {A} (l : list A) : len l = 1 -> exists x, l = [x].
Proof.
  unfold len. destruct l as [|x [|y l]]; simpl; intros Hlen; try lia.
  by exists x.
Qed.

(** X26. The outcomes of [solved].  When no handle has a solved problem it
    raises [GraphCogError].  With several handles, one of which has a
    solved problem, it succeeds.  With one handle that has solved
    problems it succeeds when every submission has a participant type of
    the table and every type asked for is in the table and has a display
    name; otherwise it raises [KeyError]. *)
Theorem solved_outcome (PARTICIPANT_TYPES : list string)
    (solved_subs_of : string -> list cf.Submission)
    (handles types : list string) (rlo rhi : Z) :
  (Forall (fun h => solved_subs_of h = []) handles ->
   solved PARTICIPANT_TYPES solved_subs_of handles types rlo rhi
   = Raise GraphCogError) /\
  (len handles <> 1 ->
   Exists (fun h => solved_subs_of h <> []) handles ->
   exists r,
     solved PARTICIPANT_TYPES solved_subs_of handles types rlo rhi = Ok r /\
     solved_stacked r = false /\
     length (solved_all_ratings r) = length handles /\
     length (solved_labels r) = length handles) /\
  (forall handle,
     handles = [handle] -> solved_subs_of handle <> [] ->
     let named := ["CONTESTANT"; "OUT_OF_COMPETITION"; "VIRTUAL";
                   "PRACTICE"] in
     (Forall (fun s => cf.participantType (cf.author s) ∈ PARTICIPANT_TYPES)
             (solved_subs_of handle) ->
      Forall (fun t => t ∈ PARTICIPANT_TYPES /\ t ∈ named) types ->
      exists r,
        solved PARTICIPANT_TYPES solved_subs_of handles types rlo rhi
        = Ok r /\
        solved_stacked r = true /\
        length (solved_all_ratings r) = length types /\
        length (solved_labels r) = length types) /\
     (Exists (fun s => cf.participantType (cf.author s) ∉ PARTICIPANT_TYPES)
             (solved_subs_of handle) \/
      Exists (fun t => t ∉ PARTICIPANT_TYPES \/ t ∉ named) types ->
      solved PARTICIPANT_TYPES solved_subs_of handles types rlo rhi
      = Raise KeyError)).
Proof.
  split; [apply solved_none|]. split.
  - intros Hmany Hsome.
    destruct (solved_many PARTICIPANT_TYPES solved_subs_of handles types
                rlo rhi Hmany Hsome) as (hist_bins & _ & Hrun).
    eexists. split; [exact Hrun|].
    cbn [solved_stacked solved_all_ratings solved_labels].
    by rewrite !length_fmap.
  - intros handle -> Hsome named. split.
    + intros Hknown Htypes.
      apply Forall_and in Htypes as [Htypes Hnamed].
      destruct (solved_one_run PARTICIPANT_TYPES solved_subs_of handle types
                  rlo rhi Hsome Hknown Htypes Hnamed)
        as (labels & hist_bins & _ & Hlen & _ & Hrun).
      eexists. split; [exact Hrun|].
      cbn [solved_stacked solved_all_ratings solved_labels].
      by rewrite length_fmap.
    + intros Hbad. apply solved_one_raise; [done|].
      destruct Hbad as [Hunknown|Hbad]; [by left|right].
      apply Exists_or_inv in Hbad. tauto.
Qed.

Lemma solved_outcome_witness :
  let subs_of (h : string) :=
    if decide (h = "ann")
    then [submission 1 "PRACTICE" 800; submission 2 "VIRTUAL" 1200;
          submission 3 "PRACTICE" 900]
    else [] in
  solved PARTICIPANT_TYPES_of_spec subs_of ["bob"] ["PRACTICE"] 800 1500
  = Raise GraphCogError /\
  (exists r, solved PARTICIPANT_TYPES_of_spec subs_of ["ann"; "bob"]
               ["PRACTICE"] 800 1500 = Ok r /\
             solved_stacked r = false /\
             length (solved_all_ratings r) = 2%nat /\
             length (solved_labels r) = 2%nat) /\
  (exists r, solved PARTICIPANT_TYPES_of_spec subs_of ["ann"]
               ["PRACTICE"; "VIRTUAL"] 800 1500 = Ok r /\
             solved_stacked r = true /\
             length (solved_all_ratings r) = 2%nat /\
             length (solved_labels r) = 2%nat) /\
  solved PARTICIPANT_TYPES_of_spec subs_of ["ann"] ["PRACTICE"; "TEAM"]
         800 1500
  = Raise KeyError.
Proof.
  intros subs_of.
  destruct (solved_outcome PARTICIPANT_TYPES_of_spec subs_of ["bob"]
              ["PRACTICE"] 800 1500) as [Hnone _].
  destruct (solved_outcome PARTICIPANT_TYPES_of_spec subs_of ["ann"; "bob"]
              ["PRACTICE"] 800 1500) as (_ & Hmany & _).
  destruct (solved_outcome PARTICIPANT_TYPES_of_spec subs_of ["ann"]
              ["PRACTICE"; "VIRTUAL"] 800 1500) as (_ & _ & Hone).
  destruct (solved_outcome PARTICIPANT_TYPES_of_spec subs_of ["ann"]
              ["PRACTICE"; "TEAM"] 800 1500) as (_ & _ & Hbad).
  assert (Hsome : subs_of "ann" <> []) by discriminate.
  split; [|split; [|split]].
  - apply Hnone. by repeat constructor.
  - apply Hmany; [discriminate|]. left. exact Hsome.
  - apply (proj1 (Hone "ann" eq_refl Hsome));
      apply (bool_decide_unpack _); vm_compute; reflexivity.
  - apply (proj2 (Hbad "ann" eq_refl Hsome)). right. right. left.
    left. apply (bool_decide_unpack _). vm_compute. reflexivity.
Defined.

(** X27. The bins of [solved] are centred on the ratings.  Whenever the
    command succeeds with [rlo <= rhi], the step is 100 for one handle and,
    for several, 200 when [rhi - rlo] exceeds 3000 divided by the number
    of handles and 100 otherwise; there are [(rhi - rlo) // step + 2] bin
    edges; and for every [k >= 0] with [rlo + k * step <= rhi], bin [k]
    runs from half a step below [rlo + k * step] to half a step above
    it. *)
Theorem solved_bins_centred (PARTICIPANT_TYPES : list string)
    (solved_subs_of : string -> list cf.Submission)
    (handles types : list string) (rlo rhi : Z) (r : Solved) :
  solved PARTICIPANT_TYPES solved_subs_of handles types rlo rhi = Ok r ->
  rlo <= rhi ->
  let step :=
    if len handles =? 1 then 100
    else if rhi - rlo >? 3000 / len handles then 200 else 100 in
  len (solved_bins r) = (rhi - rlo) / step + 2 /\
  forall k, 0 <= k <= (rhi - rlo) / step ->
    solved_bins r !! Z.to_nat k = Some (rlo + k * step - step / 2) /\
    solved_bins r !! Z.to_nat (k + 1) = Some (rlo + k * step + step / 2).
Proof.
  intros Hrun Hle step.
  destruct (Z.eqb_spec (len handles) 1) as [Hone|Hmany].
  - destruct (len_one handles Hone) as [handle ->].
    destruct (solved_one_ok_inv _ _ _ _ _ _ _ Hrun)
      as (Hsome & Hknown & Htypes & Hnamed).
    destruct (solved_one_run PARTICIPANT_TYPES solved_subs_of handle types
                rlo rhi Hsome Hknown Htypes Hnamed)
      as (labels & hist_bins & Hbins & _ & _ & Hrun').
    rewrite Hrun in Hrun'. injection Hrun' as ->. cbn [solved_bins].
    by apply hist_bins_centred.
  - destruct (solved_many PARTICIPANT_TYPES solved_subs_of handles types
                rlo rhi Hmany (solved_ok_some _ _ _ _ _ _ _ Hrun))
      as (hist_bins & Hbins & Hrun').
    rewrite Hrun in Hrun'. injection Hrun' as ->. cbn [solved_bins].
    apply hist_bins_centred; [by unfold step; case_match|
                              by unfold step; case_match|done|done].
Qed.

Lemma solved_bins_centred_witness :
  let subs_of (h : string) :=
    if decide (h = "ann")
    then [submission 1 "PRACTICE" 800; submission 2 "VIRTUAL" 1200;
          submission 3 "PRACTICE" 900]
    else [] in
  800 <= 1000 /\
  exists r,
    solved PARTICIPANT_TYPES_of_spec subs_of ["ann"] ["PRACTICE"; "VIRTUAL"]
           800 1000 = Ok r /\
    solved_bins r = [750; 850; 950; 1050] /\
    len (solved_bins r) = (1000 - 800) / 100 + 2 /\
    forall k, 0 <= k <= (1000 - 800) / 100 ->
      solved_bins r !! Z.to_nat k = Some (800 + k * 100 - 100 / 2) /\
      solved_bins r !! Z.to_nat (k + 1) = Some (800 + k * 100 + 100 / 2).
Proof.
  intros subs_of.
  assert (Hle : 800 <= 1000) by lia.
  split; [exact Hle|].
  destruct (solved PARTICIPANT_TYPES_of_spec subs_of ["ann"]
              ["PRACTICE"; "VIRTUAL"] 800 1000) as [r|e] eqn:Hrun;
    [|vm_compute in Hrun; discriminate].
  exists r. split; [reflexivity|]. split.
  - assert (Hr : Ok r = solved PARTICIPANT_TYPES_of_spec subs_of ["ann"]
                          ["PRACTICE"; "VIRTUAL"] 800 1000) by done.
    vm_compute in Hr. injection Hr as ->. reflexivity.
  - exact (solved_bins_centred PARTICIPANT_TYPES_of_spec subs_of ["ann"]
             ["PRACTICE"; "VIRTUAL"] 800 1000 r Hrun Hle).
Defined.

(** X28. The counts that [solved] shows for one handle.  Whenever the
    command succeeds, series [i] holds the problem ratings of the
    submissions of type [types[i]], in submission order, and legend entry
    [i] is the display name of that type followed by their number; and
    when the types asked for are pairwise distinct, the title shows the
    handle and the number of submissions whose type is asked for. *)
Theorem solved_single_counts (PARTICIPANT_TYPES : list string)
    (solved_subs_of : string -> list cf.Submission)
    (handle : string) (types : list string) (rlo rhi : Z) (r : Solved) :
  solved PARTICIPANT_TYPES solved_subs_of [handle] types rlo rhi = Ok r ->
  let by_type t :=
    filter (fun s => cf.participantType (cf.author s) = t)
           (solved_subs_of handle) in
  (forall (i : nat) (t : string), types !! i = Some t ->
     exists prefix,
       nice_map !! t = Some (prefix +:+ "{}") /\
       solved_all_ratings r !! i
       = Some ((fun sub => cf.rating (cf.problem sub)) <$> by_type t) /\
       solved_labels r !! i
       = Some (prefix +:+ pretty (len (by_type t)))) /\
  (NoDup types ->
   solved_title r
   = Some (handle +:+ ": "
             +:+ pretty (len (filter
                   (fun s => cf.participantType (cf.author s) ∈ types)
                   (solved_subs_of handle))))).
Proof.
  intros Hrun by_type.
  destruct (solved_one_ok_inv _ _ _ _ _ _ _ Hrun)
    as (Hsome & Hknown & Htypes & Hnamed).
  destruct (solved_one_run PARTICIPANT_TYPES solved_subs_of handle types
              rlo rhi Hsome Hknown Htypes Hnamed)
    as (labels & hist_bins & _ & _ & Hlabels & Hrun').
  rewrite Hrun in Hrun'. injection Hrun' as ->.
  cbn [solved_all_ratings solved_labels solved_title]. split.
  - intros i t Ht. destruct (Hlabels i t Ht) as (prefix & Hprefix & Hlabel).
    exists prefix. split; [done|]. split; [|done].
    by rewrite list_lookup_fmap, Ht.
  - intros Hnodup.
    apply (f_equal (fun n : nat =>
                      Some (handle +:+ ": " +:+ pretty (Z.of_nat n)))).
    apply Permutation_length.
    exact (concat_filter_by_key
             (fun s => cf.participantType (cf.author s)) types
             (solved_subs_of handle) Hnodup).
Qed.

Lemma solved_single_counts_witness :
  let subs_of (h : string) :=
    if decide (h = "ann")
    then [submission 1 "PRACTICE" 800; submission 2 "VIRTUAL" 1200;
          submission 3 "PRACTICE" 900; submission 4 "CONTESTANT" 1000]
    else [] in
  exists r,
    solved PARTICIPANT_TYPES_of_spec subs_of ["ann"] ["PRACTICE"; "VIRTUAL"]
           800 1500 = Ok r /\
    solved_all_ratings r = [[800; 900]; [1200]] /\
    solved_labels r = ["Practice: 2"; "Virtual: 1"] /\
    NoDup ["PRACTICE"; "VIRTUAL"] /\
    solved_title r = Some "ann: 3".
Proof.
  intros subs_of.
  destruct (solved PARTICIPANT_TYPES_of_spec subs_of ["ann"]
              ["PRACTICE"; "VIRTUAL"] 800 1500) as [r|e] eqn:Hrun;
    [|vm_compute in Hrun; discriminate].
  destruct (solved_single_counts PARTICIPANT_TYPES_of_spec subs_of "ann"
              ["PRACTICE"; "VIRTUAL"] 800 1500 r Hrun) as [_ Htitle].
  assert (Hnodup : NoDup ["PRACTICE"; "VIRTUAL"])
    by (apply (bool_decide_unpack _); vm_compute; reflexivity).
  specialize (Htitle Hnodup).
  exists r. split; [reflexivity|].
  assert (Hr : Ok r = solved PARTICIPANT_TYPES_of_spec subs_of ["ann"]
                        ["PRACTICE"; "VIRTUAL"] 800 1500) by done.
  vm_compute in Hr. injection Hr as Hr.
  split; [rewrite Hr at 1; reflexivity|].
  split; [rewrite Hr at 1; reflexivity|].
  split; [exact Hnodup|]. rewrite Htitle. reflexivity.
Defined.
